(** * ardor-ai-blog: the agentic workflow engine and the BMI endpoint

    A shallow embedding of the Python sources

    - [src/config/ai_models_config.py]  (configuration holder, templaters)
    - [src/agents/{base,research,writer,image}.py]  (capability agents)
    - [examples/enhanced_demo.py]  (demo agents, orchestrator, HTML assembly)
    - [fastapi-mcp-demo/main.py]  (BMI endpoint)

    Conventions.  A Python [str] is a list of Unicode code points; a [dict]
    with string keys is a [gmap string _]; a Python [float] is a binary64
    primitive float; an exception is a value of [exn] returned in [Raise];
    code that mutates [self] returns the new object next to its outcome. *)

From Stdlib Require Import ZArith NArith List String Ascii Bool Lia Floats.
From stdpp Require Import gmap strings.

Set Default Proof Using "Type".
#[local] Set Warnings "-inexact-float".
Open Scope Z_scope.

(** ** Python values *)

Module Py.

(** [str]: a sequence of code points. *)
Definition pystr : Type := list N.

(** An ASCII literal of the source. *)
Definition lit (s : string) : pystr :=
  List.map N_of_ascii (list_ascii_of_string s).

Definition str_eqb (a b : pystr) : bool := bool_decide (a = b).

(** [len(s)], of a string or a list. *)
Definition len {A : Type} (s : list A) : Z := Z.of_nat (length s).

(** [s.startswith(p)] *)
Fixpoint startswith (s p : pystr) {struct p} : bool :=
  match p, s with
  | [], _ => true
  | _ :: _, [] => false
  | c :: p', d :: s' => N.eqb c d && startswith s' p'
  end.

Definition dq : pystr := [34%N].
Definition nl : pystr := [10%N].

(** [c.isspace()] for one code point: the white-space table of CPython's
    Unicode database. *)
Definition isspace (c : N) : bool :=
  ((9 <=? c) && (c <=? 13) || (28 <=? c) && (c <=? 32)
   || (c =? 133) || (c =? 160) || (c =? 5760)
   || (8192 <=? c) && (c <=? 8202)
   || (c =? 8232) || (c =? 8233) || (c =? 8239) || (c =? 8287)
   || (c =? 12288))%N.

(** [s.split()]: the maximal runs of characters that are not white space.
    [cur] is the run being read, last character first. *)
Fixpoint split_from (cur : option pystr) (s : pystr) : list pystr :=
  match s with
  | [] => match cur with Some w => [rev w] | None => [] end
  | c :: s' =>
      if isspace c then
        match cur with
        | Some w => rev w :: split_from None s'
        | None => split_from None s'
        end
      else split_from (Some (c :: default [] cur)) s'
  end.
Definition split (s : pystr) : list pystr := split_from None s.

(** The number of words [split_from] yields; [in_word] tells whether a
    run is being read. *)
Fixpoint count_from (in_word : bool) (s : pystr) : nat :=
  match s with
  | [] => if in_word then 1 else 0
  | c :: s' =>
      if isspace c then ((if in_word then 1 else 0) + count_from false s')%nat
      else count_from true s'
  end.

(** [s.lstrip()], [s.rstrip()], [s.strip()] *)
Fixpoint lstrip (s : pystr) : pystr :=
  match s with
  | c :: s' => if isspace c then lstrip s' else s
  | [] => []
  end.
Definition rstrip (s : pystr) : pystr := rev (lstrip (rev s)).
Definition strip (s : pystr) : pystr := rstrip (lstrip s).

(** [sep.join(l)] *)
Fixpoint join (sep : pystr) (l : list pystr) : pystr :=
  match l with
  | [] => []
  | [x] => x
  | x :: l' => x ++ sep ++ join sep l'
  end.

(** [sub in s]: [sub] occurs in [s] as a substring. *)
Fixpoint contains (s sub : pystr) : bool :=
  if startswith s sub then true
  else match s with
       | [] => false
       | _ :: s' => contains s' sub
       end.

(** [x in l] for a list of strings. *)
Definition str_in (x : pystr) (l : list pystr) : bool :=
  existsb (str_eqb x) l.

(** The values that occur in the configuration dictionaries. *)
Inductive PyVal : Type :=
| VNone
| VBool (b : bool)
| VInt (n : Z)
| VFloat (f : float)
| VStr (s : pystr).

(** Truth value of an object, as [if x] / [not x] test it. *)
Definition truthy (v : PyVal) : bool :=
  match v with
  | VNone => false
  | VBool b => b
  | VInt n => negb (n =? 0)
  | VFloat f => negb (PrimFloat.eqb f 0%float)
  | VStr s => match s with [] => false | _ :: _ => true end
  end.

(** [v in l] where [l] is a list of strings: [==] between a string and a
    value of another type is [False]. *)
Definition val_in (v : PyVal) (l : list pystr) : bool :=
  match v with
  | VStr s => str_in s l
  | _ => false
  end.

(** [d.get(k)] and [d.get(k, default)] *)
Definition dict_get (d : gmap string PyVal) (k : string) : PyVal :=
  default VNone (d !! k).
Definition dict_get_or (d : gmap string PyVal) (k : string) (dflt : PyVal) : PyVal :=
  default dflt (d !! k).

(** Exception classes of the program (all derive from [Exception]). *)
Inductive exn : Type :=
| Exception
| AIConfigError
| InvalidAPIKeyError
| UnsupportedModelError
| AgentError
| ModelInitializationError
| ResearchAgentError
| WriterAgentError
| ImageAgentError
| ValueError
| ValidationError
| JSONDecodeError
| KeyError
| TypeError
| AttributeError
| IndexError
| UnicodeEncodeError
| ZeroDivisionError
| OverflowError
| OpenAIError.

(** The direct base class, [None] for [Exception] itself. *)
Definition base_class (e : exn) : option exn :=
  match e with
  | Exception => None
  | AIConfigError => Some Exception
  | InvalidAPIKeyError => Some AIConfigError
  | UnsupportedModelError => Some AIConfigError
  | AgentError => Some Exception
  | ModelInitializationError => Some AgentError
  | ResearchAgentError => Some AgentError
  | WriterAgentError => Some AgentError
  | ImageAgentError => Some AgentError
  | ValueError => Some Exception
  | ValidationError => Some ValueError
  | JSONDecodeError => Some ValueError
  | KeyError => Some Exception
  | TypeError => Some Exception
  | AttributeError => Some Exception
  | IndexError => Some Exception
  | UnicodeEncodeError => Some ValueError
  | ZeroDivisionError => Some Exception
  | OverflowError => Some Exception
  | OpenAIError => Some Exception
  end.

Definition exn_eqb (a b : exn) : bool :=
  match a, b with
  | Exception, Exception | AIConfigError, AIConfigError
  | InvalidAPIKeyError, InvalidAPIKeyError
  | UnsupportedModelError, UnsupportedModelError
  | AgentError, AgentError
  | ModelInitializationError, ModelInitializationError
  | ResearchAgentError, ResearchAgentError
  | WriterAgentError, WriterAgentError
  | ImageAgentError, ImageAgentError
  | ValueError, ValueError | ValidationError, ValidationError
  | JSONDecodeError, JSONDecodeError | KeyError, KeyError
  | TypeError, TypeError | AttributeError, AttributeError
  | IndexError, IndexError | UnicodeEncodeError, UnicodeEncodeError
  | ZeroDivisionError, ZeroDivisionError | OverflowError, OverflowError
  | OpenAIError, OpenAIError => true
  | _, _ => false
  end.

(** [isinstance(e, cls)]: walk up the base classes (the hierarchy is three
    levels deep). *)
Fixpoint isinstance_fuel (n : nat) (e cls : exn) : bool :=
  exn_eqb e cls ||
  match n with
  | O => false
  | S n' => match base_class e with
            | Some b => isinstance_fuel n' b cls
            | None => false
            end
  end.
Definition isinstance (e cls : exn) : bool := isinstance_fuel 3 e cls.

(** The outcome of a call: a value, or a raised exception. *)
Inductive result (A : Type) : Type :=
| Ok (a : A)
| Raise (e : exn).
Arguments Ok {A} a.
Arguments Raise {A} e.

Definition bind {A B} (r : result A) (k : A -> result B) : result B :=
  match r with
  | Ok a => k a
  | Raise e => Raise e
  end.

Definition is_ok {A} (r : result A) : bool :=
  match r with Ok _ => true | Raise _ => false end.

End Py.
Import Py.

#[global] Instance result_bind : MBind result := λ A B k r, Py.bind r k.
#[global] Instance result_ret : MRet result := @Py.Ok.
#[global] Instance result_fmap : FMap result :=
  λ A B f r, match r with Ok a => Ok (f a) | Raise e => Raise e end.

(** ** The configuration holder ([src/config/ai_models_config.py]) *)

Module Config.

Inductive AIProvider : Type := SIMULATION | OPENAI | ANTHROPIC | GOOGLE.

(** [provider.value] *)
Definition value (p : AIProvider) : string :=
  match p with
  | SIMULATION => "simulation"
  | OPENAI => "openai"
  | ANTHROPIC => "anthropic"
  | GOOGLE => "google"
  end.

(** [AIConfig.SUPPORTED_MODELS["openai"]] *)
Definition SUPPORTED_MODELS_openai : gmap string (list pystr) :=
  <["chat" := [lit "gpt-4-1106-preview"; lit "gpt-4"; lit "gpt-3.5-turbo"]]>
  (<["image" := [lit "dall-e-3"; lit "dall-e-2"]]> ∅).

Definition SUPPORTED_MODELS : gmap string (gmap string (list pystr)) :=
  <["openai" := SUPPORTED_MODELS_openai]> ∅.

(** [SUPPORTED_MODELS["openai"][model_type]]; both keys are literals of the
    source that are present in the table. *)
Definition supported (model_type : string) : list pystr :=
  default [] (default ∅ (SUPPORTED_MODELS !! "openai") !! model_type).

(** An [AIConfig] object.  [api_keys] holds, for each provider name, what
    [os.getenv] returned: a string or [None]. *)
Record AIConfig : Type := mkAIConfig {
  provider : AIProvider;
  api_keys : gmap string (option pystr);
  research_config : gmap string PyVal;
  writing_config : gmap string PyVal;
  image_config : gmap string PyVal
}.

(** The process environment read by [os.getenv]. *)
Definition environ : Type := gmap string pystr.
Definition getenv (env : environ) (k : string) : option pystr := env !! k.

Definition default_research_config : gmap string PyVal :=
  <["model" := VStr (lit "gpt-4-1106-preview")]>
  (<["max_completion_tokens" := VInt 1500]>
  (<["temperature" := VFloat 0.3%float]>
  (<["simulation_mode" := VBool true]> ∅))).

Definition default_writing_config : gmap string PyVal :=
  <["model" := VStr (lit "gpt-4-1106-preview")]>
  (<["max_completion_tokens" := VInt 2000]>
  (<["temperature" := VFloat 0.7%float]>
  (<["simulation_mode" := VBool true]> ∅))).

Definition default_image_config : gmap string PyVal :=
  <["model" := VStr (lit "dall-e-3")]>
  (<["size" := VStr (lit "1024x1024")]>
  (<["quality" := VStr (lit "standard")]>
  (<["simulation_mode" := VBool true]> ∅))).

(** [_validate_model_config(agent_type, config)] *)
Definition _validate_model_config (agent_type : string)
    (config : gmap string PyVal) : result unit :=
  if negb (truthy (dict_get config "simulation_mode")) then
    let model := dict_get config "model" in
    if negb (truthy model) then Raise UnsupportedModelError
    else
      let model_type :=
        if bool_decide (agent_type = "image"%string) then "image"%string
        else "chat"%string in
      if negb (val_in model (supported model_type))
      then Raise UnsupportedModelError
      else Ok tt
  else Ok tt.

(** [_validate_configs()] *)
Definition _validate_configs (self : AIConfig) : result unit :=
  _validate_model_config "research" (research_config self) ;;
  _validate_model_config "writing" (writing_config self) ;;
  _validate_model_config "image" (image_config self).

(** [AIConfig.__init__]: the object as built, and the outcome of the
    validation that ends the constructor. *)
Definition init_object (env : environ) : AIConfig :=
  {| provider := SIMULATION;
     api_keys :=
       <["openai" := getenv env "OPENAI_API_KEY"]>
       (<["anthropic" := getenv env "ANTHROPIC_API_KEY"]>
       (<["google" := getenv env "GOOGLE_AI_API_KEY"]> ∅));
     research_config := default_research_config;
     writing_config := default_writing_config;
     image_config := default_image_config |}.

Definition __init__ (env : environ) : result AIConfig :=
  let self := init_object env in
  _validate_configs self ;; Ok self.

(** [has_valid_api_key(provider)] *)
Definition has_valid_api_key (self : AIConfig) (p : AIProvider) : bool :=
  match mjoin (api_keys self !! value p) with
  | None => false
  | Some key =>
    if negb (truthy (VStr key)) then false
    else if len key <? 20 then false
    else
      match p with
      | OPENAI =>
          if negb (startswith key (lit "sk-") || startswith key (lit "org-"))
          then false else true
      | ANTHROPIC =>
          if negb (startswith key (lit "sk-ant-")) then false else true
      | _ => true
      end
  end.

Definition set_simulation_mode (b : bool) (config : gmap string PyVal)
    : gmap string PyVal :=
  <["simulation_mode" := VBool b]> config.

(** [enable_real_ai(provider)]: the object after the call (the assignments
    made before a [raise] stay) and the outcome. *)
Definition enable_real_ai (self : AIConfig) (p : AIProvider)
    : AIConfig * result unit :=
  if negb (has_valid_api_key self p) then (self, Raise InvalidAPIKeyError)
  else
    let self' :=
      {| provider := p;
         api_keys := api_keys self;
         research_config := set_simulation_mode false (research_config self);
         writing_config := set_simulation_mode false (writing_config self);
         image_config := set_simulation_mode false (image_config self) |} in
    (self', _validate_configs self').

(** [config["simulation_mode"]] as a truth value ([False] when absent, as
    [config.get("simulation_mode")] reads it). *)
Definition simulation_mode (config : gmap string PyVal) : bool :=
  truthy (dict_get config "simulation_mode").

(** The allowlist a capability is checked against. *)
Definition allowlist (agent_type : string) : list pystr :=
  supported (if bool_decide (agent_type = "image"%string) then "image"%string
             else "chat"%string).

(** A model value passes the re-validation of a capability. *)
Definition model_supported (agent_type : string) (config : gmap string PyVal)
    : bool :=
  val_in (dict_get config "model") (allowlist agent_type).

End Config.

(** *** The configuration contract, in the words of the specification *)

Module ConfigSpec.
Import Config.

(** The credential registered for a provider, if any. *)
Definition credential (self : AIConfig) (p : AIProvider) : option pystr :=
  mjoin (api_keys self !! value p).

(** The provider-specific prefix check. *)
Definition prefix_ok (p : AIProvider) (key : pystr) : bool :=
  match p with
  | OPENAI => startswith key (lit "sk-") || startswith key (lit "org-")
  | ANTHROPIC => startswith key (lit "sk-ant-")
  | SIMULATION | GOOGLE => true
  end.

(** No credential is registered, or the registered one fails the
    minimum-length (>= 20) or the prefix check. *)
Definition credential_rejected (self : AIConfig) (p : AIProvider) : Prop :=
  match credential self p with
  | None => True
  | Some key => len key < 20 ∨ prefix_ok p key = false
  end.

(** Every capability's configured model is in that capability's allowlist. *)
Definition all_models_supported (self : AIConfig) : bool :=
  model_supported "research" (research_config self)
  && model_supported "writing" (writing_config self)
  && model_supported "image" (image_config self).

(** All three capability configurations report simulation = false. *)
Definition all_real (self : AIConfig) : Prop :=
  simulation_mode (research_config self) = false
  ∧ simulation_mode (writing_config self) = false
  ∧ simulation_mode (image_config self) = false.

(** The configuration state a caller observes: the provider and the three
    simulation flags. *)
Definition observable (self : AIConfig) : AIProvider * bool * bool * bool :=
  (provider self,
   simulation_mode (research_config self),
   simulation_mode (writing_config self),
   simulation_mode (image_config self)).

(** The public operations on the configuration object. *)
Inductive op : Type :=
| op_enable_real_ai (p : AIProvider)
| op_has_valid_api_key (p : AIProvider).

(** The object after one public operation (whatever its outcome). *)
Definition step (self : AIConfig) (o : op) : AIConfig :=
  match o with
  | op_enable_real_ai p => fst (enable_real_ai self p)
  | op_has_valid_api_key p => let _ := has_valid_api_key self p in self
  end.

(** The object reached from construction by a sequence of operations. *)
Definition run (env : environ) (ops : list op) : AIConfig :=
  fold_left step ops (init_object env).

(** The constructed default models. *)
Definition default_models (self : AIConfig) : Prop :=
  dict_get (research_config self) "model" = VStr (lit "gpt-4-1106-preview")
  ∧ dict_get (writing_config self) "model" = VStr (lit "gpt-4-1106-preview")
  ∧ dict_get (image_config self) "model" = VStr (lit "dall-e-3").

(** A configuration whose research model was replaced, through the public
    [research_config] attribute, by the model name the demo falls back to;
    an OpenAI credential of the right shape is present. *)
Definition tampered : AIConfig :=
  let c := init_object {[ "OPENAI_API_KEY" := lit "sk-0123456789abcdefghij" ]} in
  {| provider := provider c;
     api_keys := api_keys c;
     research_config :=
       <["model" := VStr (lit "o4-mini-2025-04-16")]> (research_config c);
     writing_config := writing_config c;
     image_config := image_config c |}.

End ConfigSpec.

(** ** The content templaters ([src/config/ai_models_config.py]) *)

(** The part of the OpenAI SDK the program touches. *)
Module OpenAI.

(** An [AsyncOpenAI] client object. *)
Record Client : Type := mkClient { api_key : option pystr }.

(** The keyword arguments of [chat.completions.create]; [None] for an
    argument the call does not pass.  [response_format_json] stands for
    [response_format={"type": "json_object"}]. *)
Record ChatRequest : Type := mkChatRequest {
  model : PyVal;
  messages : list (pystr * pystr);
  max_tokens : option PyVal;
  max_completion_tokens : option PyVal;
  temperature : option PyVal;
  response_format_json : bool
}.

(** A chat completion: [choices[i].message.content] for each choice. *)
Definition ChatCompletion : Type := list (option pystr).

(** The keyword arguments of [images.generate]. *)
Record ImagesRequest : Type := mkImagesRequest {
  image_model : PyVal;
  prompt : pystr;
  size : PyVal;
  quality : PyVal;
  n : Z;
  response_format : option pystr
}.

(** One entry of [response.data]. *)
Record Image : Type := mkImage {
  b64_json : option pystr;
  url : option pystr
}.

Definition ImagesResponse : Type := list Image.

End OpenAI.

(** The research brief: the dictionary with the six keys [title],
    [executive_summary], [key_points], [keywords], [research_confidence]
    and [methodology] that the research stage produces. *)
Module Brief.
Record t : Type := mk {
  title : pystr;
  executive_summary : pystr;
  key_points : list pystr;
  keywords : list pystr;
  research_confidence : float;
  methodology : pystr
}.
End Brief.

(** A reading of [datetime.now()]. *)
Definition datetime : Type := Z.

(** What the program calls but does not define: library functions and the
    remote API.  Every property below holds for each [Runtime]. *)
Class Runtime : Type := {
  (** [str.lower]: CPython's Unicode lower-casing. *)
  str_lower : pystr → pystr;
  (** [str(x)] of a float: its shortest round-tripping decimal text. *)
  float_repr : float → pystr;
  (** [json.dumps] of a list of strings. *)
  json_dumps : list pystr → pystr;
  (** [json.loads(content)] followed by the conversion of the entries of the
      object to the field types [ResearchResponse] declares; it raises when
      the text is not JSON, not an object, or an entry is missing or has
      another type. *)
  json_loads_fields : option pystr → result Brief.t;
  (** [json.loads(content)] in the demo, which uses the object as a brief
      without validating it: only objects with a brief's entries are
      modelled. *)
  json_loads : option pystr → result Brief.t;
  (** The constructor [AsyncOpenAI(api_key=...)]. *)
  AsyncOpenAI : option pystr → result OpenAI.Client;
  (** [await client.chat.completions.create(...)] *)
  chat_completions_create :
    OpenAI.Client → OpenAI.ChatRequest → result OpenAI.ChatCompletion;
  (** [await client.images.generate(...)] *)
  images_generate :
    OpenAI.Client → OpenAI.ImagesRequest → result OpenAI.ImagesResponse;
  (** The successive readings of [datetime.now()]. *)
  now : nat → datetime;
  (** [t.strftime('%Y-%m-%d %H:%M:%S')] *)
  strftime : datetime → pystr
}.

Module Templates.

(** [get_enhanced_research_content(topic)] *)
Definition get_enhanced_research_content `{Runtime} (topic : pystr)
    : Brief.t :=
  {| Brief.title := lit "Strategic Analysis: " ++ topic;
     Brief.executive_summary :=
       lit "Comprehensive analysis of " ++ topic
       ++ lit " reveals significant opportunities for innovation and market "
       ++ lit "growth. Key technological advances and changing user behaviors "
       ++ lit "are creating new possibilities for disruption and value creation.";
     Brief.key_points :=
       [ lit "Market adoption of " ++ topic
         ++ lit " technologies accelerating 45% faster than predicted";
         lit "Regulatory environment increasingly supportive with new frameworks";
         lit "Supply chain optimization creating 30-35% cost reduction opportunities";
         lit "Consumer trust metrics showing 82% positive sentiment";
         lit "Investment surge with $3.8B in new funding across sector" ];
     Brief.keywords :=
       [ str_lower topic;
         lit "innovation";
         lit "market growth";
         lit "technology";
         lit "digital transformation";
         lit "strategic analysis" ];
     Brief.research_confidence := 0.926%float;
     Brief.methodology := lit "Multi-source analysis with AI-powered synthesis" |}.

(** The fixed text of the article skeleton, cut at the three places where
    [get_enhanced_writing_content] interpolates. *)
Definition article_0 : pystr :=
  nl
  ++ lit "    <h1>".

Definition article_1 : pystr :=
  lit "</h1>" ++ nl
  ++ lit "    " ++ nl
  ++ lit "    <div class=" ++ dq ++ lit "executive-summary" ++ dq ++ lit ">" ++ nl
  ++ lit "        <p>".

Definition article_2 : pystr :=
  lit "</p>" ++ nl
  ++ lit "    </div>" ++ nl
  ++ lit "    " ++ nl
  ++ lit "    <h2>Key Strategic Insights</h2>" ++ nl
  ++ lit "    <div class=" ++ dq ++ lit "key-insights" ++ dq ++ lit ">" ++ nl
  ++ lit "        <ul>" ++ nl
  ++ lit "            ".

Definition article_3 : pystr :=
  nl
  ++ lit "        </ul>" ++ nl
  ++ lit "    </div>" ++ nl
  ++ lit "    " ++ nl
  ++ lit "    <h2>Detailed Analysis</h2>" ++ nl
  ++ lit "    <p>Our comprehensive analysis reveals a rapidly evolving landscape "
  ++ lit "with significant implications for industry leaders and innovators "
  ++ lit "alike. The convergence of technological advancement and market demand "
  ++ lit "is creating unprecedented opportunities for organizations that can "
  ++ lit "effectively navigate this transformation.</p>" ++ nl
  ++ lit "    " ++ nl
  ++ lit "    <h2>Market Dynamics</h2>" ++ nl
  ++ lit "    <p>The market is experiencing accelerated growth, driven by several "
  ++ lit "key factors:</p>" ++ nl
  ++ lit "    <ul>" ++ nl
  ++ lit "        <li>Technological Innovation: Rapid advancement in core "
  ++ lit "technologies</li>" ++ nl
  ++ lit "        <li>Market Demand: Growing user sophistication and "
  ++ lit "expectations</li>" ++ nl
  ++ lit "        <li>Regulatory Support: Favorable policy frameworks emerging "
  ++ lit "globally</li>" ++ nl
  ++ lit "        <li>Investment Climate: Strong venture capital and corporate "
  ++ lit "interest</li>" ++ nl
  ++ lit "    </ul>" ++ nl
  ++ lit "    " ++ nl
  ++ lit "    <h2>Strategic Recommendations</h2>" ++ nl
  ++ lit "    <p>Organizations should consider the following strategic "
  ++ lit "initiatives:</p>" ++ nl
  ++ lit "    <ol>" ++ nl
  ++ lit "        <li>Invest in technological capabilities and infrastructure</li>" ++ nl
  ++ lit "        <li>Build strategic partnerships across the ecosystem</li>" ++ nl
  ++ lit "        <li>Focus on user experience and trust-building</li>" ++ nl
  ++ lit "        <li>Develop clear regulatory compliance frameworks</li>" ++ nl
  ++ lit "    </ol>" ++ nl
  ++ lit "    " ++ nl
  ++ lit "    <h2>Conclusion</h2>" ++ nl
  ++ lit "    <p>The evolution of this space presents both challenges and "
  ++ lit "opportunities. Organizations that can effectively leverage these "
  ++ lit "insights while maintaining agility and innovation focus will be best "
  ++ lit "positioned for success in this dynamic environment.</p>" ++ nl
  ++ lit "    ".


(** [f"<li>{point}</li>"] *)
Definition li (point : pystr) : pystr := lit "<li>" ++ point ++ lit "</li>".

(** [get_enhanced_writing_content(brief)], on the three entries of [brief]
    it reads: [brief["title"]], [brief["executive_summary"]] and
    [brief["key_points"]]. *)
Definition get_enhanced_writing_content
    (title summary : pystr) (points : list pystr) : pystr :=
  article_0 ++ title ++ article_1 ++ summary ++ article_2
  ++ join [] (List.map li points) ++ article_3.

End Templates.

(** ** The agent base class ([src/agents/base.py]) *)

Module Agent.
Import Config.

(** An agent object.  Its [model_config] attribute is the dictionary of the
    shared [ai_config] object the constructor stored (an alias, not a
    copy): it is read from the configuration in force at each call. *)
Record t : Type := mk {
  name : pystr;
  description : pystr;
  openai_client : option OpenAI.Client
}.

Definition set_openai_client (self : t) (c : OpenAI.Client) : t :=
  {| name := name self; description := description self;
     openai_client := Some c |}.

(** The text [get_model_info] returns, by its three shapes. *)
Inductive ModelInfo : Type :=
| SimulationMode
| ModelOnly (model : pystr)
| ModelAtTemp (model : pystr) (temperature : PyVal).

(** [get_model_info()]; the substring test ['o4-mini' in model] raises
    [TypeError] when the configured model is not a string. *)
Definition get_model_info (model_config : gmap string PyVal)
    : result ModelInfo :=
  if truthy (dict_get_or model_config "simulation_mode" (VBool true))
  then Ok SimulationMode
  else
    match dict_get_or model_config "model" (VStr (lit "gpt-4-1106-preview")) with
    | VStr model =>
        if contains model (lit "o4-mini") then Ok (ModelOnly model)
        else Ok (ModelAtTemp model
                   (dict_get_or model_config "temperature" (VFloat 0.5%float)))
    | _ => Raise TypeError
    end.

(** [Agent.validate_model_config()] *)
Definition validate_model_config (model_config : gmap string PyVal)
    : result unit :=
  if bool_decide (is_Some (model_config !! "simulation_mode")) then Ok tt
  else Raise ModelInitializationError.

(** The override of [validate_model_config] in the three agents, which
    differ in [required_fields] only. *)
Definition validate_required_fields (required_fields : list string)
    (model_config : gmap string PyVal) : result unit :=
  validate_model_config model_config ;;
  if negb (truthy (dict_get model_config "simulation_mode")) then
    if forallb (λ field, bool_decide (is_Some (model_config !! field)))
         required_fields
    then Ok tt
    else Raise ModelInitializationError
  else Ok tt.

(** [_init_openai_client()], the same in the three agents. *)
Definition _init_openai_client `{Runtime} (ai_config : AIConfig) (self : t)
    : t * result unit :=
  if negb (bool_decide (is_Some (openai_client self)))
     && has_valid_api_key ai_config OPENAI
  then
    match AsyncOpenAI (mjoin (api_keys ai_config !! "openai")) with
    | Ok c => (set_openai_client self c, Ok tt)
    | Raise e =>
        (self, if isinstance e Exception then Raise ModelInitializationError
               else Raise e)
    end
  else (self, Ok tt).

(** What the [try] block of [process] ends in: a [return], or its normal
    end (no client, so nothing was returned). *)
Inductive attempt (A : Type) : Type :=
| Returned (a : A)
| FellThrough.
Arguments Returned {A} a.
Arguments FellThrough {A}.

(** The two handlers of the [try] block of [process]:
    [except (AIConfigError, ModelInitializationError)] and
    [except Exception] both only print; anything else propagates. *)
Definition handled (e : exn) : bool :=
  (isinstance e AIConfigError || isinstance e ModelInitializationError)
  || isinstance e Exception.

End Agent.

(** ** The research agent ([src/agents/research.py]) *)

Module ResearchAgent.
Import Config.

(** The keyword arguments the constructor [ResearchRequest] receives, with the
    types the fields declare; [None] for an absent key. *)
Module Message.
Record t : Type := mk { topic : option pystr; depth : option Z }.
End Message.

Module Request.
Record t : Type := mk { topic : pystr; depth : Z }.
End Request.

(** The constructor [ResearchRequest], with its field validation. *)
Definition ResearchRequest (message : Message.t) : result Request.t :=
  match Message.topic message with
  | None => Raise ValidationError
  | Some topic =>
      let depth := default 1 (Message.depth message) in
      if (1 <=? depth) && (depth <=? 3)
      then Ok {| Request.topic := topic; Request.depth := depth |}
      else Raise ValidationError
  end.

(** The constructor [ResearchResponse] on converted entries, then
    [model_dump()]: the declared bounds. *)
Definition ResearchResponse (result : Brief.t) : Py.result Brief.t :=
  if (3 <=? len (Brief.key_points result))
     && (1 <=? len (Brief.keywords result))
     && PrimFloat.leb 0%float (Brief.research_confidence result)
     && PrimFloat.leb (Brief.research_confidence result) 1%float
  then Ok result
  else Raise ValidationError.

Definition __init__ (ai_config : AIConfig) : result Agent.t :=
  Agent.validate_required_fields
    ["model"; "max_completion_tokens"; "temperature"]%string
    (research_config ai_config) ;;
  Ok {| Agent.name := lit "research_agent";
        Agent.description := lit "Analyzes topics using AI research models";
        Agent.openai_client := None |}.

Definition research_prompt_0 : pystr :=
  lit "Analyze the topic " ++ dq.

Definition research_prompt_1 : pystr :=
  dq ++ lit " and provide comprehensive research insights." ++ nl
  ++ lit "        " ++ nl
  ++ lit "        Return a JSON object with:" ++ nl
  ++ lit "        - title: Comprehensive analysis title" ++ nl
  ++ lit "        - executive_summary: 2-3 sentence overview" ++ nl
  ++ lit "        - key_points: Array of 4-5 key insights" ++ nl
  ++ lit "        - keywords: Array of relevant keywords" ++ nl
  ++ lit "        - research_confidence: Confidence score (0.0-1.0)" ++ nl
  ++ lit "        - methodology: Brief description of analysis approach" ++ nl
  ++ lit "        " ++ nl
  ++ lit "        Focus on technological, business, and strategic implications." ++ nl
  ++ lit "        " ++ nl
  ++ lit "        IMPORTANT: Return ONLY the JSON object, no other text.".

(** [_create_research_prompt(topic)] *)
Definition _create_research_prompt (topic : pystr) : pystr :=
  research_prompt_0 ++ topic ++ research_prompt_1.

Definition system_prompt : pystr :=
  lit "You are a research analysis AI that returns data in JSON format. "
  ++ lit "Always return valid JSON without any other text.".

(** [_call_real_ai(topic)] *)
Definition _call_real_ai `{Runtime} (ai_config : AIConfig) (self : Agent.t)
    (topic : pystr) : result Brief.t :=
  let model_config := research_config ai_config in
  match Agent.openai_client self with
  | None => Raise ModelInitializationError
  | Some client =>
      let body : result Brief.t :=
        let prompt := _create_research_prompt topic in
        completion ← chat_completions_create client
          {| OpenAI.model :=
               dict_get_or model_config "model" (VStr (lit "gpt-4-1106-preview"));
             OpenAI.messages :=
               [(lit "system", system_prompt); (lit "user", prompt)];
             OpenAI.max_tokens :=
               Some (dict_get_or model_config "max_completion_tokens" (VInt 1500));
             OpenAI.max_completion_tokens := None;
             OpenAI.temperature :=
               Some (dict_get_or model_config "temperature" (VFloat 0.3%float));
             OpenAI.response_format_json := true |};
        let parsed : result Brief.t :=
          match completion with
          | [] => Raise IndexError
          | content :: _ =>
              result ← json_loads_fields content;
              ResearchResponse result
          end in
        match parsed with
        | Ok response => Ok response
        | Raise e =>
            if isinstance e JSONDecodeError then Raise ResearchAgentError
            else if isinstance e Exception then Raise ResearchAgentError
            else Raise e
        end in
      match body with
      | Ok response => Ok response
      | Raise e =>
          if isinstance e Exception then Raise ResearchAgentError
          else Raise e
      end
  end.

(** The [try] block of [process]. *)
Definition real_attempt `{Runtime} (ai_config : AIConfig) (self : Agent.t)
    (request : Request.t) : Agent.t * result (Agent.attempt Brief.t) :=
  let '(self, r) := Agent._init_openai_client ai_config self in
  match r with
  | Raise e => (self, Raise e)
  | Ok _ =>
      if bool_decide (is_Some (Agent.openai_client self)) then
        (self,
         result ← _call_real_ai ai_config self (Request.topic request);
         Ok (Agent.Returned result))
      else (self, Ok Agent.FellThrough)
  end.

(** The enhanced simulation at the end of [process]. *)
Definition simulation `{Runtime} (request : Request.t) : Brief.t :=
  Templates.get_enhanced_research_content (Request.topic request).

(** [process(message)]: the agent afterwards, and the outcome. *)
Definition process `{Runtime} (ai_config : AIConfig) (self : Agent.t)
    (message : Message.t) : Agent.t * result Brief.t :=
  let model_config := research_config ai_config in
  match ResearchRequest message with
  | Raise e =>
      (self, if isinstance e Exception then Raise ResearchAgentError
             else Raise e)
  | Ok request =>
      match Agent.get_model_info model_config with
      | Raise e => (self, Raise e)
      | Ok _ =>
          if negb (truthy (dict_get_or model_config "simulation_mode" (VBool true)))
          then
            match real_attempt ai_config self request with
            | (self, Ok (Agent.Returned result)) => (self, Ok result)
            | (self, Ok Agent.FellThrough) => (self, Ok (simulation request))
            | (self, Raise e) =>
                if Agent.handled e then (self, Ok (simulation request))
                else (self, Raise e)
            end
          else (self, Ok (simulation request))
      end
  end.

End ResearchAgent.

(** ** The writer agent ([src/agents/writer.py]) *)

Module WriterAgent.
Import Config.

Module Message.
Record t : Type := mk {
  title : option pystr;
  executive_summary : option pystr;
  key_points : option (list pystr);
  keywords : option (list pystr);
  tone : option pystr
}.
End Message.

Module Request.
Record t : Type := mk {
  title : pystr;
  executive_summary : pystr;
  key_points : list pystr;
  keywords : list pystr;
  tone : pystr
}.
End Request.

Module Response.
Record t : Type := mk {
  article_text : pystr;
  keywords : list pystr;
  word_count : Z;
  writing_style : pystr
}.
End Response.

(** The validators [title_not_empty] and [summary_not_empty]. *)
Definition not_empty (v : pystr) : result pystr :=
  if negb (truthy (VStr (strip v))) then Raise ValueError
  else Ok (strip v).

(** The constructor [WriterRequest]: required fields, [min_items], the two
    validators (a [ValueError] of a validator surfaces as pydantic's
    [ValidationError]) and the defaults. *)
Definition WriterRequest (message : Message.t) : result Request.t :=
  match Message.title message, Message.executive_summary message,
        Message.key_points message with
  | Some title, Some summary, Some key_points =>
      match not_empty title, not_empty summary with
      | Ok title, Ok summary =>
          if 1 <=? len key_points then
            Ok {| Request.title := title;
                  Request.executive_summary := summary;
                  Request.key_points := key_points;
                  Request.keywords := default [] (Message.keywords message);
                  Request.tone :=
                    default (lit "professional") (Message.tone message) |}
          else Raise ValidationError
      | _, _ => Raise ValidationError
      end
  | _, _, _ => Raise ValidationError
  end.

(** The constructor [WriterResponse] followed by [model_dump()]:
    [word_count] must be at least 100. *)
Definition WriterResponse (article_text : pystr) (keywords : list pystr)
    (word_count : Z) (writing_style : pystr) : result Response.t :=
  if 100 <=? word_count then
    Ok {| Response.article_text := article_text;
          Response.keywords := keywords;
          Response.word_count := word_count;
          Response.writing_style := writing_style |}
  else Raise ValidationError.

Definition __init__ (ai_config : AIConfig) : result Agent.t :=
  Agent.validate_required_fields
    ["model"; "max_completion_tokens"; "temperature"]%string
    (writing_config ai_config) ;;
  Ok {| Agent.name := lit "writer_agent";
        Agent.description :=
          lit "Creates professional articles using AI writing models";
        Agent.openai_client := None |}.

Definition writing_prompt_0 : pystr :=
  lit "Create a professional article based on this research brief:" ++ nl
  ++ lit "        " ++ nl
  ++ lit "        Title: ".

Definition writing_prompt_1 : pystr :=
  nl
  ++ lit "        Executive Summary: ".

Definition writing_prompt_2 : pystr :=
  nl
  ++ lit "        Key Points: ".

Definition writing_prompt_3 : pystr :=
  nl
  ++ lit "        Writing Style: ".

Definition writing_prompt_4 : pystr :=
  nl
  ++ lit "        " ++ nl
  ++ lit "        Create a well-structured HTML article with:" ++ nl
  ++ lit "        - Professional introduction" ++ nl
  ++ lit "        - Detailed sections covering key points" ++ nl
  ++ lit "        - Strategic recommendations" ++ nl
  ++ lit "        - Compelling conclusion" ++ nl
  ++ lit "        " ++ nl
  ++ lit "        Target length: 400-600 words. Use ".

Definition writing_prompt_5 : pystr :=
  lit " writing style.".

(** [_create_writing_prompt(request)] *)
Definition _create_writing_prompt `{Runtime} (request : Request.t) : pystr :=
  writing_prompt_0 ++ Request.title request
  ++ writing_prompt_1 ++ Request.executive_summary request
  ++ writing_prompt_2 ++ json_dumps (Request.key_points request)
  ++ writing_prompt_3 ++ Request.tone request
  ++ writing_prompt_4 ++ Request.tone request
  ++ writing_prompt_5.

(** [_call_real_ai(request)]: the content of the first choice, which the
    SDK types as an optional string. *)
Definition _call_real_ai `{Runtime} (ai_config : AIConfig) (self : Agent.t)
    (request : Request.t) : result (option pystr) :=
  let model_config := writing_config ai_config in
  match Agent.openai_client self with
  | None => Raise ModelInitializationError
  | Some client =>
      let body : result (option pystr) :=
        let prompt := _create_writing_prompt request in
        completion ← chat_completions_create client
          {| OpenAI.model :=
               dict_get_or model_config "model" (VStr (lit "gpt-4-1106-preview"));
             OpenAI.messages := [(lit "user", prompt)];
             OpenAI.max_tokens :=
               Some (dict_get_or model_config "max_completion_tokens" (VInt 2000));
             OpenAI.max_completion_tokens := None;
             OpenAI.temperature :=
               Some (dict_get_or model_config "temperature" (VFloat 0.7%float));
             OpenAI.response_format_json := false |};
        match completion with
        | [] => Raise IndexError
        | content :: _ => Ok content
        end in
      match body with
      | Ok content => Ok content
      | Raise e =>
          if isinstance e Exception then Raise WriterAgentError else Raise e
      end
  end.

(** The [try] block of [process]. *)
Definition real_attempt `{Runtime} (ai_config : AIConfig) (self : Agent.t)
    (request : Request.t) : Agent.t * result (Agent.attempt Response.t) :=
  let '(self, r) := Agent._init_openai_client ai_config self in
  match r with
  | Raise e => (self, Raise e)
  | Ok _ =>
      if bool_decide (is_Some (Agent.openai_client self)) then
        (self,
         article_html ← _call_real_ai ai_config self request;
         match article_html with
         | None => Raise AttributeError (* [None] has no [split] *)
         | Some article_html =>
             result ← WriterResponse article_html (Request.keywords request)
                        (len (split article_html)) (Request.tone request);
             Ok (Agent.Returned result)
         end)
      else (self, Ok Agent.FellThrough)
  end.

(** The enhanced simulation at the end of [process]; its [WriterResponse]
    is built outside the [try] block. *)
Definition simulation (request : Request.t) : result Response.t :=
  let article_html :=
    Templates.get_enhanced_writing_content (Request.title request)
      (Request.executive_summary request) (Request.key_points request) in
  WriterResponse article_html (Request.keywords request)
    (len (split article_html)) (Request.tone request).

(** [process(message)] *)
Definition process `{Runtime} (ai_config : AIConfig) (self : Agent.t)
    (message : Message.t) : Agent.t * result Response.t :=
  let model_config := writing_config ai_config in
  match WriterRequest message with
  | Raise e =>
      (self, if isinstance e Exception then Raise WriterAgentError
             else Raise e)
  | Ok request =>
      match Agent.get_model_info model_config with
      | Raise e => (self, Raise e)
      | Ok _ =>
          if negb (truthy (dict_get_or model_config "simulation_mode" (VBool true)))
          then
            match real_attempt ai_config self request with
            | (self, Ok (Agent.Returned result)) => (self, Ok result)
            | (self, Ok Agent.FellThrough) => (self, simulation request)
            | (self, Raise e) =>
                if Agent.handled e then (self, simulation request)
                else (self, Raise e)
            end
          else (self, simulation request)
      end
  end.

End WriterAgent.

(** ** The image agent ([src/agents/image.py]) *)

Module ImageAgent.
Import Config.

Module Message.
Record t : Type := mk {
  prompt : option pystr;
  style : option pystr;
  size : option pystr;
  quality : option pystr
}.
End Message.

Module Request.
Record t : Type := mk {
  prompt : pystr;
  style : pystr;
  size : pystr;
  quality : pystr
}.
End Request.

Module Response.
Record t : Type := mk {
  image_data : pystr;
  prompt_used : pystr;
  style_used : pystr;
  dimensions : pystr
}.
End Response.

(** The validator [prompt_not_empty]. *)
Definition prompt_not_empty (v : pystr) : result pystr :=
  if negb (truthy (VStr (strip v))) then Raise ValueError
  else Ok (strip v).

(** The validators [validate_size] and [validate_quality]. *)
Definition validate_size (v : pystr) : result pystr :=
  if negb (str_in v [lit "1024x1024"; lit "1024x1792"; lit "1792x1024"])
  then Raise ValueError else Ok v.
Definition validate_quality (v : pystr) : result pystr :=
  if negb (str_in v [lit "standard"; lit "hd"])
  then Raise ValueError else Ok v.

(** A field with a default: its validator runs on a given value only. *)
Definition with_default (dflt : pystr) (validator : pystr → result pystr)
    (v : option pystr) : result pystr :=
  match v with
  | None => Ok dflt
  | Some v => validator v
  end.

(** The constructor [ImageRequest]. *)
Definition ImageRequest (message : Message.t) : result Request.t :=
  match Message.prompt message with
  | None => Raise ValidationError
  | Some prompt =>
      match prompt_not_empty prompt,
            with_default (lit "1024x1024") validate_size (Message.size message),
            with_default (lit "standard") validate_quality
              (Message.quality message) with
      | Ok prompt, Ok size, Ok quality =>
          Ok {| Request.prompt := prompt;
                Request.style :=
                  default (lit "professional") (Message.style message);
                Request.size := size;
                Request.quality := quality |}
      | _, _, _ => Raise ValidationError
      end
  end.

(** The constructor [ImageResponse] followed by [model_dump()];
    [image_data] must be a string. *)
Definition ImageResponse (image_data : option pystr)
    (prompt_used style_used dimensions : pystr) : result Response.t :=
  match image_data with
  | Some image_data =>
      Ok {| Response.image_data := image_data;
            Response.prompt_used := prompt_used;
            Response.style_used := style_used;
            Response.dimensions := dimensions |}
  | None => Raise ValidationError
  end.

Definition __init__ (ai_config : AIConfig) : result Agent.t :=
  Agent.validate_required_fields ["model"]%string (image_config ai_config) ;;
  Ok {| Agent.name := lit "image_agent";
        Agent.description :=
          lit "Creates professional images using AI image models";
        Agent.openai_client := None |}.

Definition style_prompts : gmap pystr pystr :=
  <[lit "professional" :=
      lit "Create a professional, high-quality image suitable for business use."]>
  (<[lit "modern" :=
      lit "Create a modern, sleek image with contemporary design elements."]>
  (<[lit "artistic" :=
      lit "Create an artistic, creative image with unique visual elements."]>
  (<[lit "minimalist" :=
      lit "Create a clean, minimalist image with essential elements only."]> ∅))).

(** [style_prompts.get(request.style, style_prompts["professional"])] *)
Definition style_prompt (style : pystr) : pystr :=
  default (default [] (style_prompts !! lit "professional"))
    (style_prompts !! style).

Definition image_prompt_0 : pystr :=
  [].

Definition image_prompt_1 : pystr :=
  nl
  ++ nl.

Definition image_prompt_2 : pystr :=
  nl
  ++ nl
  ++ lit "Ensure the image is:" ++ nl
  ++ lit "- High quality and well-composed" ++ nl
  ++ lit "- Appropriate for professional use" ++ nl
  ++ lit "- Clear and visually appealing" ++ nl
  ++ lit "- Consistent with requested style (".

Definition image_prompt_3 : pystr :=
  lit ")".

(** [_enhance_prompt(request)] *)
Definition _enhance_prompt (request : Request.t) : pystr :=
  image_prompt_0 ++ style_prompt (Request.style request)
  ++ image_prompt_1 ++ Request.prompt request
  ++ image_prompt_2 ++ Request.style request
  ++ image_prompt_3.

(** [_call_real_ai(request)] *)
Definition _call_real_ai `{Runtime} (ai_config : AIConfig) (self : Agent.t)
    (request : Request.t) : result (option pystr) :=
  let model_config := image_config ai_config in
  match Agent.openai_client self with
  | None => Raise ModelInitializationError
  | Some client =>
      let body : result (option pystr) :=
        let prompt := _enhance_prompt request in
        response ← images_generate client
          {| OpenAI.image_model :=
               dict_get_or model_config "model" (VStr (lit "dall-e-3"));
             OpenAI.prompt := prompt;
             OpenAI.size := VStr (Request.size request);
             OpenAI.quality := VStr (Request.quality request);
             OpenAI.n := 1;
             OpenAI.response_format := Some (lit "b64_json") |};
        match response with
        | [] => Raise ImageAgentError
        | image :: _ => Ok (OpenAI.b64_json image)
        end in
      match body with
      | Ok data => Ok data
      | Raise e =>
          if isinstance e Exception then Raise ImageAgentError else Raise e
      end
  end.

(** The [try] block of [process]. *)
Definition real_attempt `{Runtime} (ai_config : AIConfig) (self : Agent.t)
    (request : Request.t) : Agent.t * result (Agent.attempt Response.t) :=
  let '(self, r) := Agent._init_openai_client ai_config self in
  match r with
  | Raise e => (self, Raise e)
  | Ok _ =>
      if bool_decide (is_Some (Agent.openai_client self)) then
        (self,
         image_data ← _call_real_ai ai_config self request;
         result ← ImageResponse image_data (Request.prompt request)
                    (Request.style request) (Request.size request);
         Ok (Agent.Returned result))
      else (self, Ok Agent.FellThrough)
  end.

(** The placeholder of the simulation: the literal
    [b"SIMULATED_IMAGE_DATA"], which the string field decodes. *)
Definition SIMULATED_IMAGE_DATA : pystr := lit "SIMULATED_IMAGE_DATA".

(** The enhanced simulation at the end of [process]. *)
Definition simulation (request : Request.t) : result Response.t :=
  let image_data := SIMULATED_IMAGE_DATA in
  ImageResponse (Some image_data) (Request.prompt request)
    (Request.style request) (Request.size request).

(** [process(message)] *)
Definition process `{Runtime} (ai_config : AIConfig) (self : Agent.t)
    (message : Message.t) : Agent.t * result Response.t :=
  let model_config := image_config ai_config in
  match ImageRequest message with
  | Raise e =>
      (self, if isinstance e Exception then Raise ImageAgentError
             else Raise e)
  | Ok request =>
      match Agent.get_model_info model_config with
      | Raise e => (self, Raise e)
      | Ok _ =>
          if negb (truthy (dict_get_or model_config "simulation_mode" (VBool true)))
          then
            match real_attempt ai_config self request with
            | (self, Ok (Agent.Returned result)) => (self, Ok result)
            | (self, Ok Agent.FellThrough) => (self, simulation request)
            | (self, Raise e) =>
                if Agent.handled e then (self, simulation request)
                else (self, Raise e)
            end
          else (self, simulation request)
      end
  end.

End ImageAgent.

(** *** Vocabulary of the statements about the agents *)

Module AgentSpec.
Import Config.

(** The capability is in real mode: [process] takes the branch that calls
    the external API. *)
Definition real_mode (model_config : gmap string PyVal) : Prop :=
  truthy (dict_get_or model_config "simulation_mode" (VBool true)) = false.

(** The capability is in simulation mode. *)
Definition simulation_on (model_config : gmap string PyVal) : Prop :=
  truthy (dict_get_or model_config "simulation_mode" (VBool true)) = true.

(** The configured model (the default one when the key is absent) is a
    string, as in every configuration the constructor builds. *)
Definition model_is_str (model_config : gmap string PyVal) : Prop :=
  ∃ model : pystr,
    dict_get_or model_config "model" (VStr (lit "gpt-4-1106-preview"))
    = VStr model.

(** A runtime whose API is unreachable: the client can be built, and every
    call raises the SDK's error. *)
Definition ascii_lower (s : pystr) : pystr :=
  List.map (λ c, if ((65 <=? c) && (c <=? 90))%N then (c + 32)%N else c) s.

Definition offline : Runtime :=
  {| str_lower := ascii_lower;
     float_repr := λ _, [];
     json_dumps := λ _, [];
     json_loads_fields := λ _, Raise JSONDecodeError;
     json_loads := λ _, Raise JSONDecodeError;
     AsyncOpenAI := λ key, Ok {| OpenAI.api_key := key |};
     chat_completions_create := λ _ _, Raise OpenAIError;
     images_generate := λ _ _, Raise OpenAIError;
     now := λ n, Z.of_nat n;
     strftime := λ _, lit "2025-01-01 00:00:00" |}.

(** A runtime whose chat API answers every request with the text
    ["too short"]. *)
Definition terse : Runtime :=
  {| str_lower := ascii_lower;
     float_repr := λ _, [];
     json_dumps := λ _, [];
     json_loads_fields := λ _, Raise JSONDecodeError;
     json_loads := λ _, Raise JSONDecodeError;
     AsyncOpenAI := λ key, Ok {| OpenAI.api_key := key |};
     chat_completions_create := λ _ _, Ok [Some (lit "too short")];
     images_generate := λ _ _, Ok [];
     now := λ n, Z.of_nat n;
     strftime := λ _, lit "2025-01-01 00:00:00" |}.

(** The configuration after a successful [enable_real_ai(OPENAI)]. *)
Definition real_config : AIConfig :=
  fst (enable_real_ai
         (init_object {[ "OPENAI_API_KEY" := lit "sk-0123456789abcdefghij" ]})
         OPENAI).

(** The configuration as constructed without credentials. *)
Definition simulation_config : AIConfig := init_object ∅.

Definition research_agent : Agent.t :=
  {| Agent.name := lit "research_agent";
     Agent.description := lit "Analyzes topics using AI research models";
     Agent.openai_client := None |}.

Definition writer_agent : Agent.t :=
  {| Agent.name := lit "writer_agent";
     Agent.description :=
       lit "Creates professional articles using AI writing models";
     Agent.openai_client := None |}.

Definition image_agent : Agent.t :=
  {| Agent.name := lit "image_agent";
     Agent.description :=
       lit "Creates professional images using AI image models";
     Agent.openai_client := None |}.

Definition research_message (topic : pystr) (depth : Z)
    : ResearchAgent.Message.t :=
  {| ResearchAgent.Message.topic := Some topic;
     ResearchAgent.Message.depth := Some depth |}.

Definition writer_message (title : pystr) : WriterAgent.Message.t :=
  {| WriterAgent.Message.title := Some title;
     WriterAgent.Message.executive_summary := Some (lit "A summary.");
     WriterAgent.Message.key_points := Some [lit "One point"];
     WriterAgent.Message.keywords := None;
     WriterAgent.Message.tone := None |}.

Definition image_message (prompt : pystr) : ImageAgent.Message.t :=
  {| ImageAgent.Message.prompt := Some prompt;
     ImageAgent.Message.style := None;
     ImageAgent.Message.size := None;
     ImageAgent.Message.quality := None |}.

End AgentSpec.

(** ** Library functions of the demo: UTF-8, MD5, number formatting *)

(** [str.encode()]: UTF-8; surrogates cannot be encoded. *)
Module UTF8.

Definition encode_char (c : N) : result (list Z) :=
  let z := Z.of_N c in
  if z <? 0x80 then Ok [z]
  else if z <? 0x800 then
    Ok [Z.lor 0xC0 (Z.shiftr z 6); Z.lor 0x80 (Z.land z 0x3F)]
  else if (0xD800 <=? z) && (z <=? 0xDFFF) then Raise UnicodeEncodeError
  else if z <? 0x10000 then
    Ok [Z.lor 0xE0 (Z.shiftr z 12);
        Z.lor 0x80 (Z.land (Z.shiftr z 6) 0x3F);
        Z.lor 0x80 (Z.land z 0x3F)]
  else if z <? 0x110000 then
    Ok [Z.lor 0xF0 (Z.shiftr z 18);
        Z.lor 0x80 (Z.land (Z.shiftr z 12) 0x3F);
        Z.lor 0x80 (Z.land (Z.shiftr z 6) 0x3F);
        Z.lor 0x80 (Z.land z 0x3F)]
  else Raise UnicodeEncodeError.

Fixpoint encode (s : pystr) : result (list Z) :=
  match s with
  | [] => Ok []
  | c :: s' =>
      b ← encode_char c;
      bs ← encode s';
      Ok (b ++ bs)
  end.

End UTF8.

(** [hashlib.md5]: RFC 1321 on 32-bit words held in [Z]. *)
Module MD5.

Definition K : list Z :=
  [ 0xd76aa478; 0xe8c7b756; 0x242070db; 0xc1bdceee;
    0xf57c0faf; 0x4787c62a; 0xa8304613; 0xfd469501;
    0x698098d8; 0x8b44f7af; 0xffff5bb1; 0x895cd7be;
    0x6b901122; 0xfd987193; 0xa679438e; 0x49b40821;
    0xf61e2562; 0xc040b340; 0x265e5a51; 0xe9b6c7aa;
    0xd62f105d; 0x02441453; 0xd8a1e681; 0xe7d3fbc8;
    0x21e1cde6; 0xc33707d6; 0xf4d50d87; 0x455a14ed;
    0xa9e3e905; 0xfcefa3f8; 0x676f02d9; 0x8d2a4c8a;
    0xfffa3942; 0x8771f681; 0x6d9d6122; 0xfde5380c;
    0xa4beea44; 0x4bdecfa9; 0xf6bb4b60; 0xbebfbc70;
    0x289b7ec6; 0xeaa127fa; 0xd4ef3085; 0x04881d05;
    0xd9d4d039; 0xe6db99e5; 0x1fa27cf8; 0xc4ac5665;
    0xf4292244; 0x432aff97; 0xab9423a7; 0xfc93a039;
    0x655b59c3; 0x8f0ccc92; 0xffeff47d; 0x85845dd1;
    0x6fa87e4f; 0xfe2ce6e0; 0xa3014314; 0x4e0811a1;
    0xf7537e82; 0xbd3af235; 0x2ad7d2bb; 0xeb86d391 ].

Definition S : list Z :=
  [ 7; 12; 17; 22; 7; 12; 17; 22; 7; 12; 17; 22; 7; 12; 17; 22;
    5; 9; 14; 20; 5; 9; 14; 20; 5; 9; 14; 20; 5; 9; 14; 20;
    4; 11; 16; 23; 4; 11; 16; 23; 4; 11; 16; 23; 4; 11; 16; 23;
    6; 10; 15; 21; 6; 10; 15; 21; 6; 10; 15; 21; 6; 10; 15; 21 ].

Definition wrap32 (x : Z) : Z := x mod 2 ^ 32.
Definition not32 (x : Z) : Z := Z.lxor x 0xFFFFFFFF.
Definition rotl32 (x c : Z) : Z :=
  Z.lor (wrap32 (Z.shiftl x c)) (Z.shiftr x (32 - c)).

Definition nth_word (l : list Z) (i : Z) : Z := nth (Z.to_nat i) l 0.

(** One of the 64 operations on the state [(a, b, c, d)] with the message
    words [M]. *)
Definition operation (M : list Z) (st : Z * Z * Z * Z) (i : Z)
    : Z * Z * Z * Z :=
  let '(a, b, c, d) := st in
  let '(f, g) :=
    if i <? 16 then (Z.lor (Z.land b c) (Z.land (not32 b) d), i)
    else if i <? 32 then
      (Z.lor (Z.land d b) (Z.land (not32 d) c), (5 * i + 1) mod 16)
    else if i <? 48 then (Z.lxor b (Z.lxor c d), (3 * i + 5) mod 16)
    else (Z.lxor c (Z.lor b (not32 d)), (7 * i) mod 16) in
  let f := wrap32 (f + a + nth_word K i + nth_word M g) in
  (d, wrap32 (b + rotl32 f (nth_word S i)), b, c).

(** Little-endian 32-bit words of a byte string. *)
Fixpoint words (bytes : list Z) : list Z :=
  match bytes with
  | b0 :: b1 :: b2 :: b3 :: rest =>
      (b0 + 256 * b1 + 65536 * b2 + 16777216 * b3) :: words rest
  | _ => []
  end.

Definition le_bytes (n : nat) (x : Z) : list Z :=
  List.map (λ i, Z.shiftr x (8 * Z.of_nat i) mod 256) (seq 0 n).

(** The message followed by the bit [1], zero bits up to 56 modulo 64
    bytes, and the bit length on 8 bytes. *)
Definition pad (msg : list Z) : list Z :=
  let l := len msg in
  msg ++ [0x80] ++ repeat 0 (Z.to_nat ((55 - l) mod 64))
  ++ le_bytes 8 ((8 * l) mod 2 ^ 64).

Definition process_block (st : Z * Z * Z * Z) (M : list Z) : Z * Z * Z * Z :=
  let '(a0, b0, c0, d0) := st in
  let '(a, b, c, d) :=
    fold_left (operation M) (List.map Z.of_nat (seq 0 64)) st in
  (wrap32 (a0 + a), wrap32 (b0 + b), wrap32 (c0 + c), wrap32 (d0 + d)).

(** The 16-word blocks of a word list. *)
Fixpoint blocks (fuel : nat) (ws : list Z) : list (list Z) :=
  match fuel, ws with
  | O, _ | _, [] => []
  | Datatypes.S fuel', _ => firstn 16 ws :: blocks fuel' (skipn 16 ws)
  end.

Definition digest (msg : list Z) : list Z :=
  let ws := words (pad msg) in
  let '(a, b, c, d) :=
    fold_left process_block (blocks (length ws) ws)
      (0x67452301, 0xefcdab89, 0x98badcfe, 0x10325476) in
  le_bytes 4 a ++ le_bytes 4 b ++ le_bytes 4 c ++ le_bytes 4 d.

Definition hex_digit (x : Z) : N :=
  if x <? 10 then Z.to_N (48 + x) else Z.to_N (87 + x).

Definition hex (bytes : list Z) : pystr :=
  flat_map (λ b, [hex_digit (b / 16); hex_digit (b mod 16)]) bytes.

(** [hashlib.md5(msg).hexdigest()] *)
Definition hexdigest (msg : list Z) : pystr := hex (digest msg).

End MD5.

(** Decimal text of numbers. *)
Module PyFloat.

Fixpoint digits_from (fuel : nat) (n : Z) (acc : pystr) : pystr :=
  match fuel with
  | O => acc
  | S fuel' =>
      let acc' := Z.to_N (48 + n mod 10) :: acc in
      if n / 10 =? 0 then acc' else digits_from fuel' (n / 10) acc'
  end.

(** [str(n)] for an integer: a decimal number has no more digits than
    its binary form. *)
Definition decimal (n : Z) : pystr :=
  (if n <? 0 then lit "-" else [])
  ++ digits_from (S (Z.to_nat (Z.log2 (Z.abs n)))) (Z.abs n) [].

(** [num / den] rounded to the nearest integer, ties to even
    ([0 <= num], [0 < den]). *)
Definition round_half_even (num den : Z) : Z :=
  let q := num / den in
  let r := num mod den in
  if 2 * r <? den then q
  else if den <? 2 * r then q + 1
  else if Z.even q then q else q + 1.

(** [m * 2^e * 10^ndigits] rounded to the nearest integer, ties to even:
    the digits of the float [m * 2^e] to [ndigits] decimal places. *)
Definition scaled (ndigits : Z) (m : positive) (e : Z) : Z :=
  if 0 <=? e then Z.pos m * 2 ^ e * 10 ^ ndigits
  else round_half_even (Z.pos m * 10 ^ ndigits) (2 ^ (- e)).

(** The last [n] decimal digits of [k], with leading zeros. *)
Fixpoint fraction (n : nat) (k : Z) (acc : pystr) : pystr :=
  match n with
  | O => acc
  | S n' => fraction n' (k / 10) (Z.to_N (48 + k mod 10) :: acc)
  end.

(** [format(x, ".<ndigits>f")] *)
Definition format_fixed (ndigits : nat) (x : float) : pystr :=
  let sign (s : bool) : pystr := if s then lit "-" else [] in
  let point : pystr := match ndigits with O => [] | _ => lit "." end in
  match Prim2SF x with
  | S754_nan => lit "nan"
  | S754_infinity s => sign s ++ lit "inf"
  | S754_zero s => sign s ++ lit "0" ++ point ++ fraction ndigits 0 []
  | S754_finite s m e =>
      let k := scaled (Z.of_nat ndigits) m e in
      sign s ++ decimal (k / 10 ^ Z.of_nat ndigits) ++ point
      ++ fraction ndigits k []
  end.

(** [round(x, ndigits)] for [0 <= ndigits]: the double nearest to the
    decimal number that is nearest to [x] (ties to even); infinities and
    NaN are returned as they are. *)
Definition round (x : float) (ndigits : nat) : float :=
  match Prim2SF x with
  | S754_finite s m e =>
      match scaled (Z.of_nat ndigits) m e with
      | Z.pos k =>
          SF2Prim (SFdiv prec emax (S754_finite s k 0)
                     (S754_finite false (Z.to_pos (10 ^ Z.of_nat ndigits)) 0))
      | _ => SF2Prim (S754_zero s)
      end
  | _ => x
  end.

End PyFloat.

(** [str(v)], as an f-string field formats a value. *)
Definition py_str `{Runtime} (v : PyVal) : pystr :=
  match v with
  | VNone => lit "None"
  | VBool true => lit "True"
  | VBool false => lit "False"
  | VInt n => PyFloat.decimal n
  | VFloat f => float_repr f
  | VStr s => s
  end.

(** ** The demo pipeline ([examples/enhanced_demo.py]) *)

Module Demo.
Import Config.

(** The message envelope.  [tick] counts the readings of the clock. *)
Module Message.
Record t (A : Type) : Type := mk {
  content : A;
  media_type : pystr;
  timestamp : datetime;
  model_used : option pystr
}.
Arguments mk {A} _ _ _ _.
Arguments content {A} _.
Arguments media_type {A} _.
Arguments timestamp {A} _.
Arguments model_used {A} _.

(** [Message(content, model_used=...)] at clock reading [tick]. *)
Definition new `{Runtime} {A : Type} (tick : nat) (content : A)
    (model_used : option pystr) : t A :=
  mk content (lit "application/json") (now tick) model_used.
End Message.

Definition default_model : PyVal := VStr (lit "o4-mini-2025-04-16").

(** The text [get_model_info] returns, by its three shapes. *)
Inductive ModelInfo : Type :=
| SimulationMode (production : PyVal)
| ModelOnly (model : pystr)
| ModelAtTemp (model : pystr) (temperature : PyVal).

(** The demo's [Agent.get_model_info()] *)
Definition get_model_info (model_config : gmap string PyVal)
    : result ModelInfo :=
  if truthy (dict_get_or model_config "simulation_mode" (VBool true))
  then Ok (SimulationMode (dict_get_or model_config "model" default_model))
  else
    match dict_get_or model_config "model" default_model with
    | VStr model =>
        if contains model (lit "o4-mini") then Ok (ModelOnly model)
        else Ok (ModelAtTemp model
                   (dict_get_or model_config "temperature" (VFloat 0.5%float)))
    | _ => Raise TypeError
    end.

(** The label of a result that did not come from the API. *)
Definition ENHANCED_SIMULATION : pystr := lit "Enhanced Simulation".

(** The branch test of the three [process] methods. *)
Definition use_real_ai (ai_config : AIConfig)
    (model_config : gmap string PyVal) : bool :=
  negb (truthy (dict_get_or model_config "simulation_mode" (VBool true)))
  && has_valid_api_key ai_config OPENAI.

(** *** ResearchAgent *)

Definition research_prompt_0 : pystr :=
  lit "Analyze the topic " ++ dq.

Definition research_prompt_1 : pystr :=
  dq ++ lit " and provide comprehensive research insights." ++ nl
  ++ lit "            " ++ nl
  ++ lit "            Return a JSON object with:" ++ nl
  ++ lit "            - title: Comprehensive analysis title" ++ nl
  ++ lit "            - executive_summary: 2-3 sentence overview" ++ nl
  ++ lit "            - key_points: Array of 4-5 key insights" ++ nl
  ++ lit "            - keywords: Array of relevant keywords" ++ nl
  ++ lit "            - research_confidence: Confidence score (0.0-1.0)" ++ nl
  ++ lit "            - methodology: Brief description of analysis approach" ++ nl
  ++ lit "            " ++ nl
  ++ lit "            Focus on technological, business, and strategic "
  ++ lit "implications." ++ nl
  ++ lit "            " ++ nl
  ++ lit "            IMPORTANT: Return ONLY the JSON object, no other text.".

Definition system_prompt : pystr :=
  lit "You are a research analysis AI that returns data in JSON format. "
  ++ lit "Always return valid JSON without any other text.".

(** [ResearchAgent._call_real_ai(topic)]; [openai_client] is the module's
    global, [None] until [init_openai_client] ran.  The handler prints
    and raises the exception again. *)
Definition research_call_real_ai `{Runtime} (ai_config : AIConfig)
    (openai_client : option OpenAI.Client) (topic : pystr)
    : result Brief.t :=
  let model_config := research_config ai_config in
  let prompt := research_prompt_0 ++ topic ++ research_prompt_1 in
  match openai_client with
  | None => Raise AttributeError
  | Some client =>
      completion ← chat_completions_create client
        {| OpenAI.model := dict_get_or model_config "model" default_model;
           OpenAI.messages :=
             [(lit "system", system_prompt); (lit "user", prompt)];
           OpenAI.max_tokens := None;
           OpenAI.max_completion_tokens :=
             Some (dict_get_or model_config "max_completion_tokens" (VInt 1500));
           OpenAI.temperature := None;
           OpenAI.response_format_json := true |};
      match completion with
      | [] => Raise IndexError
      | content :: _ => json_loads content
      end
  end.

(** [ResearchAgent.process(message)]; the content of [message] is the
    topic, and the returned envelope is built at reading [tick]. *)
Definition research_process `{Runtime} (ai_config : AIConfig)
    (openai_client : option OpenAI.Client) (tick : nat)
    (message : Message.t pystr) : result (Message.t Brief.t) :=
  let model_config := research_config ai_config in
  let topic := Message.content message in
  model_info ← get_model_info model_config;
  let simulated :=
    (Templates.get_enhanced_research_content topic, ENHANCED_SIMULATION) in
  outcome ←
    (if use_real_ai ai_config model_config then
       match research_call_real_ai ai_config openai_client topic with
       | Ok brief =>
           Ok (brief, py_str (dict_get_or model_config "model" default_model))
       | Raise e =>
           if isinstance e Exception then Ok simulated else Raise e
       end
     else Ok simulated);
  let '(brief, model_used) := outcome in
  Ok (Message.new tick brief (Some model_used)).

(** *** WriterAgent *)

Module WriterResult.
Record t : Type := mk {
  article_text : pystr;
  keywords : list pystr;
  word_count : Z;
  writing_style : pystr
}.
End WriterResult.

Definition writing_prompt_0 : pystr :=
  lit "Create a professional article based on this research brief:" ++ nl
  ++ lit "            " ++ nl
  ++ lit "            Title: ".

Definition writing_prompt_1 : pystr :=
  nl
  ++ lit "            Executive Summary: ".

Definition writing_prompt_2 : pystr :=
  nl
  ++ lit "            Key Points: ".

Definition writing_prompt_3 : pystr :=
  nl
  ++ lit "            " ++ nl
  ++ lit "            Create a well-structured HTML article with:" ++ nl
  ++ lit "            - Professional introduction" ++ nl
  ++ lit "            - Detailed sections covering key points" ++ nl
  ++ lit "            - Strategic recommendations" ++ nl
  ++ lit "            - Compelling conclusion" ++ nl
  ++ lit "            " ++ nl
  ++ lit "            Target length: 400-600 words. Use professional business "
  ++ lit "writing style.".

(** [WriterAgent._call_real_ai(brief)] *)
Definition writer_call_real_ai `{Runtime} (ai_config : AIConfig)
    (openai_client : option OpenAI.Client) (brief : Brief.t)
    : result (option pystr) :=
  let model_config := writing_config ai_config in
  let prompt :=
    writing_prompt_0 ++ Brief.title brief
    ++ writing_prompt_1 ++ Brief.executive_summary brief
    ++ writing_prompt_2 ++ json_dumps (Brief.key_points brief)
    ++ writing_prompt_3 in
  match openai_client with
  | None => Raise AttributeError
  | Some client =>
      completion ← chat_completions_create client
        {| OpenAI.model := dict_get_or model_config "model" default_model;
           OpenAI.messages := [(lit "user", prompt)];
           OpenAI.max_tokens := None;
           OpenAI.max_completion_tokens :=
             Some (dict_get_or model_config "max_completion_tokens" (VInt 2000));
           OpenAI.temperature := None;
           OpenAI.response_format_json := false |};
      match completion with
      | [] => Raise IndexError
      | content :: _ => Ok content
      end
  end.

(** [WriterAgent.process(message)] *)
Definition writer_process `{Runtime} (ai_config : AIConfig)
    (openai_client : option OpenAI.Client) (tick : nat)
    (message : Message.t Brief.t) : result (Message.t WriterResult.t) :=
  let model_config := writing_config ai_config in
  let brief := Message.content message in
  model_info ← get_model_info model_config;
  let simulated :=
    (Some (Templates.get_enhanced_writing_content (Brief.title brief)
             (Brief.executive_summary brief) (Brief.key_points brief)),
     ENHANCED_SIMULATION) in
  outcome ←
    (if use_real_ai ai_config model_config then
       match writer_call_real_ai ai_config openai_client brief with
       | Ok article_html =>
           Ok (article_html,
               py_str (dict_get_or model_config "model" default_model))
       | Raise e =>
           if isinstance e Exception then Ok simulated else Raise e
       end
     else Ok simulated);
  let '(article_html, model_used) := outcome in
  match article_html with
  | None => Raise AttributeError (* [None] has no [split] *)
  | Some article_html =>
      Ok (Message.new tick
            {| WriterResult.article_text := article_html;
               WriterResult.keywords := Brief.keywords brief;
               WriterResult.word_count := len (split article_html);
               WriterResult.writing_style := lit "professional" |}
            (Some model_used))
  end.

(** *** ImageAgent *)

Module ImageResult.
Record t : Type := mk {
  image_url : option pystr;
  alt_text : pystr;
  dimensions : PyVal;
  format : pystr;
  generation_method : pystr
}.
End ImageResult.

(** [hashlib.md5(keyword_text.encode()).hexdigest()[:12]] *)
Definition seed_of (keyword_text : pystr) : result pystr :=
  bytes ← UTF8.encode keyword_text;
  Ok (firstn 12 (MD5.hexdigest bytes)).

(** [ImageAgent._generate_simulation_image(keywords)] *)
Definition _generate_simulation_image (keywords : list pystr)
    : result ImageResult.t :=
  let keyword_text := join (lit " ") (firstn 3 keywords) in
  seed ← seed_of keyword_text;
  Ok {| ImageResult.image_url :=
          Some (lit "https://picsum.photos/seed/" ++ seed ++ lit "/800/400");
        ImageResult.alt_text :=
          lit "Professional illustration representing " ++ keyword_text;
        ImageResult.dimensions := VStr (lit "800x400");
        ImageResult.format := lit "JPEG";
        ImageResult.generation_method := lit "Procedural (DALL-E 3 Ready)" |}.

(** [ImageAgent._call_real_ai(keywords)] *)
Definition image_call_real_ai `{Runtime} (ai_config : AIConfig)
    (openai_client : option OpenAI.Client) (keywords : list pystr)
    : result ImageResult.t :=
  let model_config := image_config ai_config in
  let prompt :=
    lit "Professional, modern illustration representing "
    ++ join (lit ", ") (firstn 3 keywords)
    ++ lit ", suitable for business article header, clean design, high quality" in
  match openai_client with
  | None => Raise AttributeError
  | Some client =>
      response ← images_generate client
        {| OpenAI.image_model :=
             dict_get_or model_config "model" (VStr (lit "dall-e-3"));
           OpenAI.prompt := prompt;
           OpenAI.size :=
             dict_get_or model_config "size" (VStr (lit "1024x1024"));
           OpenAI.quality :=
             dict_get_or model_config "quality" (VStr (lit "standard"));
           OpenAI.n := 1;
           OpenAI.response_format := None |};
      match response with
      | [] => Raise IndexError
      | image :: _ =>
          Ok {| ImageResult.image_url := OpenAI.url image;
                ImageResult.alt_text :=
                  lit "AI-generated illustration: " ++ prompt;
                ImageResult.dimensions :=
                  dict_get_or model_config "size" (VStr (lit "1024x1024"));
                ImageResult.format := lit "PNG";
                ImageResult.generation_method := lit "OpenAI DALL-E 3" |}
      end
  end.

(** [ImageAgent.process(message)]; the content of [message] is the
    keyword list. *)
Definition image_process `{Runtime} (ai_config : AIConfig)
    (openai_client : option OpenAI.Client) (tick : nat)
    (message : Message.t (list pystr)) : result (Message.t ImageResult.t) :=
  let model_config := image_config ai_config in
  let keywords := Message.content message in
  model_info ← get_model_info model_config;
  let simulated : result (ImageResult.t * pystr) :=
    result ← _generate_simulation_image keywords;
    Ok (result, ENHANCED_SIMULATION) in
  outcome ←
    (if use_real_ai ai_config model_config then
       match image_call_real_ai ai_config openai_client keywords with
       | Ok result => Ok (result, lit "dall-e-3")
       | Raise e => if isinstance e Exception then simulated else Raise e
       end
     else simulated);
  let '(result, model_used) := outcome in
  Ok (Message.new tick result (Some model_used)).

(** *** OrchestratorAgent *)

(** The fixed text of the document, cut at its fourteen fields. *)
Definition html_0 : pystr :=
  nl
  ++ lit "        <!DOCTYPE html>" ++ nl
  ++ lit "        <html lang=" ++ dq ++ lit "en" ++ dq ++ lit ">" ++ nl
  ++ lit "        <head>" ++ nl
  ++ lit "            <meta charset=" ++ dq ++ lit "UTF-8" ++ dq ++ lit ">" ++ nl
  ++ lit "            <meta name=" ++ dq ++ lit "viewport" ++ dq ++ lit " content=" ++ dq ++ lit "width=device-width, initial-scale=1.0" ++ dq ++ lit ">" ++ nl
  ++ lit "            <title>".

Definition html_1 : pystr :=
  lit "</title>" ++ nl
  ++ lit "            <style>" ++ nl
  ++ lit "                body {" ++ nl
  ++ lit "                    font-family: -apple-system, BlinkMacSystemFont, " ++ dq ++ lit "Segoe UI" ++ dq ++ lit ", Roboto, Helvetica, Arial, sans-serif;" ++ nl
  ++ lit "                    line-height: 1.6;" ++ nl
  ++ lit "                    max-width: 800px;" ++ nl
  ++ lit "                    margin: 0 auto;" ++ nl
  ++ lit "                    padding: 20px;" ++ nl
  ++ lit "                    color: #333;" ++ nl
  ++ lit "                }" ++ nl
  ++ lit "                .header-image {" ++ nl
  ++ lit "                    width: 100%;" ++ nl
  ++ lit "                    max-height: 400px;" ++ nl
  ++ lit "                    object-fit: cover;" ++ nl
  ++ lit "                    border-radius: 8px;" ++ nl
  ++ lit "                    margin: 20px 0;" ++ nl
  ++ lit "                }" ++ nl
  ++ lit "                .ai-attribution {" ++ nl
  ++ lit "                    background: #f8f9fa;" ++ nl
  ++ lit "                    border-radius: 8px;" ++ nl
  ++ lit "                    padding: 15px;" ++ nl
  ++ lit "                    margin: 20px 0;" ++ nl
  ++ lit "                    font-size: 0.9em;" ++ nl
  ++ lit "                    color: #666;" ++ nl
  ++ lit "                }" ++ nl
  ++ lit "                .content {" ++ nl
  ++ lit "                    margin-top: 30px;" ++ nl
  ++ lit "                }" ++ nl
  ++ lit "                h1 {" ++ nl
  ++ lit "                    color: #2c3e50;" ++ nl
  ++ lit "                    margin-bottom: 1em;" ++ nl
  ++ lit "                }" ++ nl
  ++ lit "                h2 {" ++ nl
  ++ lit "                    color: #34495e;" ++ nl
  ++ lit "                    margin-top: 1.5em;" ++ nl
  ++ lit "                }" ++ nl
  ++ lit "                ul {" ++ nl
  ++ lit "                    padding-left: 1.5em;" ++ nl
  ++ lit "                }" ++ nl
  ++ lit "                li {" ++ nl
  ++ lit "                    margin-bottom: 0.5em;" ++ nl
  ++ lit "                }" ++ nl
  ++ lit "                .executive-summary {" ++ nl
  ++ lit "                    font-size: 1.1em;" ++ nl
  ++ lit "                    color: #444;" ++ nl
  ++ lit "                    border-left: 4px solid #3498db;" ++ nl
  ++ lit "                    padding-left: 1em;" ++ nl
  ++ lit "                    margin: 1.5em 0;" ++ nl
  ++ lit "                }" ++ nl
  ++ lit "                .key-points {" ++ nl
  ++ lit "                    background: #f7f9fc;" ++ nl
  ++ lit "                    padding: 1.5em;" ++ nl
  ++ lit "                    border-radius: 8px;" ++ nl
  ++ lit "                    margin: 1.5em 0;" ++ nl
  ++ lit "                }" ++ nl
  ++ lit "                .methodology {" ++ nl
  ++ lit "                    font-style: italic;" ++ nl
  ++ lit "                    color: #666;" ++ nl
  ++ lit "                    margin-top: 2em;" ++ nl
  ++ lit "                    padding-top: 1em;" ++ nl
  ++ lit "                    border-top: 1px solid #eee;" ++ nl
  ++ lit "                }" ++ nl
  ++ lit "            </style>" ++ nl
  ++ lit "        </head>" ++ nl
  ++ lit "        <body>" ++ nl
  ++ lit "            <img src=" ++ dq.

Definition html_2 : pystr :=
  dq ++ lit " " ++ nl
  ++ lit "                 alt=" ++ dq.

Definition html_3 : pystr :=
  dq ++ nl
  ++ lit "                 class=" ++ dq ++ lit "header-image" ++ dq ++ lit ">" ++ nl
  ++ lit "            " ++ nl
  ++ lit "            <div class=" ++ dq ++ lit "ai-attribution" ++ dq ++ lit ">" ++ nl
  ++ lit "                <h4>" ++ [129302%N] ++ lit " AI Model Attribution</h4>" ++ nl
  ++ lit "                <p>This content was generated using multiple AI "
  ++ lit "models:</p>" ++ nl
  ++ lit "                <ul>" ++ nl
  ++ lit "                    <li>Research Analysis: ".

Definition html_4 : pystr :=
  lit "</li>" ++ nl
  ++ lit "                    <li>Content Generation: ".

Definition html_5 : pystr :=
  lit "</li>" ++ nl
  ++ lit "                    <li>Image Creation: ".

Definition html_6 : pystr :=
  lit "</li>" ++ nl
  ++ lit "                </ul>" ++ nl
  ++ lit "                <p>Content Quality Score: ".

Definition html_7 : pystr :=
  lit "%</p>" ++ nl
  ++ lit "            </div>" ++ nl
  ++ lit "            " ++ nl
  ++ lit "            <div class=" ++ dq ++ lit "content" ++ dq ++ lit ">" ++ nl
  ++ lit "                <h1>".

Definition html_8 : pystr :=
  lit "</h1>" ++ nl
  ++ lit "                " ++ nl
  ++ lit "                <div class=" ++ dq ++ lit "executive-summary" ++ dq ++ lit ">" ++ nl
  ++ lit "                    <p>".

Definition html_9 : pystr :=
  lit "</p>" ++ nl
  ++ lit "                </div>" ++ nl
  ++ nl
  ++ lit "                <div class=" ++ dq ++ lit "key-points" ++ dq ++ lit ">" ++ nl
  ++ lit "                    <h2>Key Insights</h2>" ++ nl
  ++ lit "                    <ul>" ++ nl
  ++ lit "                        ".

Definition html_10 : pystr :=
  nl
  ++ lit "                    </ul>" ++ nl
  ++ lit "                </div>" ++ nl
  ++ nl
  ++ lit "                ".

Definition html_11 : pystr :=
  nl
  ++ lit "                " ++ nl
  ++ lit "                <div class=" ++ dq ++ lit "methodology" ++ dq ++ lit ">" ++ nl
  ++ lit "                    <p><strong>Research Methodology:</strong> ".

Definition html_12 : pystr :=
  lit "</p>" ++ nl
  ++ lit "                </div>" ++ nl
  ++ lit "            </div>" ++ nl
  ++ lit "            " ++ nl
  ++ lit "            <footer class=" ++ dq ++ lit "ai-attribution" ++ dq ++ lit ">" ++ nl
  ++ lit "                <p><strong>Generated:</strong> ".

Definition html_13 : pystr :=
  lit "</p>" ++ nl
  ++ lit "                <p><strong>Keywords:</strong> ".

Definition html_14 : pystr :=
  lit "</p>" ++ nl
  ++ lit "            </footer>" ++ nl
  ++ lit "        </body>" ++ nl
  ++ lit "        </html>" ++ nl
  ++ lit "        ".


(** An optional string in an f-string field. *)
Definition str_opt (v : option pystr) : pystr := default (lit "None") v.

Definition li (point : pystr) : pystr := lit "<li>" ++ point ++ lit "</li>".

(** [_create_enhanced_html(research_result, writer_result, image_result)];
    [tick] is the clock reading of the footer. *)
Definition _create_enhanced_html `{Runtime} (tick : nat)
    (research_result : Message.t Brief.t)
    (writer_result : Message.t WriterResult.t)
    (image_result : Message.t ImageResult.t) : pystr :=
  let brief := Message.content research_result in
  html_0 ++ Brief.title brief
  ++ html_1 ++ str_opt (ImageResult.image_url (Message.content image_result))
  ++ html_2 ++ ImageResult.alt_text (Message.content image_result)
  ++ html_3 ++ str_opt (Message.model_used research_result)
  ++ html_4 ++ str_opt (Message.model_used writer_result)
  ++ html_5 ++ str_opt (Message.model_used image_result)
  ++ html_6
  ++ PyFloat.format_fixed 1
       (PrimFloat.mul (Brief.research_confidence brief) 100%float)
  ++ html_7 ++ Brief.title brief
  ++ html_8 ++ Brief.executive_summary brief
  ++ html_9 ++ join [] (List.map li (Brief.key_points brief))
  ++ html_10 ++ WriterResult.article_text (Message.content writer_result)
  ++ html_11 ++ Brief.methodology brief
  ++ html_12 ++ strftime (now tick)
  ++ html_13 ++ join (lit ", ") (Brief.keywords brief)
  ++ html_14.

(** [_display_ai_config()]: what it prints is not modelled, the
    evaluation of the three [get_model_info()] is. *)
Definition _display_ai_config (ai_config : AIConfig) : result unit :=
  get_model_info (research_config ai_config) ;;
  get_model_info (writing_config ai_config) ;;
  get_model_info (image_config ai_config) ;;
  Ok tt.

(** The three stages of [OrchestratorAgent.process(topic)]. *)
Definition stages `{Runtime} (ai_config : AIConfig)
    (openai_client : option OpenAI.Client) (topic : pystr)
    : result (Message.t Brief.t * Message.t WriterResult.t
              * Message.t ImageResult.t) :=
  _display_ai_config ai_config ;;
  let research_input := Message.new 0 topic None in
  research_result ←
    research_process ai_config openai_client 1 research_input;
  writer_result ← writer_process ai_config openai_client 2 research_result;
  let image_input :=
    Message.new 3 (WriterResult.keywords (Message.content writer_result))
      None in
  image_result ← image_process ai_config openai_client 4 image_input;
  Ok (research_result, writer_result, image_result).

(** [OrchestratorAgent.process(topic)] *)
Definition process `{Runtime} (ai_config : AIConfig)
    (openai_client : option OpenAI.Client) (topic : pystr)
    : result (Message.t pystr) :=
  results ← stages ai_config openai_client topic;
  let '(research_result, writer_result, image_result) := results in
  let final_html :=
    _create_enhanced_html 5 research_result writer_result image_result in
  Ok (Message.mk final_html (lit "text/html") (now 6) (Some (lit "Orchestrator"))).

End Demo.

(** *** Vocabulary of the statements about the demo *)

Module DemoSpec.
Import Config.

(** All three capabilities are in simulation mode. *)
Definition all_simulation (ai_config : AIConfig) : Prop :=
  AgentSpec.simulation_on (research_config ai_config)
  ∧ AgentSpec.simulation_on (writing_config ai_config)
  ∧ AgentSpec.simulation_on (image_config ai_config).


(** The [image_url] of the demo's placeholder, [None] when it raised. *)
Definition placeholder_url (keywords : list pystr) : option pystr :=
  match Demo._generate_simulation_image keywords with
  | Ok r => Demo.ImageResult.image_url r
  | Raise _ => None
  end.

Definition ELECTRIC_VEHICLES : pystr := lit "Electric Vehicles".

(** The document before and after its time stamp. *)
Definition html_head (research_result : Demo.Message.t Brief.t)
    (writer_result : Demo.Message.t Demo.WriterResult.t)
    (image_result : Demo.Message.t Demo.ImageResult.t) : pystr :=
  let brief := Demo.Message.content research_result in
  Demo.html_0 ++ Brief.title brief
  ++ Demo.html_1
  ++ Demo.str_opt (Demo.ImageResult.image_url (Demo.Message.content image_result))
  ++ Demo.html_2 ++ Demo.ImageResult.alt_text (Demo.Message.content image_result)
  ++ Demo.html_3 ++ Demo.str_opt (Demo.Message.model_used research_result)
  ++ Demo.html_4 ++ Demo.str_opt (Demo.Message.model_used writer_result)
  ++ Demo.html_5 ++ Demo.str_opt (Demo.Message.model_used image_result)
  ++ Demo.html_6
  ++ PyFloat.format_fixed 1
       (PrimFloat.mul (Brief.research_confidence brief) 100%float)
  ++ Demo.html_7 ++ Brief.title brief
  ++ Demo.html_8 ++ Brief.executive_summary brief
  ++ Demo.html_9 ++ join [] (List.map Demo.li (Brief.key_points brief))
  ++ Demo.html_10
  ++ Demo.WriterResult.article_text (Demo.Message.content writer_result)
  ++ Demo.html_11 ++ Brief.methodology brief
  ++ Demo.html_12.

Definition html_tail (research_result : Demo.Message.t Brief.t) : pystr :=
  Demo.html_13
  ++ join (lit ", ") (Brief.keywords (Demo.Message.content research_result))
  ++ Demo.html_14.

(** The keyword line of the footer for the topic "Electric Vehicles". *)
Definition keyword_line : pystr :=
  lit "<p><strong>Keywords:</strong> electric vehicles, innovation, "
  ++ lit "market growth, technology, digital transformation, "
  ++ lit "strategic analysis</p>".

(** The three attribution lines of the document for simulated stages. *)
Definition attribution_lines : list pystr :=
  [ lit "<li>Research Analysis: Enhanced Simulation</li>";
    lit "<li>Content Generation: Enhanced Simulation</li>";
    lit "<li>Image Creation: Enhanced Simulation</li>" ].

End DemoSpec.

(** ** The BMI endpoint ([fastapi-mcp-demo/main.py]) *)

Module Bmi.

Module BMIResponse.
Record t : Type := mk { bmi : float; assessment : pystr }.
End BMIResponse.

(** C's [pow] of the platform's mathematical library, which CPython calls
    for [x ** y] on floats.  Its value is the platform's: the C standard
    fixes no accuracy, and the libraries in use are within one unit in the
    last place of the exact power without always giving the nearest double
    (glibc returns 0x1.60a1be812f957p+1 for [pow(1.6598, 2.0)], the double
    above the correctly rounded square). *)
Class Libm : Type := {
  pow : float → float → float
}.

(** The value of [x ** 2]: CPython's [float_pow] settles the special
    cases itself (NaN, infinity, zero, a negative base with an integral
    exponent, a base of magnitude one) and calls [pow] for the rest. *)
Definition square `{Libm} (x : float) : float :=
  if is_nan x then x
  else if is_infinity x then abs x
  else if PrimFloat.eqb x 0%float then 0%float
  else
    let iv := abs x in
    if PrimFloat.eqb iv 1%float then 1%float
    else pow iv 2%float.

(** [x ** 2] on floats: CPython raises [OverflowError] when [pow] gives an
    infinite value for a finite base; an underflow to zero is no error.  (A
    library that would report a range error with a finite value other than
    zero is not modelled.) *)
Definition pow2 `{Libm} (x : float) : result float :=
  let r := square x in
  if is_infinity r && negb (is_infinity x) then Raise OverflowError
  else Ok r.

(** [a / b] on floats. *)
Definition truediv (a b : float) : result float :=
  if PrimFloat.eqb b 0%float then Raise ZeroDivisionError
  else Ok (PrimFloat.div a b).

(** The handler of [GET /bmi].  A query parameter that is not greater
    than 0 is refused before the function runs ([Query(..., gt=0)]). *)
Definition bmi `{Libm} (weight_kg height_m : float) : result BMIResponse.t :=
  if negb (PrimFloat.ltb 0%float weight_kg) then Raise ValidationError
  else if negb (PrimFloat.ltb 0%float height_m) then Raise ValidationError
  else
    squared ← pow2 height_m;
    quotient ← truediv weight_kg squared;
    let value := PyFloat.round quotient 2 in
    let status :=
      if PrimFloat.ltb value 18.5%float then lit "Underweight"
      else if PrimFloat.leb value 24.9%float then lit "Normal weight"
      else if PrimFloat.leb value 29.9%float then lit "Overweight"
      else lit "Obesity" in
    Ok {| BMIResponse.bmi := value; BMIResponse.assessment := status |}.

(** [pow] is within one unit in the last place of the correctly rounded
    square of [x]: it is that double or one of its two neighbours. *)
Definition accurate_at `{Libm} (x : float) : Prop :=
  let nearest := PrimFloat.mul x x in
  pow x 2%float = next_down nearest
  ∨ pow x 2%float = nearest
  ∨ pow x 2%float = next_up nearest.

(** [pow] gives a zero, and an infinite, square of [x] exactly when the
    correctly rounded square is one. *)
Definition same_range_at `{Libm} (x : float) : Prop :=
  PrimFloat.eqb (pow x 2%float) 0%float
  = PrimFloat.eqb (PrimFloat.mul x x) 0%float
  ∧ is_infinity (pow x 2%float) = is_infinity (PrimFloat.mul x x).

(** A library whose squares are correctly rounded, and one whose squares
    are the doubles just above those (as glibc's is at 1.6598); only
    squares are asked of them. *)
Definition correctly_rounded : Libm :=
  {| pow := λ x _, PrimFloat.mul x x |}.
Definition rounded_up : Libm :=
  {| pow := λ x _, next_up (PrimFloat.mul x x) |}.

End Bmi.

(** * Further definitions *)

(** ** The integration checks ([setup_openai], [setup_anthropic], [setup_google]) *)

Module Setup.
Import Config.

(** [if not api_key] on what [os.getenv] returned. *)
Definition key_present (api_key : option pystr) : bool :=
  match api_key with
  | Some api_key => truthy (VStr api_key)
  | None => false
  end.

(** [setup_openai()].  [installed] tells whether the [openai] package can
    be imported (the handled [ImportError]); the subscript
    [api_keys["openai"]] raises [KeyError] on a dictionary without that
    key, which is not handled.  The result is the returned Boolean. *)
Definition setup_openai (installed : bool) (ai_config : AIConfig)
    : result bool :=
  if negb installed then Ok false
  else
    match api_keys ai_config !! "openai" with
    | None => Raise KeyError
    | Some api_key => if negb (key_present api_key) then Ok false else Ok true
    end.

(** [setup_anthropic()] *)
Definition setup_anthropic (installed : bool) (ai_config : AIConfig)
    : result bool :=
  if negb installed then Ok false
  else
    match api_keys ai_config !! "anthropic" with
    | None => Raise KeyError
    | Some api_key => if negb (key_present api_key) then Ok false else Ok true
    end.

(** [setup_google()]; [configure] is [genai.configure(api_key=...)], whose
    exceptions are not handled. *)
Definition setup_google (installed : bool) (configure : pystr → result unit)
    (ai_config : AIConfig) : result bool :=
  if negb installed then Ok false
  else
    match api_keys ai_config !! "google" with
    | None => Raise KeyError
    | Some api_key =>
        if negb (key_present api_key) then Ok false
        else configure (default [] api_key) ;; Ok true
    end.

End Setup.

(** *** Vocabulary of the further statements about the configuration *)

Module ConfigExtra.
Import Config ConfigSpec.

(** What every configuration reached from the constructor satisfies. *)
Definition coherent (env : environ) (self : AIConfig) : Prop :=
  api_keys self = api_keys (init_object env)
  ∧ ((provider self = SIMULATION
      ∧ simulation_mode (research_config self) = true
      ∧ simulation_mode (writing_config self) = true
      ∧ simulation_mode (image_config self) = true)
     ∨ (provider self ≠ SIMULATION
        ∧ has_valid_api_key self (provider self) = true
        ∧ all_real self)).

(** A configuration dictionary has the keys of [default], and possibly
    another value of [simulation_mode]. *)
Definition same_keys (default mc : gmap string PyVal) : Prop :=
  is_Some (mc !! "simulation_mode")
  ∧ ∀ k, k ≠ "simulation_mode"%string → mc !! k = default !! k.

(** The three dictionaries have the keys the constructor gave them. *)
Definition default_keys (self : AIConfig) : Prop :=
  same_keys default_research_config (research_config self)
  ∧ same_keys default_writing_config (writing_config self)
  ∧ same_keys default_image_config (image_config self).

End ConfigExtra.

(** *** Vocabulary of the further statements about the agents *)

Module AgentExtra.
Import Config.






(** [request.model_dump()] given back to the constructor as keyword
    arguments. *)
Definition writer_dump (request : WriterAgent.Request.t)
    : WriterAgent.Message.t :=
  {| WriterAgent.Message.title := Some (WriterAgent.Request.title request);
     WriterAgent.Message.executive_summary :=
       Some (WriterAgent.Request.executive_summary request);
     WriterAgent.Message.key_points :=
       Some (WriterAgent.Request.key_points request);
     WriterAgent.Message.keywords := Some (WriterAgent.Request.keywords request);
     WriterAgent.Message.tone := Some (WriterAgent.Request.tone request) |}.

Definition image_dump (request : ImageAgent.Request.t)
    : ImageAgent.Message.t :=
  {| ImageAgent.Message.prompt := Some (ImageAgent.Request.prompt request);
     ImageAgent.Message.style := Some (ImageAgent.Request.style request);
     ImageAgent.Message.size := Some (ImageAgent.Request.size request);
     ImageAgent.Message.quality := Some (ImageAgent.Request.quality request) |}.

(** A runtime whose chat API answers every request with one fixed text,
    which decodes to one fixed brief. *)
Definition answer : Brief.t :=
  {| Brief.title := lit "Report";
     Brief.executive_summary := lit "Short overview.";
     Brief.key_points := [lit "one"; lit "two"; lit "three"];
     Brief.keywords := [lit "report"];
     Brief.research_confidence := 0.5%float;
     Brief.methodology := lit "Desk research" |}.

Definition answering : Runtime :=
  {| str_lower := AgentSpec.ascii_lower;
     float_repr := λ _, [];
     json_dumps := λ _, [];
     json_loads_fields := λ _, Ok answer;
     json_loads := λ _, Ok answer;
     AsyncOpenAI := λ key, Ok {| OpenAI.api_key := key |};
     chat_completions_create := λ _ _, Ok [Some (lit "{...}")];
     images_generate :=
       λ _ _, Ok [ {| OpenAI.b64_json := Some (lit "aGVsbG8=");
                      OpenAI.url := Some (lit "https://example.org/i.png") |} ];
     now := λ n, Z.of_nat n;
     strftime := λ _, lit "2025-01-01 00:00:00" |}.

(** The client [answering] builds from the credential of
    [AgentSpec.real_config]. *)
Definition client : OpenAI.Client :=
  {| OpenAI.api_key := Some (lit "sk-0123456789abcdefghij") |}.

End AgentExtra.

(** *** The requests the agents send *)

Module AgentRequests.
Import Config.

(** The keyword arguments of the chat call of
    [ResearchAgent._call_real_ai]. *)
Definition research_chat (ai_config : AIConfig) (topic : pystr)
    : OpenAI.ChatRequest :=
  let model_config := research_config ai_config in
  {| OpenAI.model :=
       dict_get_or model_config "model" (VStr (lit "gpt-4-1106-preview"));
     OpenAI.messages :=
       [(lit "system", ResearchAgent.system_prompt);
        (lit "user", ResearchAgent._create_research_prompt topic)];
     OpenAI.max_tokens :=
       Some (dict_get_or model_config "max_completion_tokens" (VInt 1500));
     OpenAI.max_completion_tokens := None;
     OpenAI.temperature :=
       Some (dict_get_or model_config "temperature" (VFloat 0.3%float));
     OpenAI.response_format_json := true |}.

(** The keyword arguments of the chat call of
    [WriterAgent._call_real_ai]. *)
Definition writer_chat `{Runtime} (ai_config : AIConfig)
    (request : WriterAgent.Request.t) : OpenAI.ChatRequest :=
  let model_config := writing_config ai_config in
  {| OpenAI.model :=
       dict_get_or model_config "model" (VStr (lit "gpt-4-1106-preview"));
     OpenAI.messages :=
       [(lit "user", WriterAgent._create_writing_prompt request)];
     OpenAI.max_tokens :=
       Some (dict_get_or model_config "max_completion_tokens" (VInt 2000));
     OpenAI.max_completion_tokens := None;
     OpenAI.temperature :=
       Some (dict_get_or model_config "temperature" (VFloat 0.7%float));
     OpenAI.response_format_json := false |}.

(** The keyword arguments of the image call of
    [ImageAgent._call_real_ai]. *)
Definition image_generation (ai_config : AIConfig)
    (request : ImageAgent.Request.t) : OpenAI.ImagesRequest :=
  let model_config := image_config ai_config in
  {| OpenAI.image_model :=
       dict_get_or model_config "model" (VStr (lit "dall-e-3"));
     OpenAI.prompt := ImageAgent._enhance_prompt request;
     OpenAI.size := VStr (ImageAgent.Request.size request);
     OpenAI.quality := VStr (ImageAgent.Request.quality request);
     OpenAI.n := 1;
     OpenAI.response_format := Some (lit "b64_json") |}.

(** The sizes and qualities [ImageRequest] accepts. *)
Definition valid_sizes : list pystr :=
  [lit "1024x1024"; lit "1024x1792"; lit "1792x1024"].
Definition valid_qualities : list pystr := [lit "standard"; lit "hd"].

(** The opening sentences of [_enhance_prompt], by style. *)
Definition PROFESSIONAL : pystr :=
  lit "Create a professional, high-quality image suitable for business use.".
Definition MODERN : pystr :=
  lit "Create a modern, sleek image with contemporary design elements.".
Definition ARTISTIC : pystr :=
  lit "Create an artistic, creative image with unique visual elements.".
Definition MINIMALIST : pystr :=
  lit "Create a clean, minimalist image with essential elements only.".

End AgentRequests.

(** *** The failures of the external call path *)

Module ExternalCall.
Import Config.









End ExternalCall.

(** *** Tests on texts used in the further statements *)

Module Text.

(** Every character of the text is white space: what [not v.strip()]
    tests. *)
Definition blank (v : pystr) : bool := forallb isspace v.

(** [s.endswith(p)] *)
Definition endswith (s p : pystr) : bool := startswith (rev s) (rev p).

End Text.

(** *** The entry point of the demo and the vocabulary of its statements *)

Module DemoMain.
Import Config.

(** [init_openai_client()]: the new value of the global [openai_client]. *)
Definition init_openai_client `{Runtime} (ai_config : AIConfig)
    : result OpenAI.Client :=
  AsyncOpenAI (mjoin (api_keys ai_config !! "openai")).

Definition TOPIC : pystr := lit "The Future of Collaborative AI".

(** [main()], up to the document it writes to the output file.  [env] is
    the environment the module-level [ai_config = AIConfig()] read, and
    [answer] the line [input] returns, which is read only when an OpenAI
    key is registered. *)
Definition main `{Runtime} (env : environ) (answer : pystr)
    : result (Demo.Message.t pystr) :=
  ai_config ← __init__ env;
  state ←
    (if has_valid_api_key ai_config OPENAI then
       let use_real := startswith (str_lower answer) (lit "y") in
       if use_real then
         match enable_real_ai ai_config OPENAI with
         | (ai_config, Ok _) =>
             client ← init_openai_client ai_config;
             Ok (ai_config, Some client)
         | (_, Raise e) => Raise e
         end
       else Ok (ai_config, None)
     else Ok (ai_config, None));
  let '(ai_config, openai_client) := state in
  Demo.process ai_config openai_client TOPIC.

(** The text the placeholder image of a simulated run is derived from. *)
Definition keyword_text `{Runtime} (topic : pystr) : pystr :=
  str_lower topic ++ lit " innovation market growth".

(** The keywords of a simulated run as the footer joins them. *)
Definition keywords_text `{Runtime} (topic : pystr) : pystr :=
  str_lower topic
  ++ lit ", innovation, market growth, technology, digital transformation, "
  ++ lit "strategic analysis".

(** The keyword arguments of the chat call of the demo's
    [WriterAgent._call_real_ai]. *)
Definition writer_chat `{Runtime} (ai_config : AIConfig) (brief : Brief.t)
    : OpenAI.ChatRequest :=
  let model_config := writing_config ai_config in
  {| OpenAI.model := dict_get_or model_config "model" Demo.default_model;
     OpenAI.messages :=
       [(lit "user",
         Demo.writing_prompt_0 ++ Brief.title brief
         ++ Demo.writing_prompt_1 ++ Brief.executive_summary brief
         ++ Demo.writing_prompt_2 ++ json_dumps (Brief.key_points brief)
         ++ Demo.writing_prompt_3)];
     OpenAI.max_tokens := None;
     OpenAI.max_completion_tokens :=
       Some (dict_get_or model_config "max_completion_tokens" (VInt 2000));
     OpenAI.temperature := None;
     OpenAI.response_format_json := false |}.

(** The result of the demo's writer for an article. *)
Definition written `{Runtime} (tick : nat) (brief : Brief.t)
    (article_html model_used : pystr) : Demo.Message.t Demo.WriterResult.t :=
  Demo.Message.new tick
    {| Demo.WriterResult.article_text := article_html;
       Demo.WriterResult.keywords := Brief.keywords brief;
       Demo.WriterResult.word_count := len (split article_html);
       Demo.WriterResult.writing_style := lit "professional" |}
    (Some model_used).

(** The envelope of the final document. *)
Definition document `{Runtime} (html : pystr) : Demo.Message.t pystr :=
  Demo.Message.mk html (lit "text/html") (now 6) (Some (lit "Orchestrator")).

End DemoMain.

(* ===================================================================== *)
(** * Properties *)
(* ===================================================================== *)

(** ** Configuration holder *)

Section ConfigFacts.
Import Config.

Lemma dict_get_set_simulation_mode (b : bool) (config : gmap string PyVal) :
  dict_get (set_simulation_mode b config) "simulation_mode" = VBool b.
Proof. unfold dict_get, set_simulation_mode. by rewrite lookup_insert_eq. Qed.

Lemma dict_get_model_set_simulation_mode (b : bool) (config : gmap string PyVal) :
  dict_get (set_simulation_mode b config) "model" = dict_get config "model".
Proof. unfold dict_get, set_simulation_mode. by rewrite lookup_insert_ne. Qed.

Lemma val_in_truthy (v : PyVal) (l : list pystr) :
  val_in v l = true → In [] l ∨ truthy v = true.
Proof.
  destruct v as [| | | |s]; simpl; try discriminate.
  destruct s as [|c s]; [|by right].
  intros H. left. unfold str_in in H.
  apply existsb_exists in H as (x & Hx & Heq).
  unfold str_eqb in Heq. apply bool_decide_eq_true in Heq. by subst.
Qed.

Lemma allowlist_no_empty (agent_type : string) : ¬ In [] (allowlist agent_type).
Proof.
  unfold allowlist. case_bool_decide; vm_compute; intuition discriminate.
Qed.

(** In real mode the validation of one capability is the allowlist test. *)
Lemma validate_real (agent_type : string) (config : gmap string PyVal) :
  _validate_model_config agent_type (set_simulation_mode false config) =
    if model_supported agent_type config then Ok tt
    else Raise UnsupportedModelError.
Proof.
  unfold _validate_model_config, model_supported.
  rewrite dict_get_set_simulation_mode, dict_get_model_set_simulation_mode.
  simpl. fold (allowlist agent_type).
  destruct (val_in _ _) eqn:Hin.
  - apply val_in_truthy in Hin as [Hin | ->]; [|done].
    by apply allowlist_no_empty in Hin.
  - by destruct (truthy _).
Qed.

Lemma validate_simulation (agent_type : string) (config : gmap string PyVal) :
  simulation_mode config = true →
  _validate_model_config agent_type config = Ok tt.
Proof. unfold _validate_model_config, simulation_mode. by intros ->. Qed.

End ConfigFacts.

Section EnableRealAI.
Import Config ConfigSpec.

Lemma validate_configs_real (self : AIConfig) (p : AIProvider) :
  has_valid_api_key self p = true →
  snd (enable_real_ai self p) =
    if all_models_supported self then Ok tt else Raise UnsupportedModelError.
Proof.
  intros Hk. unfold enable_real_ai. rewrite Hk. simpl.
  unfold _validate_configs, all_models_supported. simpl.
  rewrite !validate_real.
  by destruct (model_supported "research" _), (model_supported "writing" _),
    (model_supported "image" _).
Qed.

Lemma has_valid_api_key_false (self : AIConfig) (p : AIProvider) :
  has_valid_api_key self p = false ↔ credential_rejected self p.
Proof.
  unfold has_valid_api_key, credential_rejected, credential.
  destruct (mjoin _) as [key|]; [|done].
  destruct key as [|c key].
  { simpl. split; [intros _; left; unfold len; simpl; lia | done]. }
  cbn [truthy negb].
  destruct (Z.ltb_spec (len (c :: key)) 20) as [Hlt|Hge].
  { split; [by left | done]. }
  assert (Hp : (match p with
                | OPENAI =>
                    if negb (startswith (c :: key) (lit "sk-")
                             || startswith (c :: key) (lit "org-"))
                    then false else true
                | ANTHROPIC =>
                    if negb (startswith (c :: key) (lit "sk-ant-"))
                    then false else true
                | _ => true
                end) = prefix_ok p (c :: key)).
  { unfold prefix_ok. destruct p; try done.
    - by destruct (_ || _).
    - by destruct (startswith _ _). }
  rewrite Hp. split; [by right | intros [Hlt|Hf]; [lia | done]].
Qed.

Lemma enable_real_ai_frame (self : AIConfig) (p : AIProvider) :
  api_keys (fst (enable_real_ai self p)) = api_keys self
  ∧ dict_get (research_config (fst (enable_real_ai self p))) "model"
    = dict_get (research_config self) "model"
  ∧ dict_get (writing_config (fst (enable_real_ai self p))) "model"
    = dict_get (writing_config self) "model"
  ∧ dict_get (image_config (fst (enable_real_ai self p))) "model"
    = dict_get (image_config self) "model".
Proof.
  unfold enable_real_ai. destruct (has_valid_api_key self p); simpl; [|done].
  by rewrite !dict_get_model_set_simulation_mode.
Qed.

End EnableRealAI.

(** C2.  [enable_real_ai(provider)] raises [InvalidAPIKeyError] exactly when
    [has_valid_api_key(provider)] is false, which is exactly when no
    credential is registered for the provider or the registered one is
    shorter than 20 characters or lacks the provider's prefix; with a valid
    credential it raises [UnsupportedModelError] when some capability's
    configured model is outside that capability's allowlist; and when it
    returns normally the research, writing and image configurations all have
    [simulation_mode] false. *)
Theorem enable_real_ai_outcome (self : Config.AIConfig) (p : Config.AIProvider) :
  (snd (Config.enable_real_ai self p) = Raise InvalidAPIKeyError
     ↔ Config.has_valid_api_key self p = false)
  ∧ (Config.has_valid_api_key self p = false
     ↔ ConfigSpec.credential_rejected self p)
  ∧ (Config.has_valid_api_key self p = true
     → ConfigSpec.all_models_supported self = false
     → snd (Config.enable_real_ai self p) = Raise UnsupportedModelError)
  ∧ (snd (Config.enable_real_ai self p) = Ok tt
     → ConfigSpec.all_real (fst (Config.enable_real_ai self p))).
Proof.
  split; [|split; [apply has_valid_api_key_false|split]].
  - destruct (Config.has_valid_api_key self p) eqn:Hk.
    + rewrite validate_configs_real by done.
      by destruct (ConfigSpec.all_models_supported self).
    + unfold Config.enable_real_ai. by rewrite Hk.
  - intros Hk Hm. by rewrite validate_configs_real, Hm.
  - unfold Config.enable_real_ai.
    destruct (Config.has_valid_api_key self p); simpl; [|done].
    intros _. unfold ConfigSpec.all_real, Config.simulation_mode. simpl.
    by rewrite !dict_get_set_simulation_mode.
Qed.

Lemma enable_real_ai_outcome_witness :
  snd (Config.enable_real_ai ConfigSpec.tampered Config.OPENAI)
  = Raise UnsupportedModelError
  ∧ ConfigSpec.all_real
      (fst (Config.enable_real_ai AgentSpec.real_config Config.OPENAI)).
Proof.
  split.
  - destruct (enable_real_ai_outcome ConfigSpec.tampered Config.OPENAI)
      as (_ & _ & Hunsupported & _).
    apply Hunsupported; vm_compute; reflexivity.
  - destruct (enable_real_ai_outcome AgentSpec.real_config Config.OPENAI)
      as (_ & _ & _ & Hreal).
    apply Hreal. vm_compute. reflexivity.
Defined.

(** The cases of C2 on concrete objects: a missing credential, a credential
    that is too short, an unsupported model, and a successful switch. *)
Example enable_real_ai_no_key :
  snd (Config.enable_real_ai (Config.init_object ∅) Config.OPENAI)
  = Raise InvalidAPIKeyError.
Proof. vm_compute. reflexivity. Qed.

Example enable_real_ai_short_key :
  snd (Config.enable_real_ai
         (Config.init_object {[ "OPENAI_API_KEY" := lit "sk-short" ]})
         Config.OPENAI)
  = Raise InvalidAPIKeyError.
Proof. vm_compute. reflexivity. Qed.

Example enable_real_ai_simulation_provider :
  snd (Config.enable_real_ai ConfigSpec.tampered Config.SIMULATION)
  = Raise InvalidAPIKeyError.
Proof. vm_compute. reflexivity. Qed.

Example enable_real_ai_success :
  snd (Config.enable_real_ai
         (Config.init_object
            {[ "OPENAI_API_KEY" := lit "sk-0123456789abcdefghij" ]})
         Config.OPENAI)
  = Ok tt.
Proof. vm_compute. reflexivity. Qed.

(** C8, as stated, fails: on a model-support error the provider and the
    three simulation flags have already been assigned. *)
Lemma enable_real_ai_not_atomic :
  snd (Config.enable_real_ai ConfigSpec.tampered Config.OPENAI)
    = Raise UnsupportedModelError
  ∧ ConfigSpec.observable ConfigSpec.tampered
    = (Config.SIMULATION, true, true, true)
  ∧ ConfigSpec.observable
      (fst (Config.enable_real_ai ConfigSpec.tampered Config.OPENAI))
    = (Config.OPENAI, false, false, false).
Proof. vm_compute. auto. Qed.

(** C8, amended.  When [enable_real_ai] raises, the error is a credential
    error or a model-support error.  On a credential error the configuration
    object is unchanged.  On a model-support error, which some model outside
    its allowlist causes, the assignments made before the re-validation
    stay: the provider is the requested one and all three capabilities have
    [simulation_mode] false; the credentials are as before, and each
    capability's dictionary is the one before with [simulation_mode] set to
    false, so that its model, and every other entry, is unchanged. *)
Theorem enable_real_ai_error_state
    (self : Config.AIConfig) (p : Config.AIProvider) (e : exn) :
  snd (Config.enable_real_ai self p) = Raise e →
  (e = InvalidAPIKeyError
   ∧ Config.has_valid_api_key self p = false
   ∧ fst (Config.enable_real_ai self p) = self)
  ∨ (e = UnsupportedModelError
     ∧ Config.has_valid_api_key self p = true
     ∧ Config.provider (fst (Config.enable_real_ai self p)) = p
     ∧ ConfigSpec.all_real (fst (Config.enable_real_ai self p))
     ∧ Config.api_keys (fst (Config.enable_real_ai self p))
       = Config.api_keys self
     ∧ ConfigSpec.all_models_supported self = false
     ∧ Config.research_config (fst (Config.enable_real_ai self p))
       = <["simulation_mode" := VBool false]> (Config.research_config self)
     ∧ Config.writing_config (fst (Config.enable_real_ai self p))
       = <["simulation_mode" := VBool false]> (Config.writing_config self)
     ∧ Config.image_config (fst (Config.enable_real_ai self p))
       = <["simulation_mode" := VBool false]> (Config.image_config self)
     ∧ dict_get (Config.research_config (fst (Config.enable_real_ai self p)))
         "model"
       = dict_get (Config.research_config self) "model"
     ∧ dict_get (Config.writing_config (fst (Config.enable_real_ai self p)))
         "model"
       = dict_get (Config.writing_config self) "model"
     ∧ dict_get (Config.image_config (fst (Config.enable_real_ai self p)))
         "model"
       = dict_get (Config.image_config self) "model"
     ∧ ∀ k : string,
         k ≠ "simulation_mode"%string →
         Config.research_config (fst (Config.enable_real_ai self p)) !! k
         = Config.research_config self !! k
         ∧ Config.writing_config (fst (Config.enable_real_ai self p)) !! k
           = Config.writing_config self !! k
         ∧ Config.image_config (fst (Config.enable_real_ai self p)) !! k
           = Config.image_config self !! k).
Proof.
  intros He.
  destruct (Config.has_valid_api_key self p) eqn:Hk.
  - right. rewrite validate_configs_real in He by done.
    destruct (ConfigSpec.all_models_supported self) eqn:Hsup; [done|].
    injection He as <-. split; [done|]. split; [done|].
    destruct (enable_real_ai_frame self p) as (_ & Hr & Hw & Hi).
    unfold Config.enable_real_ai in *. rewrite Hk in *. simpl in *.
    split; [done|]. split.
    { unfold ConfigSpec.all_real, Config.simulation_mode. simpl.
      by rewrite !dict_get_set_simulation_mode. }
    split; [done|]. split; [done|].
    split; [done|]. split; [done|]. split; [done|].
    split; [done|]. split; [done|]. split; [done|].
    intros k Hne. unfold Config.set_simulation_mode.
    by rewrite !lookup_insert_ne.
  - left. unfold Config.enable_real_ai in *. rewrite Hk in *. simpl in *.
    by injection He as <-.
Qed.

Lemma enable_real_ai_error_state_witness :
  (Config.provider
     (fst (Config.enable_real_ai ConfigSpec.tampered Config.OPENAI))
   = Config.OPENAI)
  ∧ fst (Config.enable_real_ai (Config.init_object ∅) Config.GOOGLE)
    = Config.init_object ∅
  ∧ dict_get
      (Config.research_config
         (fst (Config.enable_real_ai ConfigSpec.tampered Config.OPENAI)))
      "model"
    = dict_get (Config.research_config ConfigSpec.tampered) "model".
Proof.
  split; [|split].
  - destruct (enable_real_ai_error_state ConfigSpec.tampered Config.OPENAI
                UnsupportedModelError) as [(H & _)|(_ & _ & H & _)].
    + vm_compute. reflexivity.
    + discriminate H.
    + exact H.
  - destruct (enable_real_ai_error_state (Config.init_object ∅) Config.GOOGLE
                InvalidAPIKeyError) as [(_ & _ & H)|(H & _)].
    + vm_compute. reflexivity.
    + exact H.
    + discriminate H.
  - destruct (enable_real_ai_error_state ConfigSpec.tampered Config.OPENAI
                UnsupportedModelError)
      as [(H & _)|(_ & _ & _ & _ & _ & _ & _ & _ & _ & H & _)].
    + vm_compute. reflexivity.
    + discriminate H.
    + exact H.
Defined.

Section Reachable.
Import Config ConfigSpec.

Lemma default_models_init (env : environ) : default_models (init_object env).
Proof. by vm_compute. Qed.

Lemma default_models_step (self : AIConfig) (o : op) :
  default_models self → default_models (step self o).
Proof.
  destruct o as [p|p]; [|done].
  unfold default_models, step.
  destruct (enable_real_ai_frame self p) as (_ & -> & -> & ->). done.
Qed.

Lemma default_models_run (env : environ) (ops : list op) :
  default_models (run env ops).
Proof.
  unfold run. generalize (default_models_init env).
  generalize (init_object env). induction ops as [|o ops IH]; [done|].
  intros c Hc. simpl. apply IH. by apply default_models_step.
Qed.

Lemma default_models_supported (self : AIConfig) :
  default_models self → all_models_supported self = true.
Proof.
  intros (Hr & Hw & Hi).
  unfold all_models_supported, model_supported. by rewrite Hr, Hw, Hi.
Qed.

End Reachable.

(** C10.  Construction from any environment succeeds, and in every
    configuration reached from it by [enable_real_ai] and
    [has_valid_api_key] calls each capability's model is still its default,
    which is in the capability's allowlist; so [enable_real_ai] never ends
    in [UnsupportedModelError] on such a configuration. *)
Theorem default_models_invariant
    (env : Config.environ) (ops : list ConfigSpec.op) :
  Config.__init__ env = Ok (Config.init_object env)
  ∧ ConfigSpec.default_models (ConfigSpec.run env ops)
  ∧ ConfigSpec.all_models_supported (ConfigSpec.run env ops) = true
  ∧ ∀ p, snd (Config.enable_real_ai (ConfigSpec.run env ops) p)
         ≠ Raise UnsupportedModelError.
Proof.
  pose proof (default_models_run env ops) as Hd.
  pose proof (default_models_supported _ Hd) as Hs.
  split; [by vm_compute|]. split; [done|]. split; [done|].
  intros p. destruct (Config.has_valid_api_key (ConfigSpec.run env ops) p) eqn:Hk.
  - rewrite validate_configs_real by done. by rewrite Hs.
  - unfold Config.enable_real_ai. by rewrite Hk.
Qed.


(** ** Strings *)

Section Strings.

Lemma length_split_from (cur : option pystr) (s : pystr) :
  length (split_from cur s) = count_from (bool_decide (is_Some cur)) s.
Proof.
  revert cur. induction s as [|c s IH]; intros cur; simpl.
  - by destruct cur.
  - destruct (isspace c).
    + destruct cur; simpl; by rewrite IH.
    + by rewrite IH.
Qed.

Lemma count_from_mono (s : pystr) : (count_from false s ≤ count_from true s)%nat.
Proof. induction s as [|c s IH]; simpl; [lia|]. destruct (isspace c); lia. Qed.

Lemma count_from_app (in_word : bool) (a b : pystr) :
  (count_from false b ≤ count_from in_word (a ++ b))%nat.
Proof.
  revert in_word. induction a as [|c a IH]; intros in_word; simpl.
  - destruct in_word; [apply count_from_mono | done].
  - destruct (isspace c).
    + specialize (IH false). lia.
    + apply IH.
Qed.

(** Text in front of a string never lowers its word count. *)
Lemma len_split_app (a b : pystr) : len (split b) ≤ len (split (a ++ b)).
Proof.
  unfold len, split. rewrite !length_split_from. simpl.
  pose proof (count_from_app false a b). lia.
Qed.

Lemma isinstance_Exception (e : exn) : isinstance e Exception = true.
Proof. by destruct e. Qed.

Lemma handled_all (e : exn) : Agent.handled e = true.
Proof.
  unfold Agent.handled. rewrite isinstance_Exception. apply orb_true_r.
Qed.

End Strings.

(** ** Capability agents *)

Section AgentFacts.
Context `{Runtime}.
Import Config AgentSpec.

Lemma get_model_info_ok (model_config : gmap string PyVal) :
  simulation_on model_config ∨ model_is_str model_config →
  ∃ info, Agent.get_model_info model_config = Ok info.
Proof.
  unfold Agent.get_model_info, simulation_on, model_is_str.
  intros [-> | [model ->]]; [by eexists|].
  destruct (truthy _); [by eexists|].
  destruct (contains _ _); by eexists.
Qed.

(** The article of the simulation has at least 153 words whatever is
    interpolated. *)
Lemma article_word_count (title summary : pystr) (points : list pystr) :
  153 ≤ len (split (Templates.get_enhanced_writing_content title summary points)).
Proof.
  unfold Templates.get_enhanced_writing_content.
  rewrite !(assoc_L (++)).
  etransitivity; [|apply len_split_app]. by vm_compute.
Qed.

Lemma writer_simulation_ok (request : WriterAgent.Request.t) :
  ∃ r, WriterAgent.simulation request = Ok r
       ∧ WriterAgent.Response.article_text r
         = Templates.get_enhanced_writing_content
             (WriterAgent.Request.title request)
             (WriterAgent.Request.executive_summary request)
             (WriterAgent.Request.key_points request)
       ∧ WriterAgent.Response.word_count r
         = len (split (WriterAgent.Response.article_text r))
       ∧ 100 ≤ WriterAgent.Response.word_count r.
Proof.
  unfold WriterAgent.simulation, WriterAgent.WriterResponse.
  pose proof (article_word_count (WriterAgent.Request.title request)
                (WriterAgent.Request.executive_summary request)
                (WriterAgent.Request.key_points request)) as Hn.
  destruct (Z.leb_spec 100
    (len (split (Templates.get_enhanced_writing_content
                   (WriterAgent.Request.title request)
                   (WriterAgent.Request.executive_summary request)
                   (WriterAgent.Request.key_points request))))) as [Hle|Hlt];
    [|lia].
  eexists. split; [done|]. simpl. split; [done|]. split; [done|lia].
Qed.

(** What the writer's [try] block can return. *)
Lemma writer_real_attempt_returned (ai_config : AIConfig) (self self' : Agent.t)
    (request : WriterAgent.Request.t) (r : WriterAgent.Response.t) :
  WriterAgent.real_attempt ai_config self request
    = (self', Ok (Agent.Returned r)) →
  WriterAgent.Response.word_count r
    = len (split (WriterAgent.Response.article_text r))
  ∧ 100 ≤ WriterAgent.Response.word_count r.
Proof.
  unfold WriterAgent.real_attempt.
  destruct (Agent._init_openai_client ai_config self) as [self1 [[]|e]];
    [|done].
  case_bool_decide; [|done].
  intros [= <- Hr]. revert Hr.
  destruct (WriterAgent._call_real_ai ai_config self1 request)
    as [[article|]|e]; simpl; try done.
  unfold WriterAgent.WriterResponse.
  destruct (Z.leb_spec 100 (len (split article))); simpl; [|done].
  by intros [= <-].
Qed.

End AgentFacts.

Section ExternalFailure.
Context `{Runtime}.
Import Config AgentSpec.


Lemma research_process_real (ai_config : AIConfig) (self : Agent.t)
    (message : ResearchAgent.Message.t) (request : ResearchAgent.Request.t) :
  ResearchAgent.ResearchRequest message = Ok request →
  real_mode (research_config ai_config) →
  model_is_str (research_config ai_config) →
  ResearchAgent.process ai_config self message =
    match ResearchAgent.real_attempt ai_config self request with
    | (self', Ok (Agent.Returned result)) => (self', Ok result)
    | (self', _) => (self', Ok (ResearchAgent.simulation request))
    end.
Proof.
  intros Hreq Hreal Hstr. unfold ResearchAgent.process.
  rewrite Hreq.
  destruct (get_model_info_ok (research_config ai_config)) as [info ->];
    [by right|].
  unfold real_mode in Hreal. rewrite Hreal. simpl.
  destruct (ResearchAgent.real_attempt ai_config self request)
    as [self' [[r|]|e]]; try done.
  by rewrite handled_all.
Qed.

Lemma writer_process_real (ai_config : AIConfig) (self : Agent.t)
    (message : WriterAgent.Message.t) (request : WriterAgent.Request.t) :
  WriterAgent.WriterRequest message = Ok request →
  real_mode (writing_config ai_config) →
  model_is_str (writing_config ai_config) →
  WriterAgent.process ai_config self message =
    match WriterAgent.real_attempt ai_config self request with
    | (self', Ok (Agent.Returned result)) => (self', Ok result)
    | (self', _) => (self', WriterAgent.simulation request)
    end.
Proof.
  intros Hreq Hreal Hstr. unfold WriterAgent.process.
  rewrite Hreq.
  destruct (get_model_info_ok (writing_config ai_config)) as [info ->];
    [by right|].
  unfold real_mode in Hreal. rewrite Hreal. simpl.
  destruct (WriterAgent.real_attempt ai_config self request)
    as [self' [[r|]|e]]; try done.
  by rewrite handled_all.
Qed.


Lemma writer_process_simulation (ai_config : AIConfig) (self : Agent.t)
    (message : WriterAgent.Message.t) (request : WriterAgent.Request.t) :
  WriterAgent.WriterRequest message = Ok request →
  simulation_on (writing_config ai_config) →
  WriterAgent.process ai_config self message
  = (self, WriterAgent.simulation request).
Proof.
  intros Hreq Hsim. unfold WriterAgent.process. rewrite Hreq.
  unfold Agent.get_model_info. unfold simulation_on in Hsim.
  by rewrite Hsim.
Qed.

Lemma research_process_simulation (ai_config : AIConfig) (self : Agent.t)
    (message : ResearchAgent.Message.t) (request : ResearchAgent.Request.t) :
  ResearchAgent.ResearchRequest message = Ok request →
  simulation_on (research_config ai_config) →
  ResearchAgent.process ai_config self message
  = (self, Ok (ResearchAgent.simulation request)).
Proof.
  intros Hreq Hsim. unfold ResearchAgent.process. rewrite Hreq.
  unfold Agent.get_model_info. unfold simulation_on in Hsim.
  by rewrite Hsim.
Qed.




(** Where a result of the writer's [process] comes from. *)
Lemma writer_process_ok (ai_config : AIConfig) (self self' : Agent.t)
    (message : WriterAgent.Message.t) (request : WriterAgent.Request.t)
    (r : WriterAgent.Response.t) :
  WriterAgent.WriterRequest message = Ok request →
  WriterAgent.process ai_config self message = (self', Ok r) →
  WriterAgent.simulation request = Ok r
  ∨ WriterAgent.real_attempt ai_config self request
    = (self', Ok (Agent.Returned r)).
Proof.
  intros Hreq. unfold WriterAgent.process. rewrite Hreq.
  destruct (Agent.get_model_info _) as [info|e']; [|done].
  destruct (negb _); [|by intros [= <- ->]; left].
  destruct (WriterAgent.real_attempt ai_config self request)
    as [self1 [[r1|]|e1]].
  - intros [= <- <-]. by right.
  - intros [= <- ->]. by left.
  - rewrite handled_all. intros [= <- ->]. by left.
Qed.









End ExternalFailure.


(** The failures C1 names, as outcomes of the [try] block of the research
    agent that has a valid OpenAI credential and no client yet: a failing
    client constructor, a failing API call, a completion without choices, a
    response that does not parse, and one that violates the response
    schema. *)
Lemma research_external_failures `{Runtime}
    (ai_config : Config.AIConfig) (self : Agent.t)
    (request : ResearchAgent.Request.t) :
  Agent.openai_client self = None →
  Config.has_valid_api_key ai_config Config.OPENAI = true →
  match AsyncOpenAI (mjoin (Config.api_keys ai_config !! "openai")) with
  | Raise e =>
      ResearchAgent.real_attempt ai_config self request
      = (self, Raise ModelInitializationError)
  | Ok client =>
      ∀ chat_request,
        chat_request =
          {| OpenAI.model :=
               dict_get_or (Config.research_config ai_config) "model"
                 (VStr (lit "gpt-4-1106-preview"));
             OpenAI.messages :=
               [(lit "system", ResearchAgent.system_prompt);
                (lit "user",
                 ResearchAgent._create_research_prompt
                   (ResearchAgent.Request.topic request))];
             OpenAI.max_tokens :=
               Some (dict_get_or (Config.research_config ai_config)
                       "max_completion_tokens" (VInt 1500));
             OpenAI.max_completion_tokens := None;
             OpenAI.temperature :=
               Some (dict_get_or (Config.research_config ai_config)
                       "temperature" (VFloat 0.3%float));
             OpenAI.response_format_json := true |} →
        match chat_completions_create client chat_request with
        | Raise e =>
            ResearchAgent.real_attempt ai_config self request
            = (Agent.set_openai_client self client, Raise ResearchAgentError)
        | Ok [] =>
            ResearchAgent.real_attempt ai_config self request
            = (Agent.set_openai_client self client, Raise ResearchAgentError)
        | Ok (content :: _) =>
            match json_loads_fields content with
            | Raise e =>
                ResearchAgent.real_attempt ai_config self request
                = (Agent.set_openai_client self client, Raise ResearchAgentError)
            | Ok fields =>
                match ResearchAgent.ResearchResponse fields with
                | Raise e =>
                    ResearchAgent.real_attempt ai_config self request
                    = (Agent.set_openai_client self client,
                       Raise ResearchAgentError)
                | Ok response =>
                    ResearchAgent.real_attempt ai_config self request
                    = (Agent.set_openai_client self client,
                       Ok (Agent.Returned response))
                end
            end
        end
  end.
Proof.
  intros Hc Hk. unfold ResearchAgent.real_attempt, Agent._init_openai_client.
  rewrite Hc, Hk. simpl.
  destruct (AsyncOpenAI _) as [client|e]; [|by rewrite isinstance_Exception].
  intros chat_request ->. simpl.
  unfold ResearchAgent._call_real_ai. simpl.
  destruct (chat_completions_create _ _) as [[|content ?]|e]; simpl;
    rewrite ?isinstance_Exception; try done.
  destruct (json_loads_fields content) as [fields|e]; simpl.
  - destruct (ResearchAgent.ResearchResponse fields) as [response|e]; simpl;
      [done|].
    rewrite !isinstance_Exception. by destruct (isinstance e JSONDecodeError).
  - rewrite !isinstance_Exception. by destruct (isinstance e JSONDecodeError).
Qed.



(** C5.  For every valid writer request, a result returned by [process] of
    the writer agent has a [word_count] equal to the number of white-space
    separated words of its [article_text] and at least 100, on the
    simulation path and on the real path alike (a shorter article of the
    real path is refused by [WriterResponse] and replaced by the
    simulation's); and [process] does return a result, in simulation mode
    and whenever the configured model is a string. *)
Theorem writer_word_count `{Runtime}
    (ai_config : Config.AIConfig) (self : Agent.t)
    (message : WriterAgent.Message.t) (request : WriterAgent.Request.t) :
  WriterAgent.WriterRequest message = Ok request →
  (∀ self' r,
     WriterAgent.process ai_config self message = (self', Ok r) →
     WriterAgent.Response.word_count r
     = len (split (WriterAgent.Response.article_text r))
     ∧ 100 ≤ WriterAgent.Response.word_count r)
  ∧ (AgentSpec.simulation_on (Config.writing_config ai_config)
     ∨ AgentSpec.model_is_str (Config.writing_config ai_config) →
     ∃ self' r, WriterAgent.process ai_config self message = (self', Ok r)).
Proof.
  intros Hreq. split.
  - intros self' r Hok.
    destruct (writer_process_ok _ _ _ _ _ _ Hreq Hok) as [Hs|Ha].
    + destruct (writer_simulation_ok request) as (rs & Hrs & _ & Hwc & H100).
      rewrite Hrs in Hs. by injection Hs as <-.
    + by apply writer_real_attempt_returned in Ha.
  - intros Hcfg.
    destruct (writer_simulation_ok request) as (rs & Hs & _).
    destruct (truthy (dict_get_or (Config.writing_config ai_config)
                        "simulation_mode" (VBool true))) eqn:Hmode.
    + rewrite (writer_process_simulation _ _ _ _ Hreq Hmode), Hs.
      by eexists _, _.
    + destruct Hcfg as [Hsim|Hstr];
        [unfold AgentSpec.simulation_on in Hsim; congruence|].
      rewrite (writer_process_real _ _ _ _ Hreq Hmode Hstr).
      destruct (WriterAgent.real_attempt ai_config self request)
        as [self' [[r|]|e]]; rewrite ?Hs; by eexists _, _.
Qed.

Lemma writer_word_count_witness :
  ∃ self' r,
    WriterAgent.process (H := AgentSpec.terse) AgentSpec.real_config
      AgentSpec.writer_agent (AgentSpec.writer_message (lit "Title"))
    = (self', Ok r)
    ∧ WriterAgent.Response.word_count r
      = len (split (WriterAgent.Response.article_text r))
    ∧ 100 ≤ WriterAgent.Response.word_count r.
Proof.
  destruct (writer_word_count (H := AgentSpec.terse) AgentSpec.real_config
              AgentSpec.writer_agent (AgentSpec.writer_message (lit "Title"))
              {| WriterAgent.Request.title := lit "Title";
                 WriterAgent.Request.executive_summary := lit "A summary.";
                 WriterAgent.Request.key_points := [lit "One point"];
                 WriterAgent.Request.keywords := [];
                 WriterAgent.Request.tone := lit "professional" |})
    as [Hcount Hreturns].
  - vm_compute. reflexivity.
  - destruct Hreturns as (self' & r & Hok).
    + right. eexists. vm_compute. reflexivity.
    + exists self', r. split; [exact Hok | exact (Hcount self' r Hok)].
Defined.

Section EmptyInputs.
Context `{Runtime}.
Import Config AgentSpec.

Lemma writer_rejects_blank_title (ai_config : AIConfig) (self : Agent.t)
    (message : WriterAgent.Message.t) (title : pystr) :
  WriterAgent.Message.title message = Some title →
  strip title = [] →
  WriterAgent.process ai_config self message = (self, Raise WriterAgentError).
Proof.
  intros Ht Hs. unfold WriterAgent.process, WriterAgent.WriterRequest.
  rewrite Ht. unfold WriterAgent.not_empty at 1. rewrite Hs. simpl.
  by destruct (WriterAgent.Message.executive_summary message),
    (WriterAgent.Message.key_points message).
Qed.

Lemma image_rejects_blank_prompt (ai_config : AIConfig) (self : Agent.t)
    (message : ImageAgent.Message.t) (prompt : pystr) :
  ImageAgent.Message.prompt message = Some prompt →
  strip prompt = [] →
  ImageAgent.process ai_config self message = (self, Raise ImageAgentError).
Proof.
  intros Hp Hs. unfold ImageAgent.process, ImageAgent.ImageRequest.
  rewrite Hp. unfold ImageAgent.prompt_not_empty. by rewrite Hs.
Qed.

Lemma research_request_any_topic (topic : pystr) (d : Z) :
  1 ≤ d ≤ 3 →
  ResearchAgent.ResearchRequest (research_message topic d)
  = Ok {| ResearchAgent.Request.topic := topic;
          ResearchAgent.Request.depth := d |}.
Proof.
  intros [H1 H3]. unfold ResearchAgent.ResearchRequest. simpl.
  apply Z.leb_le in H1, H3. by rewrite H1, H3.
Qed.

End EmptyInputs.

(** C9.  The research agent accepts an empty topic: for the request with
    topic [""] and a depth [d] between 1 and 3, validation succeeds,
    [process] returns a result and never a validation error, and in
    simulation mode (as when the real path fails) that result is the
    templated brief with the empty topic interpolated.  The writer agent
    rejects an empty title and the image agent an empty prompt. *)
Theorem research_accepts_empty_topic `{Runtime} (d : Z) :
  1 ≤ d ≤ 3 →
  ResearchAgent.ResearchRequest (AgentSpec.research_message [] d)
  = Ok {| ResearchAgent.Request.topic := [];
          ResearchAgent.Request.depth := d |}
  ∧ (∀ ai_config self,
       AgentSpec.simulation_on (Config.research_config ai_config)
       ∨ AgentSpec.model_is_str (Config.research_config ai_config) →
       ∃ self' r,
         ResearchAgent.process ai_config self (AgentSpec.research_message [] d)
         = (self', Ok r))
  ∧ (∀ ai_config self,
       AgentSpec.simulation_on (Config.research_config ai_config) →
       ResearchAgent.process ai_config self (AgentSpec.research_message [] d)
       = (self, Ok (Templates.get_enhanced_research_content [])))
  ∧ (∀ ai_config self self' e,
       AgentSpec.real_mode (Config.research_config ai_config) →
       AgentSpec.model_is_str (Config.research_config ai_config) →
       ResearchAgent.real_attempt ai_config self
         {| ResearchAgent.Request.topic := [];
            ResearchAgent.Request.depth := d |} = (self', Raise e) →
       ResearchAgent.process ai_config self (AgentSpec.research_message [] d)
       = (self', Ok (Templates.get_enhanced_research_content [])))
  ∧ Brief.title (Templates.get_enhanced_research_content [])
    = lit "Strategic Analysis: "
  ∧ (∀ ai_config self message,
       WriterAgent.Message.title message = Some [] →
       WriterAgent.process ai_config self message
       = (self, Raise WriterAgentError))
  ∧ (∀ ai_config self message,
       ImageAgent.Message.prompt message = Some [] →
       ImageAgent.process ai_config self message
       = (self, Raise ImageAgentError)).
Proof.
  intros Hd.
  pose proof (research_request_any_topic [] d Hd) as Hreq.
  split; [done|]. split; [|split; [|split; [|split; [|split]]]].
  - intros ai_config self Hcfg.
    destruct (truthy (dict_get_or (Config.research_config ai_config)
                        "simulation_mode" (VBool true))) eqn:Hmode.
    + rewrite (research_process_simulation _ _ _ _ Hreq Hmode). by eexists _, _.
    + destruct Hcfg as [Hsim|Hstr];
        [unfold AgentSpec.simulation_on in Hsim; congruence|].
      rewrite (research_process_real _ _ _ _ Hreq Hmode Hstr).
      destruct (ResearchAgent.real_attempt _ _ _) as [self' [[r|]|e]];
        by eexists _, _.
  - intros ai_config self Hsim.
    by rewrite (research_process_simulation _ _ _ _ Hreq Hsim).
  - intros ai_config self self' e Hreal Hstr Ha.
    by rewrite (research_process_real _ _ _ _ Hreq Hreal Hstr), Ha.
  - reflexivity.
  - intros ai_config self message Ht.
    by apply (writer_rejects_blank_title _ _ _ []).
  - intros ai_config self message Hp.
    by apply (image_rejects_blank_prompt _ _ _ []).
Qed.

Lemma research_accepts_empty_topic_witness :
  ResearchAgent.process (H := AgentSpec.offline) AgentSpec.simulation_config
    AgentSpec.research_agent (AgentSpec.research_message [] 2)
  = (AgentSpec.research_agent,
     Ok (Templates.get_enhanced_research_content (H := AgentSpec.offline) []))
  ∧ WriterAgent.process (H := AgentSpec.offline) AgentSpec.simulation_config
      AgentSpec.writer_agent (AgentSpec.writer_message [])
    = (AgentSpec.writer_agent, Raise WriterAgentError)
  ∧ ImageAgent.process (H := AgentSpec.offline) AgentSpec.simulation_config
      AgentSpec.image_agent (AgentSpec.image_message [])
    = (AgentSpec.image_agent, Raise ImageAgentError).
Proof.
  destruct (research_accepts_empty_topic (H := AgentSpec.offline) 2)
    as (_ & _ & Hsim & _ & _ & Hw & Hi); [lia|].
  split; [|split].
  - apply Hsim. vm_compute. reflexivity.
  - apply Hw. reflexivity.
  - apply Hi. reflexivity.
Defined.

(** ** Content templaters *)

Section TemplateFacts.

Lemma research_template_shape `{Runtime} (topic : pystr) :
  let r := Templates.get_enhanced_research_content topic in
  Brief.title r = lit "Strategic Analysis: " ++ topic
  ∧ len (Brief.key_points r) = 5
  ∧ len (Brief.keywords r) = 6
  ∧ Brief.research_confidence r = 0.926%float
  ∧ Brief.methodology r = lit "Multi-source analysis with AI-powered synthesis".
Proof. done. Qed.

End TemplateFacts.

(** C4.  The templaters are functions of their input alone: two calls of
    [get_enhanced_research_content] on the same topic give the same brief,
    in any two runtimes that lower-case the topic alike (the API, the clock
    and the configuration play no part), and two calls of
    [get_enhanced_writing_content] on the same brief give the same string.
    For every topic the brief has five key points, hence at least four, and
    a confidence of 0.926, between 0 and 1. *)
Theorem templaters_deterministic :
  (∀ (R1 R2 : Runtime) (topic1 topic2 : pystr),
     topic1 = topic2 →
     @str_lower R1 topic1 = @str_lower R2 topic2 →
     @Templates.get_enhanced_research_content R1 topic1
     = @Templates.get_enhanced_research_content R2 topic2)
  ∧ (∀ (title1 title2 summary1 summary2 : pystr) (points1 points2 : list pystr),
       title1 = title2 → summary1 = summary2 → points1 = points2 →
       Templates.get_enhanced_writing_content title1 summary1 points1
       = Templates.get_enhanced_writing_content title2 summary2 points2)
  ∧ (∀ (R : Runtime) (topic : pystr),
       4 ≤ len (Brief.key_points (Templates.get_enhanced_research_content topic))
       ∧ PrimFloat.leb 0%float
           (Brief.research_confidence
              (Templates.get_enhanced_research_content topic)) = true
       ∧ PrimFloat.leb
           (Brief.research_confidence
              (Templates.get_enhanced_research_content topic)) 1%float = true).
Proof.
  split; [|split].
  - intros R1 R2 topic1 topic2 <- Hlower.
    unfold Templates.get_enhanced_research_content. by rewrite Hlower.
  - by intros ? ? ? ? ? ? <- <- <-.
  - intros R topic. split; [|split]; by vm_compute.
Qed.

Lemma templaters_deterministic_witness :
  @Templates.get_enhanced_research_content AgentSpec.offline (lit "AI")
  = @Templates.get_enhanced_research_content AgentSpec.terse (lit "AI")
  ∧ 4 ≤ len (Brief.key_points
               (@Templates.get_enhanced_research_content AgentSpec.offline [])).
Proof.
  destruct templaters_deterministic as (Hr & _ & Hs).
  split.
  - apply Hr; reflexivity.
  - apply (Hs AgentSpec.offline []).
Defined.

(** ** The demo pipeline *)

Section DemoFacts.
Import Config AgentSpec DemoSpec.

Lemma startswith_app (a b sub : pystr) :
  startswith a sub = true → startswith (a ++ b) sub = true.
Proof.
  revert a. induction sub as [|c sub IH]; intros a; [done|].
  destruct a as [|d a]; simpl; [done|].
  intros [-> Ha]%andb_true_iff. by rewrite (IH _ Ha).
Qed.

Lemma contains_app_l (a b sub : pystr) :
  contains a sub = true → contains (a ++ b) sub = true.
Proof.
  induction a as [|d a IH]; simpl.
  - destruct sub as [|c sub]; [|done]. intros _. by destruct b.
  - destruct (startswith (d :: a) sub) eqn:Hs.
    + intros _. pose proof (startswith_app (d :: a) b sub Hs) as Hs'.
      simpl in Hs'. by rewrite Hs'.
    + intros Ha. rewrite (IH Ha). by destruct (startswith (d :: a ++ b) sub).
Qed.

Lemma contains_app_r (a b sub : pystr) :
  contains b sub = true → contains (a ++ b) sub = true.
Proof.
  intros Hb. induction a as [|d a IH]; simpl; [done|].
  rewrite IH. by destruct (startswith (d :: a ++ b) sub).
Qed.

Lemma length_le_bytes (n : nat) (x : Z) : length (MD5.le_bytes n x) = n.
Proof. unfold MD5.le_bytes. by rewrite length_map, length_seq. Qed.

Lemma length_hexdigest (msg : list Z) : length (MD5.hexdigest msg) = 32%nat.
Proof.
  unfold MD5.hexdigest, MD5.digest.
  destruct (fold_left _ _ _) as [[[a b] c] d].
  unfold MD5.hex.
  assert (Hflat : ∀ l : list Z,
    length (flat_map (λ b, [MD5.hex_digit (b / 16); MD5.hex_digit (b mod 16)]) l)
    = (2 * length l)%nat).
  { induction l as [|x l IH]; simpl; [done|]. rewrite IH. lia. }
  rewrite Hflat, !length_app, !length_le_bytes. done.
Qed.

Lemma seed_of_length (keyword_text seed : pystr) :
  Demo.seed_of keyword_text = Ok seed → length seed = 12%nat.
Proof.
  unfold Demo.seed_of. destruct (UTF8.encode keyword_text) as [bytes|e];
    simpl; [|done].
  intros [= <-]. rewrite length_take, length_hexdigest. done.
Qed.

Context `{Runtime}.

Lemma demo_research_simulation (ai_config : AIConfig)
    (client : option OpenAI.Client) (tick : nat) (message : Demo.Message.t pystr) :
  simulation_on (research_config ai_config) →
  Demo.research_process ai_config client tick message
  = Ok (Demo.Message.new tick
          (Templates.get_enhanced_research_content (Demo.Message.content message))
          (Some Demo.ENHANCED_SIMULATION)).
Proof.
  unfold simulation_on, Demo.research_process, Demo.get_model_info,
    Demo.use_real_ai. by intros ->.
Qed.

Lemma demo_writer_simulation (ai_config : AIConfig)
    (client : option OpenAI.Client) (tick : nat)
    (message : Demo.Message.t Brief.t) :
  simulation_on (writing_config ai_config) →
  Demo.writer_process ai_config client tick message
  = let brief := Demo.Message.content message in
    let article_html :=
      Templates.get_enhanced_writing_content (Brief.title brief)
        (Brief.executive_summary brief) (Brief.key_points brief) in
    Ok (Demo.Message.new tick
          {| Demo.WriterResult.article_text := article_html;
             Demo.WriterResult.keywords := Brief.keywords brief;
             Demo.WriterResult.word_count := len (split article_html);
             Demo.WriterResult.writing_style := lit "professional" |}
          (Some Demo.ENHANCED_SIMULATION)).
Proof.
  unfold simulation_on, Demo.writer_process, Demo.get_model_info,
    Demo.use_real_ai. by intros ->.
Qed.

Lemma demo_image_simulation (ai_config : AIConfig)
    (client : option OpenAI.Client) (tick : nat)
    (message : Demo.Message.t (list pystr)) :
  simulation_on (image_config ai_config) →
  Demo.image_process ai_config client tick message
  = (result ← Demo._generate_simulation_image (Demo.Message.content message);
     Ok (Demo.Message.new tick result (Some Demo.ENHANCED_SIMULATION))).
Proof.
  unfold simulation_on, Demo.image_process, Demo.get_model_info,
    Demo.use_real_ai. intros ->. simpl.
  by destruct (Demo._generate_simulation_image _).
Qed.

Lemma demo_display_simulation (ai_config : AIConfig) :
  all_simulation ai_config → Demo._display_ai_config ai_config = Ok tt.
Proof.
  unfold all_simulation, simulation_on, Demo._display_ai_config,
    Demo.get_model_info. by intros (-> & -> & ->).
Qed.

End DemoFacts.

(** C6, as stated, fails twice.  The image agent of the package
    ([src/agents/image.py]) answers every simulated request with the literal
    [SIMULATED_IMAGE_DATA]; and in the demo two keyword lists whose first
    three entries differ can have the same joined text, hence the same
    identifier. *)
Lemma simulation_image_counterexample :
  snd (ImageAgent.process (H := AgentSpec.offline) AgentSpec.simulation_config
         AgentSpec.image_agent (AgentSpec.image_message (lit "a red car")))
  = Ok {| ImageAgent.Response.image_data := lit "SIMULATED_IMAGE_DATA";
          ImageAgent.Response.prompt_used := lit "a red car";
          ImageAgent.Response.style_used := lit "professional";
          ImageAgent.Response.dimensions := lit "1024x1024" |}
  ∧ snd (ImageAgent.process (H := AgentSpec.offline) AgentSpec.simulation_config
           AgentSpec.image_agent (AgentSpec.image_message (lit "a blue boat")))
    = Ok {| ImageAgent.Response.image_data := lit "SIMULATED_IMAGE_DATA";
            ImageAgent.Response.prompt_used := lit "a blue boat";
            ImageAgent.Response.style_used := lit "professional";
            ImageAgent.Response.dimensions := lit "1024x1024" |}
  ∧ firstn 3 [lit "a b"] ≠ firstn 3 [lit "a"; lit "b"]
  ∧ DemoSpec.placeholder_url [lit "a b"]
    = Some (lit "https://picsum.photos/seed/0cc9cd4dd26c/800/400")
  ∧ DemoSpec.placeholder_url [lit "a"; lit "b"]
    = Some (lit "https://picsum.photos/seed/0cc9cd4dd26c/800/400").
Proof.
  split; [by vm_compute|]. split; [by vm_compute|].
  split; [by vm_compute|]. split; by vm_compute.
Qed.

Section SimulationImage.
Import Config AgentSpec DemoSpec.

Lemma simulation_image_of_text (k1 k2 : list pystr) :
  join (lit " ") (firstn 3 k1) = join (lit " ") (firstn 3 k2) →
  Demo._generate_simulation_image k1 = Demo._generate_simulation_image k2.
Proof. unfold Demo._generate_simulation_image. by intros ->. Qed.

Lemma simulation_image_url (keywords : list pystr) (r : Demo.ImageResult.t) :
  Demo._generate_simulation_image keywords = Ok r →
  ∃ seed,
    Demo.seed_of (join (lit " ") (firstn 3 keywords)) = Ok seed
    ∧ length seed = 12%nat
    ∧ Demo.ImageResult.image_url r
      = Some (lit "https://picsum.photos/seed/" ++ seed ++ lit "/800/400").
Proof.
  unfold Demo._generate_simulation_image.
  destruct (Demo.seed_of _) as [seed|e] eqn:Hseed; simpl; [|done].
  intros [= <-]. exists seed. split; [done|].
  split; [by eapply seed_of_length|done].
Qed.

End SimulationImage.

(** C6, amended.  The demo's image agent ([examples/enhanced_demo.py])
    builds its placeholder from the first 12 hexadecimal digits of the MD5
    of the first three keywords joined by spaces: keyword lists that agree
    on their first three entries, and more generally on that joined text,
    get the identical result, in simulation mode at every call; the topic
    lists "electric vehicles ..." and "solar power ..." get different
    identifiers.  The image agent of the package ([src/agents/image.py])
    returns the literal [SIMULATED_IMAGE_DATA] for every request. *)
Theorem simulation_image_by_hash :
  (∀ k1 k2 : list pystr,
     firstn 3 k1 = firstn 3 k2 →
     Demo._generate_simulation_image k1 = Demo._generate_simulation_image k2)
  ∧ (∀ k1 k2 : list pystr,
       join (lit " ") (firstn 3 k1) = join (lit " ") (firstn 3 k2) →
       Demo._generate_simulation_image k1 = Demo._generate_simulation_image k2)
  ∧ (∀ (keywords : list pystr) (r : Demo.ImageResult.t),
       Demo._generate_simulation_image keywords = Ok r →
       ∃ seed,
         Demo.seed_of (join (lit " ") (firstn 3 keywords)) = Ok seed
         ∧ length seed = 12%nat
         ∧ Demo.ImageResult.image_url r
           = Some (lit "https://picsum.photos/seed/" ++ seed ++ lit "/800/400"))
  ∧ (∀ (R : Runtime) ai_config client tick1 tick2 (m1 m2 : Demo.Message.t (list pystr)),
       AgentSpec.simulation_on (Config.image_config ai_config) →
       firstn 3 (Demo.Message.content m1) = firstn 3 (Demo.Message.content m2) →
       Demo.Message.content <$> Demo.image_process ai_config client tick1 m1
       = Demo.Message.content <$> Demo.image_process ai_config client tick2 m2)
  ∧ DemoSpec.placeholder_url
      [lit "electric vehicles"; lit "innovation"; lit "market growth"]
    = Some (lit "https://picsum.photos/seed/46611d02f8f6/800/400")
  ∧ DemoSpec.placeholder_url
      [lit "solar power"; lit "innovation"; lit "market growth"]
    = Some (lit "https://picsum.photos/seed/5a84e55e882c/800/400")
  ∧ (∀ request : ImageAgent.Request.t,
       ImageAgent.Response.image_data <$> ImageAgent.simulation request
       = Ok ImageAgent.SIMULATED_IMAGE_DATA).
Proof.
  split; [|split; [|split; [|split; [|split; [|split]]]]].
  - intros k1 k2 Hk. apply simulation_image_of_text. by rewrite Hk.
  - apply simulation_image_of_text.
  - apply simulation_image_url.
  - intros R ai_config client tick1 tick2 m1 m2 Hsim Hk.
    rewrite !demo_image_simulation by done.
    rewrite (simulation_image_of_text (Demo.Message.content m1)
               (Demo.Message.content m2)) by (by rewrite Hk).
    by destruct (Demo._generate_simulation_image _).
  - by vm_compute.
  - by vm_compute.
  - done.
Qed.

Lemma simulation_image_by_hash_witness :
  Demo._generate_simulation_image
    [lit "ai"; lit "robots"; lit "future"; lit "work"]
  = Demo._generate_simulation_image
      [lit "ai"; lit "robots"; lit "future"; lit "play"; lit "more"].
Proof.
  destruct simulation_image_by_hash as (Hfirst & _).
  apply Hfirst. reflexivity.
Defined.

Section ElectricVehicles.
Import Config AgentSpec DemoSpec.

Lemma electric_vehicles_image :
  Demo._generate_simulation_image
    [ lit "electric vehicles"; lit "innovation"; lit "market growth";
      lit "technology"; lit "digital transformation";
      lit "strategic analysis" ]
  = Ok {| Demo.ImageResult.image_url :=
            Some (lit "https://picsum.photos/seed/46611d02f8f6/800/400");
          Demo.ImageResult.alt_text :=
            lit "Professional illustration representing "
            ++ lit "electric vehicles innovation market growth";
          Demo.ImageResult.dimensions := VStr (lit "800x400");
          Demo.ImageResult.format := lit "JPEG";
          Demo.ImageResult.generation_method :=
            lit "Procedural (DALL-E 3 Ready)" |}.
Proof. by vm_compute. Qed.

Lemma html_split `{Runtime} (tick : nat)
    (research_result : Demo.Message.t Brief.t)
    (writer_result : Demo.Message.t Demo.WriterResult.t)
    (image_result : Demo.Message.t Demo.ImageResult.t) :
  Demo._create_enhanced_html tick research_result writer_result image_result
  = html_head research_result writer_result image_result
    ++ strftime (now tick) ++ html_tail research_result.
Proof.
  unfold Demo._create_enhanced_html, html_head, html_tail. cbn zeta.
  by rewrite <- !(assoc_L (++)).
Qed.

End ElectricVehicles.

(** C7.  With all three capabilities in simulation mode, the orchestrator
    run on the topic "Electric Vehicles" returns a document that contains
    the text "Electric Vehicles"; the model-used labels of its three stages
    are all "Enhanced Simulation", and the document carries the three
    attribution lines saying so; its keyword list has six entries, hence at
    least one, and is printed in the footer.  ([str.lower] maps the topic
    to "electric vehicles".) *)
Theorem electric_vehicles_document `{Runtime}
    (ai_config : Config.AIConfig) (openai_client : option OpenAI.Client) :
  DemoSpec.all_simulation ai_config →
  str_lower DemoSpec.ELECTRIC_VEHICLES = lit "electric vehicles" →
  ∃ research_result writer_result image_result document,
    Demo.stages ai_config openai_client DemoSpec.ELECTRIC_VEHICLES
    = Ok (research_result, writer_result, image_result)
    ∧ Demo.process ai_config openai_client DemoSpec.ELECTRIC_VEHICLES
      = Ok document
    ∧ Demo.Message.content document
      = Demo._create_enhanced_html 5 research_result writer_result image_result
    ∧ contains (Demo.Message.content document) DemoSpec.ELECTRIC_VEHICLES = true
    ∧ Demo.Message.model_used research_result = Some Demo.ENHANCED_SIMULATION
    ∧ Demo.Message.model_used writer_result = Some Demo.ENHANCED_SIMULATION
    ∧ Demo.Message.model_used image_result = Some Demo.ENHANCED_SIMULATION
    ∧ Forall (λ line, contains (Demo.Message.content document) line = true)
        DemoSpec.attribution_lines
    ∧ Brief.keywords (Demo.Message.content research_result)
      = [ lit "electric vehicles"; lit "innovation"; lit "market growth";
          lit "technology"; lit "digital transformation";
          lit "strategic analysis" ]
    ∧ Demo.WriterResult.keywords (Demo.Message.content writer_result)
      = Brief.keywords (Demo.Message.content research_result)
    ∧ 1 ≤ len (Brief.keywords (Demo.Message.content research_result))
    ∧ contains (Demo.Message.content document) DemoSpec.keyword_line = true.
Proof.
  intros Hsim Hlower.
  pose proof Hsim as (Hr & Hw & Hi).
  unfold Demo.process, Demo.stages.
  rewrite (demo_display_simulation _ Hsim).
  cbn [mbind result_bind Py.bind].
  rewrite (demo_research_simulation _ _ _ _ Hr).
  cbn [mbind result_bind Py.bind].
  rewrite (demo_writer_simulation _ _ _ _ Hw).
  cbn [mbind result_bind Py.bind].
  rewrite (demo_image_simulation _ _ _ _ Hi).
  unfold Templates.get_enhanced_research_content.
  cbn [Demo.Message.content Demo.Message.new Brief.keywords
         Demo.WriterResult.keywords].
  rewrite Hlower, electric_vehicles_image.
  cbn [mbind result_bind Py.bind].
  eexists _, _, _, _.
  split; [reflexivity|]. split; [reflexivity|]. split; [reflexivity|].
  cbn [Demo.Message.content Demo.Message.model_used Demo.Message.new
         Brief.keywords Demo.WriterResult.keywords].
  rewrite html_split.
  split; [apply contains_app_l; by vm_compute|].
  split; [done|]. split; [done|]. split; [done|].
  split.
  { repeat constructor; apply contains_app_l; by vm_compute. }
  split; [done|]. split; [done|]. split; [by vm_compute|].
  do 2 apply contains_app_r. by vm_compute.
Qed.

Lemma electric_vehicles_document_witness :
  ∃ document,
    Demo.process (H := AgentSpec.offline) AgentSpec.simulation_config None
      DemoSpec.ELECTRIC_VEHICLES = Ok document
    ∧ contains (Demo.Message.content document) DemoSpec.ELECTRIC_VEHICLES = true.
Proof.
  destruct (electric_vehicles_document (H := AgentSpec.offline)
              AgentSpec.simulation_config None)
    as (r & w & i & document & _ & Hdoc & _ & Hcontains & _).
  - repeat split; vm_compute; reflexivity.
  - vm_compute. reflexivity.
  - exists document. split; [exact Hdoc | exact Hcontains].
Defined.

(** ** The BMI endpoint *)

Section FloatOrder.

Lemma SFcompare_antisym (x y : spec_float) (c : comparison) :
  SFcompare x y = Some c → SFcompare y x = Some (CompOpp c).
Proof.
  destruct x as [sx|sx| |sx mx ex], y as [sy|sy| |sy my ey]; simpl;
    try discriminate; intros [= <-];
    try (by destruct sx); try (by destruct sy); try (by destruct sx, sy).
  f_equal. destruct sx, sy; try done.
  - rewrite (Z.compare_antisym ex ey).
    destruct (ex ?= ey)%Z; simpl; try done.
    by rewrite (Pos.compare_cont_antisym mx my Eq).
  - rewrite (Z.compare_antisym ex ey).
    destruct (ex ?= ey)%Z; simpl; try done.
    by rewrite (Pos.compare_cont_antisym mx my Eq).
Qed.

Lemma SFcompare_total (x y : spec_float) :
  x ≠ S754_nan → y ≠ S754_nan → ∃ c, SFcompare x y = Some c.
Proof.
  destruct x as [sx|sx| |sx mx ex], y as [sy|sy| |sy my ey]; simpl;
    intros Hx Hy; try done; by eexists.
Qed.

Lemma not_nan_spec (x : float) : is_nan x = false → Prim2SF x ≠ S754_nan.
Proof.
  unfold is_nan. rewrite FloatAxioms.eqb_spec. intros Hx Hnan.
  rewrite Hnan in Hx. discriminate Hx.
Qed.

(** Between two numbers, [not (x < y)] is [y <= x]. *)
Lemma ltb_negb_leb (x y : float) :
  is_nan x = false → is_nan y = false →
  PrimFloat.ltb x y = negb (PrimFloat.leb y x).
Proof.
  intros Hx%not_nan_spec Hy%not_nan_spec.
  rewrite ltb_spec, leb_spec. unfold SFltb, SFleb.
  destruct (SFcompare_total _ _ Hx Hy) as [c Hc].
  rewrite Hc, (SFcompare_antisym _ _ _ Hc). by destruct c.
Qed.

Lemma leb_negb_ltb (x y : float) :
  is_nan x = false → is_nan y = false →
  PrimFloat.leb x y = negb (PrimFloat.ltb y x).
Proof.
  intros Hx Hy. rewrite (ltb_negb_leb y x Hy Hx).
  by destruct (PrimFloat.leb x y).
Qed.

Ltac cmp_cases :=
  repeat match goal with
  | |- context [Pos.compare_cont Eq ?a ?b] =>
      change (Pos.compare_cont Eq a b) with (Pos.compare a b);
      destruct (Pos.compare_spec a b)
  | |- context [Z.compare ?a ?b] => destruct (Z.compare_spec a b)
  | H : context [Pos.compare_cont Eq ?a ?b] |- _ =>
      change (Pos.compare_cont Eq a b) with (Pos.compare a b) in H;
      destruct (Pos.compare_spec a b)
  | H : context [Z.compare ?a ?b] |- _ => destruct (Z.compare_spec a b)
  end.

Lemma SFltb_SFleb_trans (x y z : spec_float) :
  SFltb x y = true → SFleb y z = true → SFleb x z = true.
Proof.
  unfold SFltb, SFleb.
  destruct x as [sx|sx| |sx mx ex], y as [sy|sy| |sy my ey],
    z as [sz|sz| |sz mz ez]; simpl; try done;
    try destruct sx; try destruct sy; try destruct sz; simpl; try done;
    intros Hxy Hyz; cmp_cases; simpl in *; try done; try lia.
Qed.

Lemma SFleb_trans (x y z : spec_float) :
  SFleb x y = true → SFleb y z = true → SFleb x z = true.
Proof.
  unfold SFleb.
  destruct x as [sx|sx| |sx mx ex], y as [sy|sy| |sy my ey],
    z as [sz|sz| |sz mz ez]; simpl; try done;
    try destruct sx; try destruct sy; try destruct sz; simpl; try done;
    intros Hxy Hyz; cmp_cases; simpl in *; try done; try lia.
Qed.

Lemma ltb_leb_trans (x y z : float) :
  PrimFloat.ltb x y = true → PrimFloat.leb y z = true →
  PrimFloat.leb x z = true.
Proof. rewrite ltb_spec, !leb_spec. apply SFltb_SFleb_trans. Qed.

Lemma leb_trans (x y z : float) :
  PrimFloat.leb x y = true → PrimFloat.leb y z = true →
  PrimFloat.leb x z = true.
Proof. rewrite !leb_spec. apply SFleb_trans. Qed.

End FloatOrder.

Section BmiFacts.

Lemma SFcompare_refl (x : spec_float) :
  x ≠ S754_nan → SFcompare x x = Some Eq.
Proof.
  destruct x as [s|s| |s m e]; simpl; try done; intros _;
    try (by destruct s).
  destruct s; rewrite Z.compare_refl; simpl;
    by rewrite ?Pos.compare_cont_refl.
Qed.

Lemma nan_spec (x : float) : is_nan x = true → Prim2SF x = S754_nan.
Proof.
  unfold is_nan. rewrite FloatAxioms.eqb_spec. unfold SFeqb. intros Hx.
  destruct (Prim2SF x) as [s|s| |s m e] eqn:Hs; [| |done|];
    by rewrite SFcompare_refl in Hx.
Qed.

(** A float that is greater than 0 is a number, is not zero and is its own
    magnitude. *)
Lemma positive_spec (x : float) :
  PrimFloat.ltb 0%float x = true →
  is_nan x = false ∧ PrimFloat.eqb x 0%float = false ∧ abs x = x.
Proof.
  intros Hx. rewrite ltb_spec in Hx.
  change (Prim2SF 0) with (S754_zero false) in Hx.
  unfold is_nan. rewrite !FloatAxioms.eqb_spec.
  change (Prim2SF 0) with (S754_zero false).
  assert (Habs : SFabs (Prim2SF x) = Prim2SF x).
  { destruct (Prim2SF x) as [s|s| |s m e]; try done; by destruct s. }
  split; [|split].
  - unfold SFeqb. rewrite SFcompare_refl; [done|].
    by destruct (Prim2SF x).
  - destruct (Prim2SF x) as [s|s| |s m e]; try done; by destruct s.
  - apply Prim2SF_inj. by rewrite abs_spec.
Qed.

Context `{Bmi.Libm}.

(** For a finite height above 0 other than 1, the square is the value of
    the library's [pow]. *)
Lemma square_pow (x : float) :
  PrimFloat.ltb 0%float x = true → is_infinity x = false →
  PrimFloat.eqb x 1%float = false →
  Bmi.square x = Bmi.pow x 2%float.
Proof.
  intros (Hnan & Hzero & Habs)%positive_spec Hinf Hone.
  unfold Bmi.square. by rewrite Hnan, Hinf, Hzero, Habs, Hone.
Qed.

(** The assessment as the chain of comparisons computes it. *)
Lemma bmi_result (weight_kg height_m : float) (r : Bmi.BMIResponse.t) :
  Bmi.bmi weight_kg height_m = Ok r →
  PrimFloat.ltb 0%float weight_kg = true
  ∧ PrimFloat.ltb 0%float height_m = true
  ∧ (∃ squared quotient,
       Bmi.pow2 height_m = Ok squared
       ∧ Bmi.truediv weight_kg squared = Ok quotient
       ∧ Bmi.BMIResponse.bmi r = PyFloat.round quotient 2)
  ∧ Bmi.BMIResponse.assessment r =
      if PrimFloat.ltb (Bmi.BMIResponse.bmi r) 18.5%float
      then lit "Underweight"
      else if PrimFloat.leb (Bmi.BMIResponse.bmi r) 24.9%float
      then lit "Normal weight"
      else if PrimFloat.leb (Bmi.BMIResponse.bmi r) 29.9%float
      then lit "Overweight"
      else lit "Obesity".
Proof.
  unfold Bmi.bmi.
  destruct (PrimFloat.ltb 0 weight_kg); [|done].
  destruct (PrimFloat.ltb 0 height_m); [|done]. cbn [negb].
  destruct (Bmi.pow2 height_m) as [squared|e] eqn:Hsq; [|done].
  cbn [mbind result_bind Py.bind].
  destruct (Bmi.truediv weight_kg squared) as [quotient|e] eqn:Hq; [|done].
  cbn [mbind result_bind Py.bind].
  intros [= <-]. cbn [Bmi.BMIResponse.bmi Bmi.BMIResponse.assessment].
  split; [done|]. split; [done|]. split; [|done].
  by exists squared, quotient.
Qed.

Lemma pow2_square (x squared : float) :
  Bmi.pow2 x = Ok squared → squared = Bmi.square x.
Proof.
  unfold Bmi.pow2.
  destruct (is_infinity (Bmi.square x) && negb (is_infinity x)); [done|].
  by intros [= <-].
Qed.

End BmiFacts.

(** The value the endpoint returns depends on the library, also within
    the one unit of accuracy: for the weight 68.6116820762 and the height
    1.6598, a correctly rounded square gives 24.91 and "Overweight", and
    the square one unit above it, which is glibc's, gives 24.9 and "Normal
    weight". *)
Example bmi_depends_on_pow :
  Bmi.bmi (H := Bmi.correctly_rounded) 68.6116820762%float 1.6598%float
  = Ok {| Bmi.BMIResponse.bmi := 24.91%float;
          Bmi.BMIResponse.assessment := lit "Overweight" |}
  ∧ Bmi.bmi (H := Bmi.rounded_up) 68.6116820762%float 1.6598%float
    = Ok {| Bmi.BMIResponse.bmi := 24.9%float;
            Bmi.BMIResponse.assessment := lit "Normal weight" |}
  ∧ Bmi.pow (Libm := Bmi.rounded_up) 1.6598%float 2%float
    = 0x1.60a1be812f957p+1%float
  ∧ Bmi.accurate_at (H := Bmi.correctly_rounded) 1.6598%float
  ∧ Bmi.accurate_at (H := Bmi.rounded_up) 1.6598%float.
Proof.
  split; [by vm_compute|]. split; [by vm_compute|]. split; [by vm_compute|].
  split; [by right; left|by right; right].
Qed.

(** C3, as stated, fails at the upper edge of the overweight band: a BMI of
    exactly 29.9 (weight 29.9 kg, height 1 m) is at least 29.9 and is
    assessed "Overweight", not "Obesity", whatever the library ([1.0 ** 2]
    is 1.0 without a call of [pow]). *)
Lemma bmi_29_9_is_overweight :
  (∀ libm : Bmi.Libm,
     Bmi.bmi (H := libm) 29.9%float 1%float
     = Ok {| Bmi.BMIResponse.bmi := 29.9%float;
             Bmi.BMIResponse.assessment := lit "Overweight" |})
  ∧ PrimFloat.leb 29.9%float 29.9%float = true
  ∧ PrimFloat.ltb 29.9%float 29.9%float = false
  ∧ lit "Overweight" ≠ lit "Obesity".
Proof. split; [intros libm; by vm_compute|]. repeat split; by vm_compute. Qed.

(** C3, amended.  The BMI endpoint returns the quotient of the weight by
    the squared height, rounded to 2 decimals, where the squared height is
    what [height_m ** 2] evaluates to: for a finite height other than 1 the
    value of the library's [pow(height_m, 2.0)], which need not be the
    nearest double.  The value being a number, it is assessed "Underweight"
    iff bmi < 18.5, "Normal weight" iff 18.5 <= bmi <= 24.9, "Overweight"
    iff 24.9 < bmi <= 29.9, and "Obesity" iff bmi > 29.9.  With a [pow]
    within one unit in the last place of the correctly rounded square,
    weight 70.5 and height 1.75 give 23.02 and "Normal weight", weight 50
    and height 1.8 give 15.43 and "Underweight". *)
Theorem bmi_bands `{Bmi.Libm} :
  (∀ (weight_kg height_m : float) (r : Bmi.BMIResponse.t),
     Bmi.bmi weight_kg height_m = Ok r →
     is_nan (Bmi.BMIResponse.bmi r) = false →
     let value := Bmi.BMIResponse.bmi r in
     let status := Bmi.BMIResponse.assessment r in
     (∃ squared quotient,
        Bmi.pow2 height_m = Ok squared
        ∧ Bmi.truediv weight_kg squared = Ok quotient
        ∧ value = PyFloat.round quotient 2
        ∧ squared = Bmi.square height_m
        ∧ quotient = PrimFloat.div weight_kg squared
        ∧ (is_infinity height_m = false →
           PrimFloat.eqb height_m 1%float = false →
           squared = Bmi.pow height_m 2%float))
     ∧ (status = lit "Underweight" ↔ PrimFloat.ltb value 18.5%float = true)
     ∧ (status = lit "Normal weight"
        ↔ PrimFloat.leb 18.5%float value = true
          ∧ PrimFloat.leb value 24.9%float = true)
     ∧ (status = lit "Overweight"
        ↔ PrimFloat.ltb 24.9%float value = true
          ∧ PrimFloat.leb value 29.9%float = true)
     ∧ (status = lit "Obesity" ↔ PrimFloat.ltb 29.9%float value = true))
  ∧ (Bmi.accurate_at 1.75%float →
     Bmi.bmi 70.5%float 1.75%float
     = Ok {| Bmi.BMIResponse.bmi := 23.02%float;
             Bmi.BMIResponse.assessment := lit "Normal weight" |})
  ∧ (Bmi.accurate_at 1.8%float →
     Bmi.bmi 50%float 1.8%float
     = Ok {| Bmi.BMIResponse.bmi := 15.43%float;
             Bmi.BMIResponse.assessment := lit "Underweight" |}).
Proof.
  split; [|split].
  2:{ intros Hacc. unfold Bmi.bmi, Bmi.pow2.
      rewrite (square_pow 1.75) by (by vm_compute).
      destruct Hacc as [-> | [-> | ->]]; by vm_compute. }
  2:{ intros Hacc. unfold Bmi.bmi, Bmi.pow2.
      rewrite (square_pow 1.8) by (by vm_compute).
      destruct Hacc as [-> | [-> | ->]]; by vm_compute. }
  intros weight_kg height_m r Hr Hnan value status.
  destruct (bmi_result _ _ _ Hr)
    as (_ & Hheight & (squared & quotient & Hsq & Hq & Hv) & Hstatus).
  split.
  { exists squared, quotient.
    split; [done|]. split; [done|]. split; [done|].
    pose proof (pow2_square _ _ Hsq) as Hsquare.
    split; [done|]. split.
    - revert Hq. unfold Bmi.truediv.
      destruct (PrimFloat.eqb squared 0); [done|]. by intros [= <-].
    - intros Hinf Hone. rewrite Hsquare. by apply square_pow. }
  subst value status. rewrite Hstatus. clear Hstatus Hv Hq Hsq Hr.
  set (v := Bmi.BMIResponse.bmi r) in *.
  assert (H185 : is_nan 18.5%float = false) by by vm_compute.
  assert (H249 : is_nan 24.9%float = false) by by vm_compute.
  assert (H299 : is_nan 29.9%float = false) by by vm_compute.
  rewrite (leb_negb_ltb 18.5 v H185 Hnan), (ltb_negb_leb 24.9 v H249 Hnan),
    (ltb_negb_leb 29.9 v H299 Hnan).
  assert (Hab : PrimFloat.ltb v 18.5 = true → PrimFloat.leb v 24.9 = true).
  { intros Ha. apply (ltb_leb_trans v 18.5 24.9 Ha). by vm_compute. }
  assert (Hbc : PrimFloat.leb v 24.9 = true → PrimFloat.leb v 29.9 = true).
  { intros Hb. apply (leb_trans v 24.9 29.9 Hb). by vm_compute. }
  destruct (PrimFloat.ltb v 18.5) eqn:Ha, (PrimFloat.leb v 24.9) eqn:Hb,
    (PrimFloat.leb v 29.9) eqn:Hc;
    try (specialize (Hab eq_refl)); try (specialize (Hbc eq_refl));
    try discriminate; simpl;
    repeat split; try done; try (by intros [? ?]); by vm_compute.
Qed.

Lemma bmi_bands_witness :
  (Bmi.BMIResponse.assessment
     {| Bmi.BMIResponse.bmi := 27.76%float;
        Bmi.BMIResponse.assessment := lit "Overweight" |} = lit "Overweight"
   ↔ PrimFloat.ltb 24.9%float 27.76%float = true
     ∧ PrimFloat.leb 27.76%float 29.9%float = true)
  ∧ Bmi.bmi (H := Bmi.rounded_up) 50%float 1.8%float
    = Ok {| Bmi.BMIResponse.bmi := 15.43%float;
            Bmi.BMIResponse.assessment := lit "Underweight" |}.
Proof.
  split.
  - destruct (bmi_bands (H := Bmi.correctly_rounded)) as (Hbands & _).
    destruct (Hbands 85%float 1.75%float
                {| Bmi.BMIResponse.bmi := 27.76%float;
                   Bmi.BMIResponse.assessment := lit "Overweight" |})
      as (_ & _ & _ & Hover & _).
    + vm_compute. reflexivity.
    + vm_compute. reflexivity.
    + exact Hover.
  - destruct (bmi_bands (H := Bmi.rounded_up)) as (_ & _ & Hexample).
    apply Hexample. right. right. reflexivity.
Defined.

(** ** Further properties of the configuration holder *)

Section ReachableConfiguration.
Import Config ConfigSpec ConfigExtra.

(** [has_valid_api_key] reads the credentials only. *)
Lemma has_valid_api_key_ext (c1 c2 : AIConfig) (p : AIProvider) :
  api_keys c1 = api_keys c2 → has_valid_api_key c1 p = has_valid_api_key c2 p.
Proof. unfold has_valid_api_key. by intros ->. Qed.

Lemma enable_real_ai_valid (self : AIConfig) (p : AIProvider) :
  has_valid_api_key self p = true →
  fst (enable_real_ai self p)
  = {| provider := p;
       api_keys := api_keys self;
       research_config := set_simulation_mode false (research_config self);
       writing_config := set_simulation_mode false (writing_config self);
       image_config := set_simulation_mode false (image_config self) |}.
Proof. unfold enable_real_ai. by intros ->. Qed.

Lemma enable_real_ai_invalid (self : AIConfig) (p : AIProvider) :
  has_valid_api_key self p = false →
  enable_real_ai self p = (self, Raise InvalidAPIKeyError).
Proof. unfold enable_real_ai. by intros ->. Qed.

Lemma all_real_enabled (self : AIConfig) (p : AIProvider) :
  has_valid_api_key self p = true → all_real (fst (enable_real_ai self p)).
Proof.
  intros Hk. rewrite (enable_real_ai_valid _ _ Hk).
  unfold all_real, simulation_mode. simpl.
  by rewrite !dict_get_set_simulation_mode.
Qed.

(** The constructor registers no credential under the name of the
    simulation provider. *)
Lemma init_no_simulation_key (env : environ) (self : AIConfig) :
  api_keys self = api_keys (init_object env) →
  has_valid_api_key self SIMULATION = false.
Proof.
  intros Hk. unfold has_valid_api_key. rewrite Hk. simpl.
  by rewrite !lookup_insert_ne, lookup_empty.
Qed.

Lemma coherent_init (env : environ) : coherent env (init_object env).
Proof. split; [done|]. left. by vm_compute. Qed.

Lemma coherent_step (env : environ) (self : AIConfig) (o : op) :
  coherent env self → coherent env (step self o).
Proof.
  intros [Hkeys Hmode]. destruct o as [p|p]; [|done]. simpl.
  destruct (has_valid_api_key self p) eqn:Hk.
  - pose proof (all_real_enabled _ _ Hk) as Hreal.
    rewrite (enable_real_ai_valid _ _ Hk) in *.
    split; [done|]. right. simpl. split; [|split; [|done]].
    + intros ->. by rewrite (init_no_simulation_key env self Hkeys) in Hk.
    + by rewrite <- Hk.
  - by rewrite (enable_real_ai_invalid _ _ Hk).
Qed.

Lemma coherent_run_from (env : environ) (ops : list op) (self : AIConfig) :
  coherent env self → coherent env (fold_left step ops self).
Proof.
  revert self. induction ops as [|o ops IH]; intros self Hc; [done|].
  simpl. apply IH. by apply coherent_step.
Qed.

Lemma all_real_step (self : AIConfig) (o : op) :
  all_real self → all_real (step self o).
Proof.
  intros Hreal. destruct o as [p|p]; [|done]. simpl.
  destruct (has_valid_api_key self p) eqn:Hk.
  - by apply all_real_enabled.
  - by rewrite (enable_real_ai_invalid _ _ Hk).
Qed.

Lemma all_real_run_from (ops : list op) (self : AIConfig) :
  all_real self → all_real (fold_left step ops self).
Proof.
  revert self. induction ops as [|o ops IH]; intros self Hc; [done|].
  simpl. apply IH. by apply all_real_step.
Qed.

Lemma reachable_keys (env : environ) (ops : list op) :
  api_keys (run env ops) = api_keys (init_object env).
Proof.
  by destruct (coherent_run_from env ops (init_object env) (coherent_init env)).
Qed.

End ReachableConfiguration.

(** X1.  Every configuration reached from the constructor by
    [enable_real_ai] and [has_valid_api_key] calls is coherent: it holds
    the credentials the constructor read; either it is still the
    simulation configuration, with all three capabilities simulated, or
    its provider is a real one whose credential is valid and all three
    capabilities are in real mode; [enable_real_ai(SIMULATION)] is refused
    with [InvalidAPIKeyError]; and real mode, once reached, is never left,
    since no operation sets [simulation_mode] back. *)
Theorem reachable_configuration_coherent
    (env : Config.environ) (ops more : list ConfigSpec.op) :
  let self := ConfigSpec.run env ops in
  Config.api_keys self = Config.api_keys (Config.init_object env)
  ∧ ((Config.provider self = Config.SIMULATION
      ∧ Config.simulation_mode (Config.research_config self) = true
      ∧ Config.simulation_mode (Config.writing_config self) = true
      ∧ Config.simulation_mode (Config.image_config self) = true)
     ∨ (Config.provider self ≠ Config.SIMULATION
        ∧ Config.has_valid_api_key self (Config.provider self) = true
        ∧ ConfigSpec.all_real self))
  ∧ Config.enable_real_ai self Config.SIMULATION
    = (self, Raise InvalidAPIKeyError)
  ∧ (ConfigSpec.all_real self →
     ConfigSpec.all_real (ConfigSpec.run env (ops ++ more))).
Proof.
  intros self.
  destruct (coherent_run_from env ops (Config.init_object env)
              (coherent_init env)) as [Hkeys Hmode].
  fold (ConfigSpec.run env ops) in Hkeys, Hmode. fold self in Hkeys, Hmode.
  split; [done|]. split; [done|]. split.
  - apply enable_real_ai_invalid. by apply (init_no_simulation_key env).
  - intros Hreal. unfold ConfigSpec.run. rewrite fold_left_app.
    by apply all_real_run_from.
Qed.

(** X2.  [enable_real_ai] is idempotent: calling it again with the same
    provider on the configuration it left gives the same configuration and
    the same outcome, whether the first call succeeded or raised. *)
Theorem enable_real_ai_idempotent (self : Config.AIConfig) (p : Config.AIProvider) :
  Config.enable_real_ai (fst (Config.enable_real_ai self p)) p
  = Config.enable_real_ai self p.
Proof.
  destruct (Config.has_valid_api_key self p) eqn:Hk.
  - rewrite (enable_real_ai_valid _ _ Hk).
    set (self' := Config.mkAIConfig _ _ _ _ _).
    assert (Hk' : Config.has_valid_api_key self' p = true)
      by by rewrite (has_valid_api_key_ext self' self p eq_refl).
    unfold Config.enable_real_ai. rewrite Hk, Hk'. cbn [negb].
    unfold self', Config.set_simulation_mode. cbn.
    rewrite !insert_insert_eq. reflexivity.
  - rewrite (enable_real_ai_invalid _ _ Hk). simpl.
    by rewrite (enable_real_ai_invalid _ _ Hk).
Qed.

Section CredentialFormat.
Import Config ConfigSpec.

Lemma startswith_shorter (s a b : pystr) :
  startswith s (a ++ b) = true → startswith s a = true.
Proof.
  revert s. induction a as [|c a IH]; intros s; [done|].
  destruct s as [|d s]; simpl; [done|].
  intros [-> Hs]%andb_true_iff. by rewrite (IH _ Hs).
Qed.

Lemma has_valid_api_key_true (self : AIConfig) (p : AIProvider) :
  has_valid_api_key self p = true
  ↔ ∃ key, credential self p = Some key
           ∧ 20 ≤ len key ∧ prefix_ok p key = true.
Proof.
  pose proof (has_valid_api_key_false self p) as Hfalse.
  unfold credential_rejected in Hfalse.
  destruct (credential self p) as [key|] eqn:Hc.
  - split.
    + intros Hk. exists key. split; [done|].
      destruct (Z.le_gt_cases 20 (len key)) as [Hle|Hlt],
        (prefix_ok p key) eqn:Hp; try done.
      * assert (has_valid_api_key self p = false) by (apply Hfalse; by right).
        congruence.
      * assert (has_valid_api_key self p = false) by (apply Hfalse; left; lia).
        congruence.
      * assert (has_valid_api_key self p = false) by (apply Hfalse; left; lia).
        congruence.
    + intros (key' & [= <-] & Hlen & Hp).
      destruct (has_valid_api_key self p) eqn:Hk; [done|].
      destruct (proj1 Hfalse eq_refl) as [Hlt|Hp']; [lia|congruence].
  - split.
    + intros Hk. assert (has_valid_api_key self p = false) by by apply Hfalse.
      congruence.
    + by intros (key & ? & _).
Qed.

Lemma prefix_ok_app (p : AIProvider) (key suffix : pystr) :
  prefix_ok p key = true → prefix_ok p (key ++ suffix) = true.
Proof.
  destruct p; unfold prefix_ok; try done.
  - intros [H|H]%orb_true_iff; apply orb_true_iff; [left|right];
      by apply startswith_app.
  - apply startswith_app.
Qed.

End CredentialFormat.

(** X3.  [has_valid_api_key] accepts exactly the registered credentials
    of at least 20 characters with the prefix of the provider.  Hence a
    valid credential stays valid when text is appended to it, and every
    valid Anthropic credential, which starts with "sk-ant-", is also a
    valid OpenAI credential, which only has to start with "sk-". *)
Theorem credential_check_is_length_and_prefix :
  (∀ (self : Config.AIConfig) (p : Config.AIProvider),
     Config.has_valid_api_key self p = true
     ↔ ∃ key, ConfigSpec.credential self p = Some key
              ∧ 20 ≤ len key ∧ ConfigSpec.prefix_ok p key = true)
  ∧ (∀ (c1 c2 : Config.AIConfig) (p : Config.AIProvider) (key suffix : pystr),
       ConfigSpec.credential c1 p = Some key →
       ConfigSpec.credential c2 p = Some (key ++ suffix) →
       Config.has_valid_api_key c1 p = true →
       Config.has_valid_api_key c2 p = true)
  ∧ (∀ (c1 c2 : Config.AIConfig) (key : pystr),
       ConfigSpec.credential c1 Config.ANTHROPIC = Some key →
       ConfigSpec.credential c2 Config.OPENAI = Some key →
       Config.has_valid_api_key c1 Config.ANTHROPIC = true →
       Config.has_valid_api_key c2 Config.OPENAI = true).
Proof.
  split; [apply has_valid_api_key_true|]. split.
  - intros c1 c2 p key suffix H1 H2 Hk.
    apply has_valid_api_key_true in Hk as (key' & Hc & Hlen & Hp).
    rewrite H1 in Hc. injection Hc as <-.
    apply has_valid_api_key_true. exists (key ++ suffix). split; [done|].
    split; [|by apply prefix_ok_app].
    unfold len in *. rewrite length_app. lia.
  - intros c1 c2 key H1 H2 Hk.
    apply has_valid_api_key_true in Hk as (key' & Hc & Hlen & Hp).
    rewrite H1 in Hc. injection Hc as <-.
    apply has_valid_api_key_true. exists key. split; [done|]. split; [done|].
    unfold ConfigSpec.prefix_ok in *. apply orb_true_iff. left.
    by apply (startswith_shorter key (lit "sk-") (lit "ant-")).
Qed.

Lemma credential_check_is_length_and_prefix_witness :
  Config.has_valid_api_key
    (Config.init_object {[ "OPENAI_API_KEY" := lit "sk-ant-0123456789abcdef" ]})
    Config.OPENAI = true.
Proof.
  destruct credential_check_is_length_and_prefix as (_ & _ & Hant).
  apply (Hant (Config.init_object
                 {[ "ANTHROPIC_API_KEY" := lit "sk-ant-0123456789abcdef" ]})
           _ (lit "sk-ant-0123456789abcdef")); by vm_compute.
Defined.

Section SetupFacts.
Import Config ConfigSpec.

Lemma key_present_valid (self : AIConfig) (p : AIProvider) :
  has_valid_api_key self p = true →
  ∃ api_key, api_keys self !! value p = Some api_key
             ∧ Setup.key_present api_key = true.
Proof.
  intros (key & Hc & Hlen & _)%has_valid_api_key_true.
  unfold credential in Hc.
  destruct (api_keys self !! value p) as [[k|]|]; try done.
  injection Hc as ->. eexists. split; [done|].
  destruct key; [|done]. unfold len in Hlen. simpl in Hlen. lia.
Qed.

End SetupFacts.

(** X4.  The integration checks are weaker than the credential
    validation.  With its package installed, [setup_openai],
    [setup_anthropic] or [setup_google] returns [True] for every
    configuration whose credential [has_valid_api_key] accepts
    ([setup_google] after [genai.configure] on that credential); on a
    reachable configuration [setup_openai] returns whether the package is
    installed and the environment gave a non-empty key; without the package
    the answer is [False]; and a non-empty key shorter than 20 characters
    passes [setup_openai] although [has_valid_api_key] refuses it. *)
Theorem setup_accepts_what_validation_accepts :
  (∀ self : Config.AIConfig,
     Config.has_valid_api_key self Config.OPENAI = true →
     Setup.setup_openai true self = Ok true)
  ∧ (∀ self : Config.AIConfig,
       Config.has_valid_api_key self Config.ANTHROPIC = true →
       Setup.setup_anthropic true self = Ok true)
  ∧ (∀ (self : Config.AIConfig) (configure : pystr → result unit),
       Config.has_valid_api_key self Config.GOOGLE = true →
       ∃ key, ConfigSpec.credential self Config.GOOGLE = Some key
              ∧ Setup.setup_google true configure self
                = (configure key ;; Ok true))
  ∧ (∀ (env : Config.environ) (ops : list ConfigSpec.op) (installed : bool),
       Setup.setup_openai installed (ConfigSpec.run env ops)
       = Ok (installed
             && Setup.key_present (Config.getenv env "OPENAI_API_KEY")))
  ∧ (∀ self : Config.AIConfig,
       Setup.setup_openai false self = Ok false
       ∧ Setup.setup_anthropic false self = Ok false)
  ∧ (∀ (env : Config.environ) (key : pystr),
       Config.getenv env "OPENAI_API_KEY" = Some key →
       key ≠ [] → len key < 20 →
       Setup.setup_openai true (Config.init_object env) = Ok true
       ∧ Config.has_valid_api_key (Config.init_object env) Config.OPENAI
         = false).
Proof.
  split; [|split; [|split; [|split; [|split]]]].
  - intros self Hk. apply key_present_valid in Hk as (k & Hl & Hp).
    unfold Setup.setup_openai. simpl in Hl. by rewrite Hl, Hp.
  - intros self Hk. apply key_present_valid in Hk as (k & Hl & Hp).
    unfold Setup.setup_anthropic. simpl in Hl. by rewrite Hl, Hp.
  - intros self configure Hk.
    pose proof Hk as (key & Hc & _)%has_valid_api_key_true.
    apply key_present_valid in Hk as (k & Hl & Hp).
    exists key. split; [done|].
    unfold Setup.setup_google. simpl in Hl. rewrite Hl, Hp. simpl.
    unfold ConfigSpec.credential in Hc. simpl in Hc. rewrite Hl in Hc.
    simpl in Hc. by rewrite Hc.
  - intros env ops installed.
    pose proof (reachable_keys env ops) as Hkeys.
    unfold Setup.setup_openai. rewrite Hkeys. simpl.
    rewrite lookup_insert_eq. destruct installed; simpl; [|done].
    by destruct (Setup.key_present _).
  - done.
  - intros env key Hkey Hne Hlt. split.
    + unfold Setup.setup_openai. simpl. rewrite lookup_insert_eq, Hkey.
      by destruct key.
    + apply has_valid_api_key_false. unfold ConfigSpec.credential_rejected,
        ConfigSpec.credential. simpl. rewrite lookup_insert_eq, Hkey. simpl.
      by left.
Qed.

(** ** Further properties of the agents *)

Section AgentConstruction.
Import Config ConfigSpec ConfigExtra.

Lemma lookup_set_simulation_mode_ne (b : bool) (mc : gmap string PyVal)
    (k : string) :
  k ≠ "simulation_mode"%string → set_simulation_mode b mc !! k = mc !! k.
Proof. intros Hk. unfold set_simulation_mode. by rewrite lookup_insert_ne. Qed.

Lemma same_keys_set (b : bool) (default mc : gmap string PyVal) :
  same_keys default mc → same_keys default (set_simulation_mode b mc).
Proof.
  intros [_ Hk]. split.
  - unfold set_simulation_mode. rewrite lookup_insert_eq. by eexists.
  - intros k Hne. rewrite lookup_set_simulation_mode_ne by done. by apply Hk.
Qed.

Lemma default_keys_run (env : environ) (ops : list op) :
  default_keys (run env ops).
Proof.
  unfold run.
  assert (Hinit : default_keys (init_object env)).
  { split; [|split]; (split; [by eexists|done]). }
  revert Hinit. generalize (init_object env).
  induction ops as [|o ops IH]; intros self Hself; [done|].
  simpl. apply IH. destruct o as [p|p]; [|done]. simpl.
  unfold enable_real_ai. destruct (has_valid_api_key self p); [|done].
  destruct Hself as (Hr & Hw & Hi). simpl.
  split; [|split]; simpl; by apply same_keys_set.
Qed.

Lemma validate_required_fields_ok (required_fields : list string)
    (mc : gmap string PyVal) :
  Agent.validate_required_fields required_fields mc = Ok tt
  ↔ is_Some (mc !! "simulation_mode")
    ∧ (truthy (dict_get mc "simulation_mode") = true
       ∨ Forall (λ field, is_Some (mc !! field)) required_fields).
Proof.
  unfold Agent.validate_required_fields, Agent.validate_model_config.
  case_bool_decide as Hsim; simpl; [|by split; [|intros [? _]]].
  destruct (truthy (dict_get mc "simulation_mode")); simpl.
  { split; [by intros _; split; [|left]|done]. }
  destruct (forallb _ _) eqn:Hall.
  - split; [|done]. intros _. split; [done|]. right.
    apply Forall_forall. intros f Hf.
    rewrite forallb_forall in Hall. apply list_elem_of_In in Hf.
    specialize (Hall f Hf). by apply bool_decide_eq_true in Hall.
  - split; [done|]. intros [_ [?|Hforall]]; [done|].
    assert (forallb (λ field, bool_decide (is_Some (mc !! field)))
              required_fields = true); [|congruence].
    apply forallb_forall. intros f Hf. apply bool_decide_eq_true.
    rewrite Forall_forall in Hforall. apply Hforall. by apply list_elem_of_In.
Qed.

Lemma validate_required_fields_outcome (required_fields : list string)
    (mc : gmap string PyVal) :
  Agent.validate_required_fields required_fields mc = Ok tt
  ∨ Agent.validate_required_fields required_fields mc
    = Raise ModelInitializationError.
Proof.
  unfold Agent.validate_required_fields, Agent.validate_model_config.
  case_bool_decide; simpl; [|by right].
  destruct (negb _); [|by left]. destruct (forallb _ _); [by left|by right].
Qed.

Lemma validate_required_fields_same_keys (required_fields : list string)
    (default mc : gmap string PyVal) :
  same_keys default mc →
  Forall (λ field, is_Some (default !! field)) required_fields →
  Agent.validate_required_fields required_fields mc = Ok tt.
Proof.
  intros [Hsim Hk] Hreq. apply validate_required_fields_ok. split; [done|].
  right. apply Forall_forall. intros f Hf.
  destruct (decide (f = "simulation_mode"%string)) as [->|Hne]; [done|].
  rewrite (Hk f Hne). rewrite Forall_forall in Hreq. by apply Hreq.
Qed.

End AgentConstruction.

(** X5.  On every configuration reached from the constructor by the
    public operations the three agents can be constructed: their
    [validate_model_config] finds every required field.  In general the
    validation succeeds exactly when [simulation_mode] is present and, in
    real mode, every required field is; it raises nothing but
    [ModelInitializationError]. *)
Theorem agents_construct_on_reachable_configurations :
  (∀ (env : Config.environ) (ops : list ConfigSpec.op),
     ResearchAgent.__init__ (ConfigSpec.run env ops)
     = Ok AgentSpec.research_agent
     ∧ WriterAgent.__init__ (ConfigSpec.run env ops)
       = Ok AgentSpec.writer_agent
     ∧ ImageAgent.__init__ (ConfigSpec.run env ops)
       = Ok AgentSpec.image_agent)
  ∧ (∀ (required_fields : list string) (mc : gmap string PyVal),
       (Agent.validate_required_fields required_fields mc = Ok tt
        ↔ is_Some (mc !! "simulation_mode")
          ∧ (truthy (dict_get mc "simulation_mode") = true
             ∨ Forall (λ field, is_Some (mc !! field)) required_fields))
       ∧ (Agent.validate_required_fields required_fields mc = Ok tt
          ∨ Agent.validate_required_fields required_fields mc
            = Raise ModelInitializationError)).
Proof.
  split.
  - intros env ops.
    destruct (default_keys_run env ops) as (Hr & Hw & Hi).
    unfold ResearchAgent.__init__, WriterAgent.__init__, ImageAgent.__init__.
    rewrite (validate_required_fields_same_keys _ _ _ Hr),
      (validate_required_fields_same_keys _ _ _ Hw),
      (validate_required_fields_same_keys _ _ _ Hi); [done|..];
      repeat constructor; by eexists.
  - intros required_fields mc.
    split; [apply validate_required_fields_ok
           |apply validate_required_fields_outcome].
Qed.

Section OfflineProcess.
Context `{Runtime}.
Import Config AgentSpec AgentExtra.


Lemma init_openai_client_present (ai_config : AIConfig) (self : Agent.t)
    (c : OpenAI.Client) :
  Agent.openai_client self = Some c →
  Agent._init_openai_client ai_config self = (self, Ok tt).
Proof. intros Hc. unfold Agent._init_openai_client. by rewrite Hc. Qed.




End OfflineProcess.



Section AgentState.
Context `{Runtime}.
Import Config AgentSpec AgentExtra.

(** The agent after [_init_openai_client]: the same, or the same with a
    client that [AsyncOpenAI] built from the registered OpenAI key. *)
Lemma init_openai_client_state (ai_config : AIConfig) (self : Agent.t) :
  fst (Agent._init_openai_client ai_config self) = self
  ∨ ∃ c, Agent.openai_client self = None
         ∧ has_valid_api_key ai_config OPENAI = true
         ∧ AsyncOpenAI (mjoin (api_keys ai_config !! "openai")) = Ok c
         ∧ fst (Agent._init_openai_client ai_config self)
           = Agent.set_openai_client self c.
Proof.
  unfold Agent._init_openai_client.
  destruct (Agent.openai_client self) as [c0|] eqn:Hc; [by left|].
  destruct (has_valid_api_key ai_config OPENAI) eqn:Hk; [|by left]. simpl.
  destruct (AsyncOpenAI _) as [c|e] eqn:Hnew; [|by left].
  right. by exists c.
Qed.

Lemma research_process_state (ai_config : AIConfig) (self : Agent.t)
    (message : ResearchAgent.Message.t) :
  fst (ResearchAgent.process ai_config self message) = self
  ∨ (real_mode (research_config ai_config)
     ∧ fst (ResearchAgent.process ai_config self message)
       = fst (Agent._init_openai_client ai_config self)).
Proof.
  unfold ResearchAgent.process, real_mode.
  destruct (ResearchAgent.ResearchRequest message) as [request|e]; [|by left].
  destruct (Agent.get_model_info _) as [info|e]; [|by left].
  destruct (truthy _); [by left|]. right. split; [done|]. simpl.
  unfold ResearchAgent.real_attempt.
  destruct (Agent._init_openai_client ai_config self) as [self1 [u|e]]; simpl.
  - case_bool_decide; [|done].
    by destruct (ResearchAgent._call_real_ai _ _ _) as [r|e];
      simpl; rewrite ?handled_all.
  - by rewrite handled_all.
Qed.

Lemma writer_process_state (ai_config : AIConfig) (self : Agent.t)
    (message : WriterAgent.Message.t) :
  fst (WriterAgent.process ai_config self message) = self
  ∨ (real_mode (writing_config ai_config)
     ∧ fst (WriterAgent.process ai_config self message)
       = fst (Agent._init_openai_client ai_config self)).
Proof.
  unfold WriterAgent.process, real_mode.
  destruct (WriterAgent.WriterRequest message) as [request|e]; [|by left].
  destruct (Agent.get_model_info _) as [info|e]; [|by left].
  destruct (truthy _); [by left|]. right. split; [done|]. simpl.
  unfold WriterAgent.real_attempt.
  destruct (Agent._init_openai_client ai_config self) as [self1 [u|e]]; simpl.
  - case_bool_decide; [|done].
    destruct (WriterAgent._call_real_ai _ _ _) as [[a|]|e];
      simpl; rewrite ?handled_all; try done.
    by destruct (WriterAgent.WriterResponse _ _ _ _); simpl;
      rewrite ?handled_all.
  - by rewrite handled_all.
Qed.

Lemma image_process_state (ai_config : AIConfig) (self : Agent.t)
    (message : ImageAgent.Message.t) :
  fst (ImageAgent.process ai_config self message) = self
  ∨ (real_mode (image_config ai_config)
     ∧ fst (ImageAgent.process ai_config self message)
       = fst (Agent._init_openai_client ai_config self)).
Proof.
  unfold ImageAgent.process, real_mode.
  destruct (ImageAgent.ImageRequest message) as [request|e]; [|by left].
  destruct (Agent.get_model_info _) as [info|e]; [|by left].
  destruct (truthy _); [by left|]. right. split; [done|]. simpl.
  unfold ImageAgent.real_attempt.
  destruct (Agent._init_openai_client ai_config self) as [self1 [u|e]]; simpl.
  - case_bool_decide; [|done].
    destruct (ImageAgent._call_real_ai _ _ _) as [d|e];
      simpl; rewrite ?handled_all; try done.
    by destruct (ImageAgent.ImageResponse _ _ _ _); simpl;
      rewrite ?handled_all.
  - by rewrite handled_all.
Qed.

(** What a client-making step guarantees, whichever agent took it. *)
Lemma client_state (ai_config : AIConfig) (self self' : Agent.t) :
  self' = self ∨ self' = fst (Agent._init_openai_client ai_config self) →
  Agent.name self' = Agent.name self
  ∧ Agent.description self' = Agent.description self
  ∧ (∀ c, Agent.openai_client self = Some c → self' = self)
  ∧ (∀ c, Agent.openai_client self = None →
          Agent.openai_client self' = Some c →
          has_valid_api_key ai_config OPENAI = true
          ∧ AsyncOpenAI (mjoin (api_keys ai_config !! "openai")) = Ok c).
Proof.
  intros [-> | ->].
  - split; [done|]. split; [done|]. split; [done|]. congruence.
  - destruct (init_openai_client_state ai_config self)
      as [-> | (c & Hn & Hk & Hnew & ->)].
    + split; [done|]. split; [done|]. split; [done|]. congruence.
    + split; [done|]. split; [done|]. split; [congruence|].
      intros c' _ Hc'. simpl in Hc'. by injection Hc' as <-.
Qed.

End AgentState.

(** X7.  [process] changes nothing of an agent but its client, and that at
    most once: an agent that has a client keeps it, and an agent without
    one gets one only in real mode, from [AsyncOpenAI] applied to a valid
    registered OpenAI key.  So does each of the three agents. *)
Theorem process_keeps_the_client `{Runtime}
    (ai_config : Config.AIConfig) (self : Agent.t) :
  let guarantee (real : Prop) (self' : Agent.t) : Prop :=
    Agent.name self' = Agent.name self
    ∧ Agent.description self' = Agent.description self
    ∧ (∀ c, Agent.openai_client self = Some c → self' = self)
    ∧ (∀ c, Agent.openai_client self = None →
            Agent.openai_client self' = Some c →
            real
            ∧ Config.has_valid_api_key ai_config Config.OPENAI = true
            ∧ AsyncOpenAI (mjoin (Config.api_keys ai_config !! "openai"))
              = Ok c) in
  (∀ message,
     guarantee (AgentSpec.real_mode (Config.research_config ai_config))
       (fst (ResearchAgent.process ai_config self message)))
  ∧ (∀ message,
       guarantee (AgentSpec.real_mode (Config.writing_config ai_config))
         (fst (WriterAgent.process ai_config self message)))
  ∧ (∀ message,
       guarantee (AgentSpec.real_mode (Config.image_config ai_config))
         (fst (ImageAgent.process ai_config self message))).
Proof.
  intros guarantee. unfold guarantee.
  split; [|split]; intros message.
  - destruct (research_process_state ai_config self message) as [Hs|[Hr Hs]].
    + destruct (client_state ai_config self _ (or_introl Hs))
        as (? & ? & ? & Hnew).
      repeat split; try done; rewrite Hs in *; congruence.
    + destruct (client_state ai_config self _ (or_intror Hs))
        as (? & ? & ? & Hnew).
      repeat split; try done; by eapply Hnew.
  - destruct (writer_process_state ai_config self message) as [Hs|[Hr Hs]].
    + destruct (client_state ai_config self _ (or_introl Hs))
        as (? & ? & ? & Hnew).
      repeat split; try done; rewrite Hs in *; congruence.
    + destruct (client_state ai_config self _ (or_intror Hs))
        as (? & ? & ? & Hnew).
      repeat split; try done; by eapply Hnew.
  - destruct (image_process_state ai_config self message) as [Hs|[Hr Hs]].
    + destruct (client_state ai_config self _ (or_introl Hs))
        as (? & ? & ? & Hnew).
      repeat split; try done; rewrite Hs in *; congruence.
    + destruct (client_state ai_config self _ (or_intror Hs))
        as (? & ? & ? & Hnew).
      repeat split; try done; by eapply Hnew.
Qed.

Section ResearchResults.
Context `{Runtime}.
Import Config AgentSpec AgentExtra.

Lemma research_simulation_meets_schema (request : ResearchAgent.Request.t) :
  ResearchAgent.ResearchResponse (ResearchAgent.simulation request)
  = Ok (ResearchAgent.simulation request).
Proof. reflexivity. Qed.

Lemma research_response_ok (b r : Brief.t) :
  ResearchAgent.ResearchResponse b = Ok r →
  r = b ∧ ResearchAgent.ResearchResponse r = Ok r.
Proof.
  unfold ResearchAgent.ResearchResponse.
  destruct (_ && _) eqn:Hb; [|done]. intros [= <-]. by rewrite Hb.
Qed.

(** The two outcomes of [_call_real_ai]. *)
Lemma research_call_outcome (ai_config : AIConfig) (self : Agent.t)
    (topic : pystr) :
  (∃ client content rest result,
     Agent.openai_client self = Some client
     ∧ chat_completions_create client
         (AgentRequests.research_chat ai_config topic) = Ok (content :: rest)
     ∧ json_loads_fields content = Ok result
     ∧ ResearchAgent.ResearchResponse result = Ok result
     ∧ ResearchAgent._call_real_ai ai_config self topic = Ok result)
  ∨ (∃ e, ResearchAgent._call_real_ai ai_config self topic = Raise e).
Proof.
  unfold ResearchAgent._call_real_ai.
  destruct (Agent.openai_client self) as [client|] eqn:Hc; [|by right; eexists].
  change (chat_completions_create client _)
    with (chat_completions_create client
            (AgentRequests.research_chat ai_config topic)).
  destruct (chat_completions_create client _) as [[|content rest]|e] eqn:Hchat;
    simpl.
  - by right; eexists.
  - destruct (json_loads_fields content) as [b|e] eqn:Hjson; simpl.
    + destruct (ResearchAgent.ResearchResponse b) as [r|e] eqn:Hr.
      * destruct (research_response_ok _ _ Hr) as [-> Hr'].
        left. by exists client, content, rest, b.
      * right. repeat case_match; by eexists.
    + right. repeat case_match; by eexists.
  - right. repeat case_match; by eexists.
Qed.

End ResearchResults.

(** X8.  Whatever [ResearchAgent.process] returns meets the declared
    schema, on either path: it comes from a request that validates, it has
    at least three key points and one keyword and a confidence between 0
    and 1, and it is the templated brief of the request's topic or, in real
    mode, the decoding of the first choice the chat API gave the agent's
    client for the research prompt of that topic. *)
Theorem research_result_meets_schema `{Runtime}
    (ai_config : Config.AIConfig) (self self' : Agent.t)
    (message : ResearchAgent.Message.t) (result : Brief.t) :
  ResearchAgent.process ai_config self message = (self', Ok result) →
  ∃ request,
    ResearchAgent.ResearchRequest message = Ok request
    ∧ ResearchAgent.ResearchResponse result = Ok result
    ∧ (result
       = Templates.get_enhanced_research_content
           (ResearchAgent.Request.topic request)
       ∨ (AgentSpec.real_mode (Config.research_config ai_config)
          ∧ ∃ client content rest,
              Agent.openai_client self' = Some client
              ∧ chat_completions_create client
                  (AgentRequests.research_chat ai_config
                     (ResearchAgent.Request.topic request))
                = Ok (content :: rest)
              ∧ json_loads_fields content = Ok result)).
Proof.
  unfold ResearchAgent.process.
  destruct (ResearchAgent.ResearchRequest message) as [request|e] eqn:Hreq;
    [|by case_match].
  destruct (Agent.get_model_info _) as [info|e]; [|done].
  destruct (truthy _) eqn:Hsim; simpl.
  { intros [= <- <-]. exists request. split; [done|]. split; [done|by left]. }
  unfold ResearchAgent.real_attempt.
  destruct (Agent._init_openai_client ai_config self) as [self1 [u|e]].
  - case_bool_decide.
    + destruct (research_call_outcome ai_config self1
                  (ResearchAgent.Request.topic request))
        as [(client & content & rest & r & Hc & Hchat & Hjson & Hr & ->)
           |[e ->]]; simpl.
      * intros [= <- <-]. exists request. split; [done|]. split; [done|].
        right. split; [by unfold AgentSpec.real_mode; rewrite Hsim|].
        by exists client, content, rest.
      * destruct (Agent.handled e); [|done].
        intros [= <- <-]. exists request. split; [done|]. split; [done|by left].
    + intros [= <- <-]. exists request. split; [done|]. split; [done|by left].
  - destruct (Agent.handled e); [|done].
    intros [= <- <-]. exists request. split; [done|]. split; [done|by left].
Qed.

Lemma research_result_meets_schema_witness :
  ResearchAgent.process (H := AgentExtra.answering) AgentSpec.real_config
    AgentSpec.research_agent (AgentSpec.research_message (lit "Solar power") 2)
  = (Agent.set_openai_client AgentSpec.research_agent AgentExtra.client,
     Ok AgentExtra.answer)
  ∧ ResearchAgent.ResearchResponse AgentExtra.answer = Ok AgentExtra.answer.
Proof.
  assert (Hp : ResearchAgent.process (H := AgentExtra.answering)
                 AgentSpec.real_config AgentSpec.research_agent
                 (AgentSpec.research_message (lit "Solar power") 2)
               = (Agent.set_openai_client AgentSpec.research_agent
                    AgentExtra.client, Ok AgentExtra.answer))
    by (by vm_compute).
  split; [exact Hp|].
  destruct (research_result_meets_schema (H := AgentExtra.answering) _ _ _ _ _
              Hp) as (request & _ & Hschema & _).
  exact Hschema.
Defined.

Section Provenance.
Context `{Runtime}.
Import Config AgentSpec AgentExtra.

(** The two outcomes of the writer's [_call_real_ai]. *)
Lemma writer_call_outcome (ai_config : AIConfig) (self : Agent.t)
    (request : WriterAgent.Request.t) :
  (∃ client content rest,
     Agent.openai_client self = Some client
     ∧ chat_completions_create client
         (AgentRequests.writer_chat ai_config request) = Ok (content :: rest)
     ∧ WriterAgent._call_real_ai ai_config self request = Ok content)
  ∨ (∃ e, WriterAgent._call_real_ai ai_config self request = Raise e).
Proof.
  unfold WriterAgent._call_real_ai.
  destruct (Agent.openai_client self) as [client|] eqn:Hc; [|by right; eexists].
  change (chat_completions_create client _)
    with (chat_completions_create client
            (AgentRequests.writer_chat ai_config request)).
  destruct (chat_completions_create client _) as [[|content rest]|e] eqn:Hchat;
    simpl.
  - by right; eexists.
  - left. by exists client, content, rest.
  - right. case_match; by eexists.
Qed.

(** The two outcomes of the image agent's [_call_real_ai]. *)
Lemma image_call_outcome (ai_config : AIConfig) (self : Agent.t)
    (request : ImageAgent.Request.t) :
  (∃ client image rest,
     Agent.openai_client self = Some client
     ∧ images_generate client
         (AgentRequests.image_generation ai_config request)
       = Ok (image :: rest)
     ∧ ImageAgent._call_real_ai ai_config self request
       = Ok (OpenAI.b64_json image))
  ∨ (∃ e, ImageAgent._call_real_ai ai_config self request = Raise e).
Proof.
  unfold ImageAgent._call_real_ai.
  destruct (Agent.openai_client self) as [client|] eqn:Hc; [|by right; eexists].
  change (images_generate client _)
    with (images_generate client
            (AgentRequests.image_generation ai_config request)).
  destruct (images_generate client _) as [[|image rest]|e] eqn:Himg; simpl.
  - by right; eexists.
  - left. by exists client, image, rest.
  - right. case_match; by eexists.
Qed.

Lemma writer_simulation_echo (request : WriterAgent.Request.t)
    (r : WriterAgent.Response.t) :
  WriterAgent.simulation request = Ok r →
  WriterAgent.Response.article_text r
  = Templates.get_enhanced_writing_content
      (WriterAgent.Request.title request)
      (WriterAgent.Request.executive_summary request)
      (WriterAgent.Request.key_points request)
  ∧ WriterAgent.Response.keywords r = WriterAgent.Request.keywords request
  ∧ WriterAgent.Response.writing_style r = WriterAgent.Request.tone request.
Proof.
  unfold WriterAgent.simulation, WriterAgent.WriterResponse.
  case_match; [|done]. by intros [= <-].
Qed.

Lemma image_request_size (message : ImageAgent.Message.t)
    (request : ImageAgent.Request.t) :
  ImageAgent.ImageRequest message = Ok request →
  str_in (ImageAgent.Request.size request) AgentRequests.valid_sizes = true
  ∧ str_in (ImageAgent.Request.quality request) AgentRequests.valid_qualities
    = true.
Proof.
  unfold ImageAgent.ImageRequest.
  destruct (ImageAgent.Message.prompt message) as [prompt|]; [|done].
  destruct (ImageAgent.prompt_not_empty prompt) as [p|e]; [|done].
  unfold ImageAgent.with_default, ImageAgent.validate_size,
    ImageAgent.validate_quality, AgentRequests.valid_sizes,
    AgentRequests.valid_qualities.
  destruct (ImageAgent.Message.size message) as [size|];
    destruct (ImageAgent.Message.quality message) as [quality|]; simpl;
    repeat (case_match; simpl; try done); intros [= <-]; simpl.
  all: repeat match goal with
           | Hn : negb _ = false |- _ => apply negb_false_iff in Hn
           end.
  all: repeat match goal with
           | Ho : Ok _ = Ok _ |- _ => injection Ho as <-
           end.
  all: by split.
Qed.

End Provenance.

(** X9.  What the writer agent returns echoes the validated request: the
    keywords and the tone are the request's, and the article is the
    templated one of the request's title, summary and key points or, in
    real mode, the content of the first choice the chat API gave the
    agent's client for the writing prompt of the request. *)
Theorem writer_result_provenance `{Runtime}
    (ai_config : Config.AIConfig) (self self' : Agent.t)
    (message : WriterAgent.Message.t) (result : WriterAgent.Response.t) :
  WriterAgent.process ai_config self message = (self', Ok result) →
  ∃ request,
    WriterAgent.WriterRequest message = Ok request
    ∧ WriterAgent.Response.keywords result
      = WriterAgent.Request.keywords request
    ∧ WriterAgent.Response.writing_style result
      = WriterAgent.Request.tone request
    ∧ (WriterAgent.Response.article_text result
       = Templates.get_enhanced_writing_content
           (WriterAgent.Request.title request)
           (WriterAgent.Request.executive_summary request)
           (WriterAgent.Request.key_points request)
       ∨ (AgentSpec.real_mode (Config.writing_config ai_config)
          ∧ ∃ client rest,
              Agent.openai_client self' = Some client
              ∧ chat_completions_create client
                  (AgentRequests.writer_chat ai_config request)
                = Ok (Some (WriterAgent.Response.article_text result) :: rest))).
Proof.
  unfold WriterAgent.process.
  destruct (WriterAgent.WriterRequest message) as [request|e] eqn:Hreq;
    [|by case_match].
  assert (Hsim : ∀ s, (s, WriterAgent.simulation request) = (self', Ok result) →
    ∃ request0, Ok request = Ok request0
      ∧ WriterAgent.Response.keywords result
        = WriterAgent.Request.keywords request0
      ∧ WriterAgent.Response.writing_style result
        = WriterAgent.Request.tone request0
      ∧ (WriterAgent.Response.article_text result
         = Templates.get_enhanced_writing_content
             (WriterAgent.Request.title request0)
             (WriterAgent.Request.executive_summary request0)
             (WriterAgent.Request.key_points request0)
         ∨ (AgentSpec.real_mode (Config.writing_config ai_config)
            ∧ ∃ client rest,
                Agent.openai_client self' = Some client
                ∧ chat_completions_create client
                    (AgentRequests.writer_chat ai_config request0)
                  = Ok (Some (WriterAgent.Response.article_text result)
                        :: rest)))).
  { intros s [= _ Hs]. exists request.
    destruct (writer_simulation_echo request result Hs) as (Ha & Hk & Hw).
    split; [done|]. split; [done|]. split; [done|]. by left. }
  destruct (Agent.get_model_info _) as [info|e]; [|done].
  destruct (truthy _) eqn:Hmode; simpl; [by apply Hsim|].
  unfold WriterAgent.real_attempt.
  destruct (Agent._init_openai_client ai_config self) as [self1 [u|e]].
  - case_bool_decide; [|by apply Hsim].
    destruct (writer_call_outcome ai_config self1 request)
      as [(client & content & rest & Hc & Hchat & ->)|[e ->]]; simpl.
    + destruct content as [article|]; simpl.
      * unfold WriterAgent.WriterResponse.
        destruct (100 <=? _); simpl; [|by apply Hsim].
        intros [= <- <-]. exists request; simpl.
        split; [done|]. split; [done|]. split; [done|]. right.
        split; [by unfold AgentSpec.real_mode; rewrite Hmode|].
        by exists client, rest.
      * by apply Hsim.
    + destruct (Agent.handled e); [by apply Hsim|done].
  - destruct (Agent.handled e); [by apply Hsim|done].
Qed.

Lemma writer_result_provenance_witness :
  ∃ request,
    WriterAgent.WriterRequest (AgentSpec.writer_message (lit " Solar power "))
    = Ok request
    ∧ WriterAgent.Request.title request = lit "Solar power"
    ∧ WriterAgent.Response.writing_style
        (default
           {| WriterAgent.Response.article_text := [];
              WriterAgent.Response.keywords := [];
              WriterAgent.Response.word_count := 0;
              WriterAgent.Response.writing_style := [] |}
           (match snd (WriterAgent.process (H := AgentExtra.answering)
                         AgentSpec.real_config AgentSpec.writer_agent
                         (AgentSpec.writer_message (lit " Solar power "))) with
            | Ok r => Some r
            | Raise _ => None
            end))
      = WriterAgent.Request.tone request.
Proof.
  destruct (WriterAgent.process (H := AgentExtra.answering)
              AgentSpec.real_config AgentSpec.writer_agent
              (AgentSpec.writer_message (lit " Solar power ")))
    as [self' [r|e]] eqn:Hp; [|by vm_compute in Hp].
  destruct (writer_result_provenance (H := AgentExtra.answering) _ _ _ _ _ Hp)
    as (request & Hreq & _ & Hstyle & _).
  exists request. split; [exact Hreq|]. split; [|exact Hstyle].
  vm_compute in Hreq. by injection Hreq as <-.
Defined.

(** X10.  What the image agent returns echoes the validated request: the
    prompt used is the request's stripped prompt, the style is the
    request's, the dimensions are one of the three accepted sizes, and the
    image data is the placeholder text or, in real mode, the [b64_json] of
    the first image the API gave the agent's client for the enhanced
    prompt. *)
Theorem image_result_provenance `{Runtime}
    (ai_config : Config.AIConfig) (self self' : Agent.t)
    (message : ImageAgent.Message.t) (result : ImageAgent.Response.t) :
  ImageAgent.process ai_config self message = (self', Ok result) →
  ∃ request,
    ImageAgent.ImageRequest message = Ok request
    ∧ ImageAgent.Response.prompt_used result
      = ImageAgent.Request.prompt request
    ∧ ImageAgent.Response.style_used result = ImageAgent.Request.style request
    ∧ ImageAgent.Response.dimensions result = ImageAgent.Request.size request
    ∧ str_in (ImageAgent.Response.dimensions result)
        AgentRequests.valid_sizes = true
    ∧ (ImageAgent.Response.image_data result = ImageAgent.SIMULATED_IMAGE_DATA
       ∨ (AgentSpec.real_mode (Config.image_config ai_config)
          ∧ ∃ client image rest,
              Agent.openai_client self' = Some client
              ∧ images_generate client
                  (AgentRequests.image_generation ai_config request)
                = Ok (image :: rest)
              ∧ OpenAI.b64_json image
                = Some (ImageAgent.Response.image_data result))).
Proof.
  unfold ImageAgent.process.
  destruct (ImageAgent.ImageRequest message) as [request|e] eqn:Hreq;
    [|by case_match].
  destruct (image_request_size _ _ Hreq) as [Hsize _].
  assert (Hsim : ∀ s, (s, ImageAgent.simulation request) = (self', Ok result) →
    ∃ request0, Ok request = Ok request0
      ∧ ImageAgent.Response.prompt_used result
        = ImageAgent.Request.prompt request0
      ∧ ImageAgent.Response.style_used result
        = ImageAgent.Request.style request0
      ∧ ImageAgent.Response.dimensions result
        = ImageAgent.Request.size request0
      ∧ str_in (ImageAgent.Response.dimensions result)
          AgentRequests.valid_sizes = true
      ∧ (ImageAgent.Response.image_data result
         = ImageAgent.SIMULATED_IMAGE_DATA
         ∨ (AgentSpec.real_mode (Config.image_config ai_config)
            ∧ ∃ client image rest,
                Agent.openai_client self' = Some client
                ∧ images_generate client
                    (AgentRequests.image_generation ai_config request0)
                  = Ok (image :: rest)
                ∧ OpenAI.b64_json image
                  = Some (ImageAgent.Response.image_data result)))).
  { intros s [= _ <-]. exists request. simpl.
    split; [done|]. split; [done|]. split; [done|]. split; [done|].
    split; [done|]. by left. }
  destruct (Agent.get_model_info _) as [info|e]; [|done].
  destruct (truthy _) eqn:Hmode; simpl; [by apply Hsim|].
  unfold ImageAgent.real_attempt.
  destruct (Agent._init_openai_client ai_config self) as [self1 [u|e]].
  - case_bool_decide; [|by apply Hsim].
    destruct (image_call_outcome ai_config self1 request)
      as [(client & image & rest & Hc & Himg & ->)|[e ->]]; simpl.
    + destruct (OpenAI.b64_json image) as [data|] eqn:Hdata; simpl.
      * intros [= <- <-]. exists request; simpl.
        split; [done|]. split; [done|]. split; [done|]. split; [done|].
        split; [done|]. right.
        split; [by unfold AgentSpec.real_mode; rewrite Hmode|].
        by exists client, image, rest.
      * by apply Hsim.
    + destruct (Agent.handled e); [by apply Hsim|done].
  - destruct (Agent.handled e); [by apply Hsim|done].
Qed.

Lemma image_result_provenance_witness :
  ImageAgent.process (H := AgentExtra.answering) AgentSpec.real_config
    AgentSpec.image_agent (AgentSpec.image_message (lit " a red car"))
  = (Agent.set_openai_client AgentSpec.image_agent AgentExtra.client,
     Ok {| ImageAgent.Response.image_data := lit "aGVsbG8=";
           ImageAgent.Response.prompt_used := lit "a red car";
           ImageAgent.Response.style_used := lit "professional";
           ImageAgent.Response.dimensions := lit "1024x1024" |})
  ∧ ∃ request,
      ImageAgent.ImageRequest (AgentSpec.image_message (lit " a red car"))
      = Ok request
      ∧ ImageAgent.Request.size request = lit "1024x1024".
Proof.
  assert (Hp : ImageAgent.process (H := AgentExtra.answering)
                 AgentSpec.real_config AgentSpec.image_agent
                 (AgentSpec.image_message (lit " a red car"))
               = (Agent.set_openai_client AgentSpec.image_agent
                    AgentExtra.client,
                  Ok {| ImageAgent.Response.image_data := lit "aGVsbG8=";
                        ImageAgent.Response.prompt_used := lit "a red car";
                        ImageAgent.Response.style_used := lit "professional";
                        ImageAgent.Response.dimensions := lit "1024x1024" |}))
    by (by vm_compute).
  split; [exact Hp|].
  destruct (image_result_provenance (H := AgentExtra.answering) _ _ _ _ _ Hp)
    as (request & Hreq & _ & _ & Hdim & _).
  exists request. split; [exact Hreq|]. by rewrite <- Hdim.
Defined.

Section ApiAnswers.
Context `{Runtime}.
Import Config AgentSpec AgentExtra.

Lemma init_openai_client_kept (ai_config : AIConfig) (self : Agent.t)
    (client : OpenAI.Client) :
  Agent.openai_client self = Some client →
  Agent._init_openai_client ai_config self = (self, Ok tt).
Proof. unfold Agent._init_openai_client. by intros ->. Qed.

End ApiAnswers.



Section Stripping.

Lemma lstrip_nil_blank (s : pystr) :
  lstrip s = [] ↔ Text.blank s = true.
Proof.
  unfold Text.blank.
  induction s as [|c s IH]; simpl; [done|].
  destruct (isspace c); simpl; [done|]. split; done.
Qed.

(** The text [lstrip] returns is empty or starts with a character that is
    not white space. *)
Lemma lstrip_head (s : pystr) :
  match lstrip s with [] => True | c :: _ => isspace c = false end.
Proof.
  induction s as [|c s IH]; simpl; [done|].
  by destruct (isspace c) eqn:Hc; simpl.
Qed.

Lemma lstrip_fixed (s : pystr) :
  match s with [] => True | c :: _ => isspace c = false end → lstrip s = s.
Proof. destruct s as [|c s]; simpl; [done|]. by intros ->. Qed.

Lemma lstrip_snoc (s : pystr) (c : N) :
  isspace c = false → lstrip (s ++ [c]) = lstrip s ++ [c].
Proof.
  intros Hc. induction s as [|d s IH]; simpl; [by rewrite Hc|].
  by destruct (isspace d).
Qed.

Lemma rstrip_cons (c : N) (s : pystr) :
  isspace c = false → rstrip (c :: s) = c :: rstrip s.
Proof.
  intros Hc. unfold rstrip. simpl.
  by rewrite (lstrip_snoc _ _ Hc), rev_app_distr.
Qed.

Lemma rstrip_rstrip (s : pystr) : rstrip (rstrip s) = rstrip s.
Proof.
  unfold rstrip. rewrite rev_involutive.
  by rewrite (lstrip_fixed _ (lstrip_head (rev s))).
Qed.

Lemma strip_strip (s : pystr) : strip (strip s) = strip s.
Proof.
  unfold strip.
  pose proof (lstrip_head s) as Hh.
  destruct (lstrip s) as [|c t] eqn:Hl; [done|].
  rewrite (rstrip_cons _ _ Hh). simpl. rewrite Hh.
  by rewrite <- (rstrip_cons _ _ Hh), rstrip_rstrip.
Qed.

Lemma strip_nil_blank (s : pystr) :
  strip s = [] ↔ Text.blank s = true.
Proof.
  rewrite <- lstrip_nil_blank. unfold strip.
  pose proof (lstrip_head s) as Hh.
  destruct (lstrip s) as [|c t] eqn:Hl; [done|].
  by rewrite (rstrip_cons _ _ Hh).
Qed.

Lemma truthy_strip (s : pystr) :
  truthy (VStr (strip s)) = negb (Text.blank s).
Proof.
  pose proof (strip_nil_blank s) as Hb.
  destruct (strip s) as [|c t]; simpl.
  - by rewrite (proj1 Hb eq_refl).
  - destruct (Text.blank s); [|done]. discriminate (proj2 Hb eq_refl).
Qed.

Lemma not_empty_outcome (v : pystr) :
  WriterAgent.not_empty v
  = if Text.blank v then Raise ValueError else Ok (strip v).
Proof.
  unfold WriterAgent.not_empty. rewrite truthy_strip.
  by destruct (Text.blank v).
Qed.

Lemma prompt_not_empty_outcome (v : pystr) :
  ImageAgent.prompt_not_empty v
  = if Text.blank v then Raise ValueError else Ok (strip v).
Proof.
  unfold ImageAgent.prompt_not_empty. rewrite truthy_strip.
  by destruct (Text.blank v).
Qed.

Lemma blank_strip (v : pystr) :
  Text.blank (strip v) = Text.blank v.
Proof.
  pose proof (truthy_strip (strip v)) as H1.
  rewrite strip_strip, truthy_strip in H1.
  by destruct (Text.blank v), (Text.blank (strip v)).
Qed.

End Stripping.

(** X12.  [WriterRequest] and [ImageRequest] accept exactly the messages
    that give every required field, with a title, a summary or a prompt
    that is not all white space, at least one key point, and a size and a
    quality, when given, among the accepted ones; the request holds the
    texts stripped and the defaults for what was left out; whatever is
    refused is refused with a [ValidationError]. *)
Theorem requests_accepted_exactly
    (writer_message : WriterAgent.Message.t)
    (image_message : ImageAgent.Message.t) :
  WriterAgent.WriterRequest writer_message
  = match WriterAgent.Message.title writer_message,
          WriterAgent.Message.executive_summary writer_message,
          WriterAgent.Message.key_points writer_message with
    | Some title, Some summary, Some (point :: points) =>
        if Text.blank title || Text.blank summary
        then Raise ValidationError
        else
          Ok {| WriterAgent.Request.title := strip title;
                WriterAgent.Request.executive_summary := strip summary;
                WriterAgent.Request.key_points := point :: points;
                WriterAgent.Request.keywords :=
                  default [] (WriterAgent.Message.keywords writer_message);
                WriterAgent.Request.tone :=
                  default (lit "professional")
                    (WriterAgent.Message.tone writer_message) |}
    | _, _, _ => Raise ValidationError
    end
  ∧ ImageAgent.ImageRequest image_message
    = match ImageAgent.Message.prompt image_message with
      | Some prompt =>
          let size :=
            default (lit "1024x1024") (ImageAgent.Message.size image_message) in
          let quality :=
            default (lit "standard")
              (ImageAgent.Message.quality image_message) in
          if negb (Text.blank prompt)
             && str_in size AgentRequests.valid_sizes
             && str_in quality AgentRequests.valid_qualities
          then
            Ok {| ImageAgent.Request.prompt := strip prompt;
                  ImageAgent.Request.style :=
                    default (lit "professional")
                      (ImageAgent.Message.style image_message);
                  ImageAgent.Request.size := size;
                  ImageAgent.Request.quality := quality |}
          else Raise ValidationError
      | None => Raise ValidationError
      end.
Proof.
  split.
  - unfold WriterAgent.WriterRequest.
    destruct (WriterAgent.Message.title writer_message) as [title|]; [|done].
    destruct (WriterAgent.Message.executive_summary writer_message)
      as [summary|]; [|done].
    destruct (WriterAgent.Message.key_points writer_message)
      as [[|point points]|]; [| |done].
    + rewrite !not_empty_outcome.
      by destruct (Text.blank title), (Text.blank summary).
    + rewrite !not_empty_outcome.
      assert (Hlen : (1 <=? len (point :: points)) = true).
      { apply Z.leb_le. unfold len. simpl. lia. }
      rewrite Hlen.
      by destruct (Text.blank title), (Text.blank summary).
  - unfold ImageAgent.ImageRequest.
    destruct (ImageAgent.Message.prompt image_message) as [prompt|]; [|done].
    rewrite prompt_not_empty_outcome.
    unfold ImageAgent.with_default, ImageAgent.validate_size,
      ImageAgent.validate_quality, AgentRequests.valid_sizes,
      AgentRequests.valid_qualities.
    destruct (ImageAgent.Message.size image_message) as [size|],
      (ImageAgent.Message.quality image_message) as [quality|];
      cbn -[str_in]; destruct (Text.blank prompt); cbn -[str_in];
      try done;
      repeat match goal with
             | |- context [str_in ?v ?l] => is_var v; destruct (str_in v l)
             end; done.
Qed.

(** X13.  Validation is idempotent: a request that [WriterRequest] or
    [ImageRequest] built, given back field by field, is accepted and built
    again unchanged, since stripping a stripped text changes nothing and
    leaves no blank text. *)
Theorem validated_requests_validate_again
    (writer_message : WriterAgent.Message.t)
    (image_message : ImageAgent.Message.t) :
  (∀ request,
     WriterAgent.WriterRequest writer_message = Ok request →
     WriterAgent.WriterRequest (AgentExtra.writer_dump request) = Ok request)
  ∧ (∀ request,
       ImageAgent.ImageRequest image_message = Ok request →
       ImageAgent.ImageRequest (AgentExtra.image_dump request) = Ok request).
Proof.
  split; intros request Hreq.
  - unfold WriterAgent.WriterRequest in *.
    destruct (WriterAgent.Message.title writer_message) as [title|]; [|done].
    destruct (WriterAgent.Message.executive_summary writer_message)
      as [summary|]; [|done].
    destruct (WriterAgent.Message.key_points writer_message)
      as [points|]; [|done].
    rewrite !not_empty_outcome in Hreq.
    destruct (Text.blank title) eqn:Ht; [done|].
    destruct (Text.blank summary) eqn:Hs; [done|].
    destruct (1 <=? len points) eqn:Hp; [|done].
    injection Hreq as <-. simpl.
    rewrite !not_empty_outcome, !blank_strip, Ht, Hs, !strip_strip.
    by rewrite Hp.
  - destruct (image_request_size _ _ Hreq) as [Hsize Hquality].
    unfold ImageAgent.ImageRequest in *.
    destruct (ImageAgent.Message.prompt image_message) as [prompt|]; [|done].
    rewrite prompt_not_empty_outcome in Hreq.
    destruct (Text.blank prompt) eqn:Hb; [done|].
    assert (Hprompt : ImageAgent.Request.prompt request = strip prompt).
    { destruct (ImageAgent.with_default _ _ _); [|done].
      destruct (ImageAgent.with_default _ _ _); [|done].
      by injection Hreq as <-. }
    clear Hreq. destruct request as [p style size quality].
    cbn -[str_in] in *. subst p.
    rewrite prompt_not_empty_outcome, blank_strip, Hb, strip_strip.
    unfold ImageAgent.validate_size, ImageAgent.validate_quality.
    unfold AgentRequests.valid_sizes in Hsize.
    unfold AgentRequests.valid_qualities in Hquality.
    by rewrite Hsize, Hquality.
Qed.

Lemma validated_requests_validate_again_witness :
  WriterAgent.WriterRequest (AgentSpec.writer_message (lit "  Solar power "))
  = Ok {| WriterAgent.Request.title := lit "Solar power";
          WriterAgent.Request.executive_summary := lit "A summary.";
          WriterAgent.Request.key_points := [lit "One point"];
          WriterAgent.Request.keywords := [];
          WriterAgent.Request.tone := lit "professional" |}
  ∧ WriterAgent.WriterRequest
      (AgentExtra.writer_dump
         {| WriterAgent.Request.title := lit "Solar power";
            WriterAgent.Request.executive_summary := lit "A summary.";
            WriterAgent.Request.key_points := [lit "One point"];
            WriterAgent.Request.keywords := [];
            WriterAgent.Request.tone := lit "professional" |})
    = Ok {| WriterAgent.Request.title := lit "Solar power";
            WriterAgent.Request.executive_summary := lit "A summary.";
            WriterAgent.Request.key_points := [lit "One point"];
            WriterAgent.Request.keywords := [];
            WriterAgent.Request.tone := lit "professional" |}.
Proof.
  assert (Hreq : WriterAgent.WriterRequest
                   (AgentSpec.writer_message (lit "  Solar power "))
                 = Ok {| WriterAgent.Request.title := lit "Solar power";
                         WriterAgent.Request.executive_summary :=
                           lit "A summary.";
                         WriterAgent.Request.key_points := [lit "One point"];
                         WriterAgent.Request.keywords := [];
                         WriterAgent.Request.tone := lit "professional" |})
    by (by vm_compute).
  split; [exact Hreq|].
  destruct (validated_requests_validate_again
              (AgentSpec.writer_message (lit "  Solar power "))
              (AgentSpec.image_message (lit "a red car"))) as [Hw _].
  exact (Hw _ Hreq).
Defined.

Section Encoding.

Lemma encode_app (a b : pystr) :
  UTF8.encode (a ++ b)
  = (x ← UTF8.encode a; y ← UTF8.encode b; Ok (x ++ y)).
Proof.
  induction a as [|c a IH]; simpl.
  - by destruct (UTF8.encode b).
  - destruct (UTF8.encode_char c) as [x|e]; simpl; [|done].
    rewrite IH. destruct (UTF8.encode a) as [y|e]; simpl; [|done].
    destruct (UTF8.encode b) as [z|e]; simpl; [|done].
    by rewrite (assoc_L (++)).
Qed.

Lemma encode_char_raises (c : N) (e : exn) :
  UTF8.encode_char c = Raise e → e = UnicodeEncodeError.
Proof.
  unfold UTF8.encode_char. repeat case_match; congruence.
Qed.

Lemma encode_raises (s : pystr) (e : exn) :
  UTF8.encode s = Raise e → e = UnicodeEncodeError.
Proof.
  induction s as [|c s IH]; simpl; [done|].
  destruct (UTF8.encode_char c) as [x|e'] eqn:Hc; simpl.
  - destruct (UTF8.encode s) as [y|e'']; simpl; [done|].
    intros [= <-]. by apply IH.
  - intros [= <-]. by eapply encode_char_raises.
Qed.

Lemma startswith_refl_app (p x : pystr) : startswith (p ++ x) p = true.
Proof. induction p as [|c p IH]; simpl; [done|]. by rewrite N.eqb_refl. Qed.

Lemma contains_prefix (p x : pystr) : contains (p ++ x) p = true.
Proof.
  destruct (p ++ x) as [|c s] eqn:Hs; simpl.
  - destruct p; [done|discriminate].
  - by rewrite <- Hs, startswith_refl_app.
Qed.

(** A text occurs in whatever is written around it. *)
Lemma contains_mid (a s b : pystr) : contains (a ++ s ++ b) s = true.
Proof. apply contains_app_r, contains_prefix. Qed.

End Encoding.

Section Occurrences.

Lemma startswith_split (s p : pystr) :
  startswith s p = true → ∃ post, s = p ++ post.
Proof.
  revert s. induction p as [|c p IH]; intros s; [by exists s|].
  destruct s as [|d s]; simpl; [done|].
  intros [Hc Hs]%andb_true_iff. apply N.eqb_eq in Hc as ->.
  destruct (IH _ Hs) as [post ->]. by exists post.
Qed.

Lemma endswith_split (s p : pystr) :
  Text.endswith s p = true → ∃ pre, s = pre ++ p.
Proof.
  unfold Text.endswith. intros [post Hs]%startswith_split.
  exists (rev post).
  by rewrite <- (rev_involutive s), Hs, rev_app_distr, rev_involutive.
Qed.

(** A field of a template, with the text that ends the piece before it and
    the text that starts the piece after it. *)
Lemma contains_at (a m b post sa sb : pystr) :
  Text.endswith a sa = true → startswith b sb = true →
  contains (a ++ m ++ b ++ post) (sa ++ m ++ sb) = true.
Proof.
  intros [pre ->]%endswith_split [rest ->]%startswith_split.
  rewrite <- !(assoc_L (++)). apply contains_app_r.
  rewrite !(assoc_L (++)). rewrite <- (assoc_L (++) _ rest post).
  rewrite <- !(assoc_L (++) sa), <- (assoc_L (++) m).
  rewrite (assoc_L (++) sa), (assoc_L (++) (sa ++ m)).
  rewrite <- (assoc_L (++) sa m sb).
  apply contains_prefix.
Qed.

Lemma contains_at_end (a m b sa sb : pystr) :
  Text.endswith a sa = true → startswith b sb = true →
  contains (a ++ m ++ b) (sa ++ m ++ sb) = true.
Proof.
  intros Ha Hb. pose proof (contains_at a m b [] sa sb Ha Hb) as Hc.
  by rewrite (app_nil_r b) in Hc.
Qed.

(** The same, for a document and a text given up to computation. *)
Lemma contains_field (doc x a m b post sa sb : pystr) :
  doc = a ++ m ++ b ++ post → x = sa ++ m ++ sb →
  Text.endswith a sa = true → startswith b sb = true →
  contains doc x = true.
Proof. intros -> ->. apply contains_at. Qed.

Lemma contains_last_field (doc x a m b sa sb : pystr) :
  doc = a ++ m ++ b → x = sa ++ m ++ sb →
  Text.endswith a sa = true → startswith b sb = true →
  contains doc x = true.
Proof. intros -> ->. apply contains_at_end. Qed.

Lemma contains_lead (doc x post : pystr) :
  doc = x ++ post → contains doc x = true.
Proof. intros ->. apply contains_prefix. Qed.

End Occurrences.

Section EnhancedPrompt.

Lemma style_prompt_cases (style : pystr) :
  ImageAgent.style_prompt style
  = if str_eqb style (lit "modern") then AgentRequests.MODERN
    else if str_eqb style (lit "artistic") then AgentRequests.ARTISTIC
    else if str_eqb style (lit "minimalist") then AgentRequests.MINIMALIST
    else AgentRequests.PROFESSIONAL.
Proof.
  unfold ImageAgent.style_prompt, ImageAgent.style_prompts, str_eqb.
  destruct (decide (style = lit "professional")) as [->|Hp];
    [by vm_compute|].
  rewrite (lookup_insert_ne _ (lit "professional") style) by done.
  case_bool_decide as Hm; [subst style; by vm_compute|].
  rewrite (lookup_insert_ne _ (lit "modern") style) by done.
  case_bool_decide as Ha; [subst style; by vm_compute|].
  rewrite (lookup_insert_ne _ (lit "artistic") style) by done.
  case_bool_decide as Hi; [subst style; by vm_compute|].
  rewrite (lookup_insert_ne _ (lit "minimalist") style) by done.
  by rewrite lookup_empty.
Qed.

Lemma style_prompt_choice (style : pystr) :
  In (ImageAgent.style_prompt style)
    [AgentRequests.PROFESSIONAL; AgentRequests.MODERN;
     AgentRequests.ARTISTIC; AgentRequests.MINIMALIST]
  ∧ (¬ In style [lit "modern"; lit "artistic"; lit "minimalist"] →
     ImageAgent.style_prompt style = AgentRequests.PROFESSIONAL).
Proof.
  rewrite style_prompt_cases. unfold str_eqb.
  case_bool_decide as Hm.
  { split; [by right; left|]. intros Hn. destruct Hn. by left. }
  case_bool_decide as Ha.
  { split; [by right; right; left|]. intros Hn. destruct Hn.
    by right; left. }
  case_bool_decide as Hi.
  { split; [by right; right; right; left|]. intros Hn. destruct Hn.
    by right; right; left. }
  split; [by left|done].
Qed.

Lemma endswith_app_r (a b p : pystr) :
  Text.endswith b p = true → Text.endswith (a ++ b) p = true.
Proof.
  unfold Text.endswith. rewrite rev_app_distr. apply startswith_app.
Qed.

Lemma endswith_field (a m sa : pystr) :
  Text.endswith a sa = true → Text.endswith (a ++ m) (sa ++ m) = true.
Proof.
  intros [pre ->]%endswith_split. rewrite <- (assoc_L (++)).
  unfold Text.endswith. rewrite (rev_app_distr pre).
  apply startswith_refl_app.
Qed.

End EnhancedPrompt.

(** X14.  The prompt the image agent sends opens with one of four fixed
    sentences, chosen by the style of the request: an unknown style,
    which [ImageRequest] accepts as it accepts any text, gets the sentence
    of the professional style.  The prompt carries the stripped prompt of
    the request and ends by naming the requested style, known or not. *)
Theorem enhanced_prompt_shape (request : ImageAgent.Request.t) :
  let style := ImageAgent.Request.style request in
  let prompt := ImageAgent._enhance_prompt request in
  (∃ sentence rest,
     prompt = sentence ++ nl ++ nl ++ ImageAgent.Request.prompt request ++ rest
     ∧ sentence = ImageAgent.style_prompt style
     ∧ In sentence
         [AgentRequests.PROFESSIONAL; AgentRequests.MODERN;
          AgentRequests.ARTISTIC; AgentRequests.MINIMALIST]
     ∧ (¬ In style [lit "modern"; lit "artistic"; lit "minimalist"] →
        sentence = AgentRequests.PROFESSIONAL))
  ∧ contains prompt (ImageAgent.Request.prompt request) = true
  ∧ Text.endswith prompt
      (lit "- Consistent with requested style (" ++ style ++ lit ")") = true
  ∧ (∀ message,
       ImageAgent.ImageRequest message = Ok request →
       style = default (lit "professional") (ImageAgent.Message.style message)).
Proof.
  intros style prompt. subst style prompt.
  unfold ImageAgent._enhance_prompt.
  change ImageAgent.image_prompt_0 with (@nil N).
  change ImageAgent.image_prompt_1 with (nl ++ nl).
  change ImageAgent.image_prompt_3 with (lit ")").
  cbn [app]. split; [|split; [|split]].
  - exists (ImageAgent.style_prompt (ImageAgent.Request.style request)),
      (ImageAgent.image_prompt_2 ++ ImageAgent.Request.style request
       ++ lit ")").
    split; [by rewrite <- !(assoc_L (++))|]. split; [done|].
    apply style_prompt_choice.
  - apply contains_app_r, (contains_app_r nl), (contains_app_r nl).
    apply contains_prefix.
  - apply endswith_app_r, (endswith_app_r nl), (endswith_app_r nl).
    apply endswith_app_r, endswith_field. by vm_compute.
  - intros message. unfold ImageAgent.ImageRequest.
    repeat case_match; try done. by intros [= <-].
Qed.

Section ReachableAgents.
Context `{Runtime}.
Import Config ConfigSpec AgentSpec.


End ReachableAgents.


(** ** Further properties of the demo pipeline *)

Section SimulatedRun.
Context `{Runtime}.
Import Config AgentSpec DemoSpec.

(** The placeholder image of the templated keywords of a topic. *)
Lemma simulated_keywords_image (topic : pystr) :
  Demo._generate_simulation_image
    (Brief.keywords (Templates.get_enhanced_research_content topic))
  = (seed ← Demo.seed_of (DemoMain.keyword_text topic);
     Ok {| Demo.ImageResult.image_url :=
             Some (lit "https://picsum.photos/seed/" ++ seed
                   ++ lit "/800/400");
           Demo.ImageResult.alt_text :=
             lit "Professional illustration representing "
             ++ DemoMain.keyword_text topic;
           Demo.ImageResult.dimensions := VStr (lit "800x400");
           Demo.ImageResult.format := lit "JPEG";
           Demo.ImageResult.generation_method :=
             lit "Procedural (DALL-E 3 Ready)" |}).
Proof. reflexivity. Qed.

Lemma seed_of_keyword_text (topic : pystr) :
  Demo.seed_of (DemoMain.keyword_text topic)
  = (bytes ← UTF8.encode (str_lower topic);
     Ok (firstn 12
           (MD5.hexdigest
              (bytes
               ++ default []
                    (match UTF8.encode (lit " innovation market growth") with
                     | Ok tail => Some tail
                     | Raise _ => None
                     end))))).
Proof.
  unfold Demo.seed_of, DemoMain.keyword_text. rewrite encode_app.
  by destruct (UTF8.encode (str_lower topic)).
Qed.

End SimulatedRun.

(** X16.  In simulation mode the demo pipeline behaves the same for every
    topic.  It fails, with [UnicodeEncodeError], exactly when the
    lower-cased topic cannot be encoded in UTF-8, since the placeholder
    image hashes it.  Otherwise it returns an HTML document that carries
    the topic in its title and heading, the placeholder image whose seed is
    the 12-digit hash of the first three keywords, the three attribution
    lines of a simulated run, the quality score 92.6%, the templated
    article, and the six keywords in its footer. *)
Theorem demo_document_for_every_topic `{Runtime}
    (ai_config : Config.AIConfig) (openai_client : option OpenAI.Client)
    (topic : pystr) :
  DemoSpec.all_simulation ai_config →
  (∀ e, UTF8.encode (str_lower topic) = Raise e →
        Demo.process ai_config openai_client topic = Raise UnicodeEncodeError)
  ∧ (∀ bytes, UTF8.encode (str_lower topic) = Ok bytes →
       ∃ html seed,
         Demo.process ai_config openai_client topic
         = Ok (DemoMain.document html)
         ∧ Demo.seed_of (DemoMain.keyword_text topic) = Ok seed
         ∧ length seed = 12%nat
         ∧ contains html
             (lit "<title>Strategic Analysis: " ++ topic ++ lit "</title>")
           = true
         ∧ contains html
             (lit "<img src=" ++ dq
              ++ (lit "https://picsum.photos/seed/" ++ seed ++ lit "/800/400")
              ++ dq) = true
         ∧ Forall (λ line, contains html line = true)
             DemoSpec.attribution_lines
         ∧ contains html (lit "Content Quality Score: 92.6%") = true
         ∧ contains html
             (lit "<h1>Strategic Analysis: " ++ topic ++ lit "</h1>") = true
         ∧ (let brief := Templates.get_enhanced_research_content topic in
            contains html
              (Templates.get_enhanced_writing_content (Brief.title brief)
                 (Brief.executive_summary brief) (Brief.key_points brief))
            = true)
         ∧ contains html
             (lit "<p><strong>Keywords:</strong> "
              ++ DemoMain.keywords_text topic ++ lit "</p>") = true).
Proof.
  intros Hsim. pose proof Hsim as (Hr & Hw & Hi).
  assert (Hrun : Demo.process ai_config openai_client topic
    = (image ← Demo._generate_simulation_image
                 (Brief.keywords (Templates.get_enhanced_research_content topic));
       let brief := Templates.get_enhanced_research_content topic in
       let article :=
         Templates.get_enhanced_writing_content (Brief.title brief)
           (Brief.executive_summary brief) (Brief.key_points brief) in
       Ok (DemoMain.document
             (Demo._create_enhanced_html 5
                (Demo.Message.new 1 brief (Some Demo.ENHANCED_SIMULATION))
                (Demo.Message.new 2
                   {| Demo.WriterResult.article_text := article;
                      Demo.WriterResult.keywords := Brief.keywords brief;
                      Demo.WriterResult.word_count := len (split article);
                      Demo.WriterResult.writing_style := lit "professional" |}
                   (Some Demo.ENHANCED_SIMULATION))
                (Demo.Message.new 4 image
                   (Some Demo.ENHANCED_SIMULATION)))))).
  { unfold Demo.process, Demo.stages.
    rewrite (demo_display_simulation _ Hsim).
    cbn [mbind result_bind Py.bind].
    rewrite (demo_research_simulation _ _ _ _ Hr).
    cbn [mbind result_bind Py.bind].
    rewrite (demo_writer_simulation _ _ _ _ Hw).
    cbn [mbind result_bind Py.bind].
    rewrite (demo_image_simulation _ _ _ _ Hi).
    cbn [Demo.Message.content Demo.Message.new Demo.WriterResult.keywords].
    by destruct (Demo._generate_simulation_image _). }
  rewrite Hrun, simulated_keywords_image, seed_of_keyword_text.
  split.
  - intros e He. rewrite He. simpl.
    by rewrite (encode_raises _ _ He).
  - intros bytes Hb. rewrite Hb.
    cbn [mbind result_bind Py.bind].
    eexists _, _. split; [reflexivity|]. split; [reflexivity|].
    split; [by rewrite length_take, length_hexdigest|].
    unfold Demo._create_enhanced_html, Demo.str_opt,
      Templates.get_enhanced_research_content.
    cbn [Demo.Message.content Demo.Message.new Demo.Message.model_used
           Brief.title Brief.executive_summary Brief.key_points
           Brief.keywords Brief.research_confidence Brief.methodology
           Demo.ImageResult.image_url Demo.ImageResult.alt_text
           Demo.WriterResult.article_text default from_option id].
    match goal with
    | |- context [take 12 ?digest] => generalize (take 12 digest)
    end.
    intros seed.
    assert (Hscore : PyFloat.format_fixed 1 (0.926 * 100) = lit "92.6")
      by (by vm_compute).
    rewrite Hscore.
    split.
    { eapply (contains_field _ _ Demo.html_0 _ Demo.html_1 _
                (lit "<title>") (lit "</title>"));
        [reflexivity|by vm_compute..]. }
    split.
    { do 2 apply contains_app_r.
      eapply (contains_field _ _ Demo.html_1 _ Demo.html_2 _
                (lit "<img src=" ++ dq) dq);
        [reflexivity|by vm_compute..]. }
    split.
    { unfold DemoSpec.attribution_lines.
      apply List.Forall_cons;
        [|apply List.Forall_cons;
           [|apply List.Forall_cons; [|apply List.Forall_nil]]].
      - do 6 apply contains_app_r.
        eapply (contains_field _ _ Demo.html_3 _ Demo.html_4 _
                  (lit "<li>Research Analysis: ") (lit "</li>"));
          [reflexivity|by vm_compute..].
      - do 8 apply contains_app_r.
        eapply (contains_field _ _ Demo.html_4 _ Demo.html_5 _
                  (lit "<li>Content Generation: ") (lit "</li>"));
          [reflexivity|by vm_compute..].
      - do 10 apply contains_app_r.
        eapply (contains_field _ _ Demo.html_5 _ Demo.html_6 _
                  (lit "<li>Image Creation: ") (lit "</li>"));
          [reflexivity|by vm_compute..]. }
    split.
    { do 12 apply contains_app_r.
      eapply (contains_field _ _ Demo.html_6 _ Demo.html_7 _
                (lit "Content Quality Score: ") (lit "%"));
        [reflexivity|by vm_compute..]. }
    split.
    { do 14 apply contains_app_r.
      eapply (contains_field _ _ Demo.html_7 _ Demo.html_8 _
                (lit "<h1>") (lit "</h1>"));
        [reflexivity|by vm_compute..]. }
    split.
    { do 21 apply contains_app_r. eapply contains_lead. reflexivity. }
    do 26 apply contains_app_r.
    eapply (contains_last_field _ _ Demo.html_13 _ Demo.html_14
              (lit "<p><strong>Keywords:</strong> ") (lit "</p>"));
      [reflexivity|by vm_compute..].
Qed.

Lemma demo_document_for_every_topic_witness :
  (∃ html,
     Demo.process (H := AgentSpec.offline) AgentSpec.simulation_config None
       (lit "Solar Power") = Ok (DemoMain.document (H := AgentSpec.offline) html)
     ∧ contains html (lit "<title>Strategic Analysis: Solar Power</title>")
       = true
     ∧ contains html
         (lit "<p><strong>Keywords:</strong> solar power, innovation, "
          ++ lit "market growth, technology, digital transformation, "
          ++ lit "strategic analysis</p>") = true)
  ∧ Demo.process (H := AgentSpec.offline) AgentSpec.simulation_config None
      [55296%N] = Raise UnicodeEncodeError.
Proof.
  split.
  - destruct (demo_document_for_every_topic (H := AgentSpec.offline)
                AgentSpec.simulation_config None (lit "Solar Power"))
      as [_ Hok]; [repeat split; by vm_compute|].
    destruct (Hok (default [] (match UTF8.encode (lit "solar power") with
                               | Ok b => Some b
                               | Raise _ => None
                               end)))
      as (html & seed & Hdoc & _ & _ & Htitle & _ & _ & _ & _ & _ & Hkw);
      [by vm_compute|].
    exists html. split; [exact Hdoc|]. split; [exact Htitle|exact Hkw].
  - destruct (demo_document_for_every_topic (H := AgentSpec.offline)
                AgentSpec.simulation_config None [55296%N])
      as [Hfail _]; [repeat split; by vm_compute|].
    apply (Hfail UnicodeEncodeError). by vm_compute.
Defined.

Section DemoWithoutClient.
Context `{Runtime}.
Import Config AgentSpec DemoSpec.

Lemma demo_research_no_client (ai_config : AIConfig) (tick : nat)
    (message : Demo.Message.t pystr) (info : Demo.ModelInfo) :
  Demo.get_model_info (research_config ai_config) = Ok info →
  Demo.research_process ai_config None tick message
  = Ok (Demo.Message.new tick
          (Templates.get_enhanced_research_content
             (Demo.Message.content message))
          (Some Demo.ENHANCED_SIMULATION)).
Proof.
  unfold Demo.research_process. intros ->.
  cbn [mbind result_bind Py.bind].
  by destruct (Demo.use_real_ai _ _).
Qed.

Lemma demo_writer_no_client (ai_config : AIConfig) (tick : nat)
    (message : Demo.Message.t Brief.t) (info : Demo.ModelInfo) :
  Demo.get_model_info (writing_config ai_config) = Ok info →
  Demo.writer_process ai_config None tick message
  = let brief := Demo.Message.content message in
    let article_html :=
      Templates.get_enhanced_writing_content (Brief.title brief)
        (Brief.executive_summary brief) (Brief.key_points brief) in
    Ok (Demo.Message.new tick
          {| Demo.WriterResult.article_text := article_html;
             Demo.WriterResult.keywords := Brief.keywords brief;
             Demo.WriterResult.word_count := len (split article_html);
             Demo.WriterResult.writing_style := lit "professional" |}
          (Some Demo.ENHANCED_SIMULATION)).
Proof.
  unfold Demo.writer_process. intros ->.
  cbn [mbind result_bind Py.bind].
  by destruct (Demo.use_real_ai _ _).
Qed.

Lemma demo_image_no_client (ai_config : AIConfig) (tick : nat)
    (message : Demo.Message.t (list pystr)) (info : Demo.ModelInfo) :
  Demo.get_model_info (image_config ai_config) = Ok info →
  Demo.image_process ai_config None tick message
  = (result ← Demo._generate_simulation_image (Demo.Message.content message);
     Ok (Demo.Message.new tick result (Some Demo.ENHANCED_SIMULATION))).
Proof.
  unfold Demo.image_process. intros ->.
  cbn [mbind result_bind Py.bind].
  destruct (Demo.use_real_ai _ _); simpl;
    by destruct (Demo._generate_simulation_image _).
Qed.

Lemma demo_display_ok (ai_config : AIConfig) :
  Demo._display_ai_config ai_config = Ok tt →
  ∃ r w i,
    Demo.get_model_info (research_config ai_config) = Ok r
    ∧ Demo.get_model_info (writing_config ai_config) = Ok w
    ∧ Demo.get_model_info (image_config ai_config) = Ok i.
Proof.
  unfold Demo._display_ai_config.
  destruct (Demo.get_model_info (research_config ai_config)) as [r|e];
    [|done].
  destruct (Demo.get_model_info (writing_config ai_config)) as [w|e];
    [|done].
  destruct (Demo.get_model_info (image_config ai_config)) as [i|e];
    [|done].
  intros _. by exists r, w, i.
Qed.

(** The stages of a run without a client. *)
Lemma demo_stages_no_client (ai_config : AIConfig) (topic : pystr) :
  Demo._display_ai_config ai_config = Ok tt →
  Demo.stages ai_config None topic
  = (let research_result :=
       Demo.Message.new 1 (Templates.get_enhanced_research_content topic)
         (Some Demo.ENHANCED_SIMULATION) in
     let brief := Demo.Message.content research_result in
     let article_html :=
       Templates.get_enhanced_writing_content (Brief.title brief)
         (Brief.executive_summary brief) (Brief.key_points brief) in
     let writer_result :=
       Demo.Message.new 2
         {| Demo.WriterResult.article_text := article_html;
            Demo.WriterResult.keywords := Brief.keywords brief;
            Demo.WriterResult.word_count := len (split article_html);
            Demo.WriterResult.writing_style := lit "professional" |}
         (Some Demo.ENHANCED_SIMULATION) in
     image ← Demo._generate_simulation_image (Brief.keywords brief);
     Ok (research_result, writer_result,
         Demo.Message.new 4 image (Some Demo.ENHANCED_SIMULATION))).
Proof.
  intros Hd.
  destruct (demo_display_ok _ Hd) as (r & w & i & Hr & Hw & Hi).
  unfold Demo.stages. rewrite Hd.
  cbn [mbind result_bind Py.bind].
  rewrite (demo_research_no_client _ _ _ _ Hr).
  cbn [mbind result_bind Py.bind Demo.Message.content Demo.Message.new].
  rewrite (demo_writer_no_client _ _ _ _ Hw).
  cbn [mbind result_bind Py.bind Demo.Message.content Demo.Message.new
         Demo.WriterResult.keywords].
  rewrite (demo_image_no_client _ _ _ _ Hi).
  cbn [Demo.Message.content Demo.Message.new].
  by destruct (Demo._generate_simulation_image _).
Qed.

Lemma demo_process_no_client (ai_config : AIConfig) (topic : pystr) :
  Demo._display_ai_config ai_config = Ok tt →
  Demo.process ai_config None topic
  = Demo.process simulation_config None topic.
Proof.
  intros Hd. unfold Demo.process.
  by rewrite (demo_stages_no_client _ _ Hd),
    (demo_stages_no_client simulation_config topic eq_refl).
Qed.

End DemoWithoutClient.

(** X17.  The demo reaches the API only through the global client that
    [init_openai_client] sets.  While that client is [None], every
    configuration whose model names can be displayed gives, for every topic,
    exactly the run of the configuration built without credentials: each
    stage falls back to its simulation and is labelled "Enhanced
    Simulation", also in real mode with a valid key. *)
Theorem demo_without_client_is_simulated `{Runtime}
    (ai_config : Config.AIConfig) (topic : pystr) :
  Demo._display_ai_config ai_config = Ok tt →
  Demo.stages ai_config None topic
  = Demo.stages AgentSpec.simulation_config None topic
  ∧ Demo.process ai_config None topic
    = Demo.process AgentSpec.simulation_config None topic
  ∧ ∀ research_result writer_result image_result,
      Demo.stages ai_config None topic
      = Ok (research_result, writer_result, image_result) →
      Demo.Message.model_used research_result = Some Demo.ENHANCED_SIMULATION
      ∧ Demo.Message.model_used writer_result = Some Demo.ENHANCED_SIMULATION
      ∧ Demo.Message.model_used image_result = Some Demo.ENHANCED_SIMULATION.
Proof.
  intros Hdisplay. split; [|split].
  - by rewrite (demo_stages_no_client _ _ Hdisplay),
      (demo_stages_no_client AgentSpec.simulation_config topic eq_refl).
  - by apply demo_process_no_client.
  - intros research_result writer_result image_result.
    rewrite (demo_stages_no_client _ _ Hdisplay). cbn zeta.
    destruct (Demo._generate_simulation_image _) as [image|e]; [|done].
    cbn [mbind result_bind Py.bind].
    by intros [= <- <- <-].
Qed.

Lemma demo_without_client_is_simulated_witness :
  Demo._display_ai_config AgentSpec.real_config = Ok tt
  ∧ ConfigSpec.all_real AgentSpec.real_config
  ∧ Demo.process (H := AgentExtra.answering) AgentSpec.real_config None
      (lit "Solar Power")
    = Demo.process (H := AgentExtra.answering) AgentSpec.simulation_config
        None (lit "Solar Power").
Proof.
  split; [by vm_compute|]. split; [by vm_compute|].
  destruct (demo_without_client_is_simulated (H := AgentExtra.answering)
              AgentSpec.real_config (lit "Solar Power")) as (_ & Hp & _);
    [by vm_compute|].
  exact Hp.
Defined.

(** X18.  The demo's writer trusts the API where the package's writer
    checks it.  In real mode with a client, the demo returns the first
    choice as the article whatever its length, labelled with the model
    name; a first choice without content makes it raise [AttributeError],
    outside the handler; a failing call or an empty answer gives the
    simulation.  The package's writer replaces an article of fewer than 100
    words, and a missing one, by the simulation. *)
Theorem demo_writer_trusts_the_api `{Runtime}
    (ai_config : Config.AIConfig) (client : OpenAI.Client) (tick : nat)
    (message : Demo.Message.t Brief.t) (info : Demo.ModelInfo) :
  Demo.use_real_ai ai_config (Config.writing_config ai_config) = true →
  Demo.get_model_info (Config.writing_config ai_config) = Ok info →
  let brief := Demo.Message.content message in
  let answer :=
    chat_completions_create client (DemoMain.writer_chat ai_config brief) in
  let model :=
    py_str (dict_get_or (Config.writing_config ai_config) "model"
              Demo.default_model) in
  let simulated :=
    DemoMain.written tick brief
      (Templates.get_enhanced_writing_content (Brief.title brief)
         (Brief.executive_summary brief) (Brief.key_points brief))
      Demo.ENHANCED_SIMULATION in
  (∀ article rest,
     answer = Ok (Some article :: rest) →
     Demo.writer_process ai_config (Some client) tick message
     = Ok (DemoMain.written tick brief article model))
  ∧ (∀ rest,
       answer = Ok (None :: rest) →
       Demo.writer_process ai_config (Some client) tick message
       = Raise AttributeError)
  ∧ (answer = Ok [] →
     Demo.writer_process ai_config (Some client) tick message = Ok simulated)
  ∧ (∀ e,
       answer = Raise e →
       Demo.writer_process ai_config (Some client) tick message
       = Ok simulated)
  ∧ (∀ (self : Agent.t) request_message request content rest,
       Agent.openai_client self = Some client →
       AgentSpec.real_mode (Config.writing_config ai_config) →
       AgentSpec.model_is_str (Config.writing_config ai_config) →
       WriterAgent.WriterRequest request_message = Ok request →
       chat_completions_create client
         (AgentRequests.writer_chat ai_config request)
       = Ok (content :: rest) →
       match content with
       | Some article => len (split article) < 100
       | None => True
       end →
       WriterAgent.process ai_config self request_message
       = (self, WriterAgent.simulation request)).
Proof.
  intros Hreal Hinfo brief answer model simulated.
  assert (Hprocess :
    Demo.writer_process ai_config (Some client) tick message
    = match
        match answer with
        | Ok [] => Ok (Some (Templates.get_enhanced_writing_content
                               (Brief.title brief)
                               (Brief.executive_summary brief)
                               (Brief.key_points brief)),
                       Demo.ENHANCED_SIMULATION)
        | Ok (content :: _) => Ok (content, model)
        | Raise e =>
            if isinstance e Exception
            then Ok (Some (Templates.get_enhanced_writing_content
                             (Brief.title brief)
                             (Brief.executive_summary brief)
                             (Brief.key_points brief)),
                     Demo.ENHANCED_SIMULATION)
            else Raise e
        end
      with
      | Ok (Some article_html, model_used) =>
          Ok (DemoMain.written tick brief article_html model_used)
      | Ok (None, _) => Raise AttributeError
      | Raise e => Raise e
      end).
  { unfold Demo.writer_process. rewrite Hinfo, Hreal.
    cbn [mbind result_bind Py.bind].
    unfold Demo.writer_call_real_ai.
    change (chat_completions_create client _) with answer.
    by destruct answer as [[|[article|] rest]|e]. }
  split; [|split; [|split; [|split]]].
  - intros article rest Ha. by rewrite Hprocess, Ha.
  - intros rest Ha. by rewrite Hprocess, Ha.
  - intros Ha. by rewrite Hprocess, Ha.
  - intros e Ha. by rewrite Hprocess, Ha, isinstance_Exception.
  - intros self request_message request content rest Hc Hmode Hstr Hreq Hchat
      Hshort.
    rewrite (writer_process_real _ _ _ _ Hreq Hmode Hstr).
    unfold WriterAgent.real_attempt.
    rewrite (init_openai_client_kept _ _ _ Hc).
    rewrite bool_decide_eq_true_2 by (by rewrite Hc).
    unfold WriterAgent._call_real_ai. rewrite Hc.
    change (chat_completions_create client _)
      with (chat_completions_create client
              (AgentRequests.writer_chat ai_config request)).
    rewrite Hchat. simpl. destruct content as [article|]; simpl; [|done].
    unfold WriterAgent.WriterResponse.
    by rewrite (proj2 (Z.leb_gt _ _) Hshort).
Qed.

Lemma demo_writer_trusts_the_api_witness :
  Demo.writer_process (H := AgentExtra.answering) AgentSpec.real_config
    (Some AgentExtra.client) 2
    (Demo.Message.new (H := AgentExtra.answering) 1 AgentExtra.answer None)
  = Ok (DemoMain.written (H := AgentExtra.answering) 2 AgentExtra.answer
          (lit "{...}") (lit "gpt-4-1106-preview"))
  ∧ len (split (lit "{...}")) = 1.
Proof.
  split; [|by vm_compute].
  destruct (demo_writer_trusts_the_api (H := AgentExtra.answering)
              AgentSpec.real_config AgentExtra.client 2
              (Demo.Message.new (H := AgentExtra.answering) 1
                 AgentExtra.answer None)
              (Demo.ModelAtTemp (lit "gpt-4-1106-preview")
                 (VFloat 0.7%float)))
    as (Hreturned & _); [by vm_compute..|].
  by apply (Hreturned (lit "{...}") []).
Defined.

Section Main.
Context `{Runtime}.
Import Config.

Lemma init_succeeds (env : environ) : __init__ env = Ok (init_object env).
Proof. reflexivity. Qed.

Lemma enable_openai_at_start (env : environ) :
  has_valid_api_key (init_object env) OPENAI = true →
  enable_real_ai (init_object env) OPENAI
  = (fst (enable_real_ai (init_object env) OPENAI), Ok tt).
Proof. unfold enable_real_ai. by intros ->. Qed.

End Main.

(** X19.  [main] cannot fail while it configures: the configuration it builds
    validates, and switching it to OpenAI succeeds whenever the key check
    that guards the question passed.  Without a valid OpenAI key, or with
    an answer that does not start with "y" or "Y", it runs the pipeline of
    the configuration built without credentials on the fixed topic, without
    a client; otherwise it runs it in real mode for all three capabilities
    with the client made from the OpenAI key, and only the construction of
    that client can fail before the pipeline starts. *)
Theorem main_runs_the_pipeline `{Runtime}
    (env : Config.environ) (answer : pystr) :
  let ai_config := Config.init_object env in
  let real_config := fst (Config.enable_real_ai ai_config Config.OPENAI) in
  DemoMain.main env answer
  = (if Config.has_valid_api_key ai_config Config.OPENAI
        && startswith (str_lower answer) (lit "y")
     then
       client ← AsyncOpenAI (Config.getenv env "OPENAI_API_KEY");
       Demo.process real_config (Some client) DemoMain.TOPIC
     else Demo.process AgentSpec.simulation_config None DemoMain.TOPIC)
  ∧ (Config.has_valid_api_key ai_config Config.OPENAI = true →
     Config.provider real_config = Config.OPENAI
     ∧ ConfigSpec.all_real real_config
     ∧ Demo.use_real_ai real_config (Config.research_config real_config)
       = true
     ∧ Demo.use_real_ai real_config (Config.writing_config real_config)
       = true
     ∧ Demo.use_real_ai real_config (Config.image_config real_config) = true).
Proof.
  intros ai_config real_config. subst ai_config real_config. split.
  - unfold DemoMain.main. rewrite init_succeeds.
    cbn [mbind result_bind Py.bind].
    destruct (Config.has_valid_api_key (Config.init_object env) Config.OPENAI)
      eqn:Hk; cbn [andb].
    + destruct (startswith (str_lower answer) (lit "y")).
      * rewrite (enable_openai_at_start env Hk).
        unfold DemoMain.init_openai_client.
        replace (mjoin (Config.api_keys
                          (fst (Config.enable_real_ai (Config.init_object env)
                                  Config.OPENAI)) !! "openai"))
          with (Config.getenv env "OPENAI_API_KEY").
        { by destruct (AsyncOpenAI _). }
        rewrite (enable_real_ai_valid _ _ Hk). simpl.
        by rewrite lookup_insert_eq.
      * cbn [mbind result_bind Py.bind].
        by apply demo_process_no_client.
    + cbn [mbind result_bind Py.bind]. by apply demo_process_no_client.
  - intros Hk.
    assert (Hk' : Config.has_valid_api_key
                    (fst (Config.enable_real_ai (Config.init_object env)
                            Config.OPENAI)) Config.OPENAI = true).
    { rewrite <- Hk. apply has_valid_api_key_ext.
      by rewrite (enable_real_ai_valid _ _ Hk). }
    unfold Demo.use_real_ai. rewrite Hk'.
    rewrite (enable_real_ai_valid _ _ Hk).
    repeat split; by vm_compute.
Qed.

(** ** Further properties of the BMI endpoint *)

Section BmiFailures.

(** No number is below, or at most, something that is not a number. *)
Lemma nan_ltb (x y : float) : is_nan x = true → PrimFloat.ltb x y = false.
Proof. intros Hx%nan_spec. by rewrite ltb_spec, Hx. Qed.

Lemma nan_leb (x y : float) : is_nan x = true → PrimFloat.leb x y = false.
Proof. intros Hx%nan_spec. by rewrite leb_spec, Hx. Qed.

(** Apart from the two zeros, [==] on floats is equality. *)
Lemma SFeqb_eq (a b : spec_float) :
  SFeqb a b = true → (∀ s, b ≠ S754_zero s) → a = b.
Proof.
  unfold SFeqb. intros Hab Hb.
  destruct a as [sa|sa| |sa ma ea], b as [sb|sb| |sb mb eb]; simpl in Hab;
    try done; try (by destruct (Hb sb)); try (by destruct sa, sb);
    try (by destruct sa); try (by destruct sb).
  destruct sa, sb; try done;
    destruct (Z.compare_spec ea eb) as [->| |]; try done;
    change (Pos.compare_cont Eq ?x ?y) with (Pos.compare x y) in Hab;
    destruct (Pos.compare_spec ma mb) as [->| |]; done.
Qed.

Lemma eqb_eq (x y : float) :
  PrimFloat.eqb x y = true → (∀ s, Prim2SF y ≠ S754_zero s) → x = y.
Proof.
  rewrite FloatAxioms.eqb_spec. intros Hxy Hy.
  apply Prim2SF_inj. by apply SFeqb_eq.
Qed.

Context `{Bmi.Libm}.

(** For a height above 0, the square is zero, and infinite, as the
    library's [pow] says. *)
Lemma square_range (x : float) :
  PrimFloat.ltb 0%float x = true → Bmi.same_range_at x →
  PrimFloat.eqb (Bmi.square x) 0%float
  = PrimFloat.eqb (PrimFloat.mul x x) 0%float
  ∧ is_infinity (Bmi.square x) = is_infinity (PrimFloat.mul x x).
Proof.
  intros (Hnan & Hzero & Habs)%positive_spec [Hz Hi].
  unfold Bmi.square. rewrite Hnan, Hzero, Habs.
  destruct (is_infinity x) eqn:Hinf.
  { unfold is_infinity in Hinf. rewrite Habs in Hinf.
    apply eqb_eq in Hinf as ->; [by vm_compute|].
    intros s. by vm_compute. }
  destruct (PrimFloat.eqb x 1) eqn:Hone; [|done].
  apply eqb_eq in Hone as ->; [by vm_compute|].
  intros s. by vm_compute.
Qed.

End BmiFailures.

(** X20.  The bounds on the query parameters do not prevent every failure
    of the BMI endpoint.  For a weight and a height that are both greater
    than 0, the handler raises [ZeroDivisionError] when the square of the
    height underflows to zero and [OverflowError] when it overflows, and it
    raises nothing else; it raises [ValidationError] exactly for a
    parameter that is not greater than 0, which includes NaN.  The square
    is the one [height_m ** 2] evaluates to; it can be replaced by the
    correctly rounded product wherever the library's [pow] is zero, and
    infinite, exactly when that product is. *)
Theorem bmi_fails_beyond_validation `{Bmi.Libm} (weight_kg height_m : float) :
  (Bmi.bmi weight_kg height_m = Raise ValidationError
   ↔ PrimFloat.ltb 0%float weight_kg = false
     ∨ PrimFloat.ltb 0%float height_m = false)
  ∧ (is_nan weight_kg = true ∨ is_nan height_m = true →
     Bmi.bmi weight_kg height_m = Raise ValidationError)
  ∧ (PrimFloat.ltb 0%float weight_kg = true →
     PrimFloat.ltb 0%float height_m = true →
     let squared := Bmi.square height_m in
     (PrimFloat.eqb squared 0%float = true →
      Bmi.bmi weight_kg height_m = Raise ZeroDivisionError)
     ∧ (is_infinity squared = true → is_infinity height_m = false →
        Bmi.bmi weight_kg height_m = Raise OverflowError)
     ∧ (∀ e, Bmi.bmi weight_kg height_m = Raise e →
          (e = ZeroDivisionError ∧ PrimFloat.eqb squared 0%float = true)
          ∨ (e = OverflowError ∧ is_infinity squared = true
             ∧ is_infinity height_m = false)))
  ∧ (PrimFloat.ltb 0%float weight_kg = true →
     PrimFloat.ltb 0%float height_m = true →
     Bmi.same_range_at height_m →
     let squared := PrimFloat.mul height_m height_m in
     (PrimFloat.eqb squared 0%float = true →
      Bmi.bmi weight_kg height_m = Raise ZeroDivisionError)
     ∧ (is_infinity squared = true → is_infinity height_m = false →
        Bmi.bmi weight_kg height_m = Raise OverflowError)
     ∧ (∀ e, Bmi.bmi weight_kg height_m = Raise e →
          (e = ZeroDivisionError ∧ PrimFloat.eqb squared 0%float = true)
          ∨ (e = OverflowError ∧ is_infinity squared = true
             ∧ is_infinity height_m = false))).
Proof.
  assert (Hsquare : PrimFloat.ltb 0%float weight_kg = true →
     PrimFloat.ltb 0%float height_m = true →
     let squared := Bmi.square height_m in
     (PrimFloat.eqb squared 0%float = true →
      Bmi.bmi weight_kg height_m = Raise ZeroDivisionError)
     ∧ (is_infinity squared = true → is_infinity height_m = false →
        Bmi.bmi weight_kg height_m = Raise OverflowError)
     ∧ (∀ e, Bmi.bmi weight_kg height_m = Raise e →
          (e = ZeroDivisionError ∧ PrimFloat.eqb squared 0%float = true)
          ∨ (e = OverflowError ∧ is_infinity squared = true
             ∧ is_infinity height_m = false))).
  { intros Hw Hh squared. unfold Bmi.bmi, Bmi.pow2, Bmi.truediv.
    rewrite Hw, Hh. cbn [negb]. fold squared.
    split; [|split].
    + intros Hz.
      assert (Hi : is_infinity squared = false).
      { unfold is_infinity. revert Hz.
        rewrite !FloatAxioms.eqb_spec, abs_spec.
        destruct (Prim2SF squared) as [s|s| |s m e]; try destruct s;
          by vm_compute. }
      rewrite Hi. simpl. by rewrite Hz.
    + by intros -> ->.
    + intros e.
      destruct (is_infinity squared) eqn:Hi,
        (is_infinity height_m) eqn:Hj; simpl.
      * destruct (PrimFloat.eqb squared 0) eqn:Hz; [|done].
        intros [= <-]. by left.
      * intros [= <-]. by right.
      * destruct (PrimFloat.eqb squared 0) eqn:Hz; [|done].
        intros [= <-]. by left.
      * destruct (PrimFloat.eqb squared 0) eqn:Hz; [|done].
        intros [= <-]. by left. }
  split; [|split; [|split]].
  - unfold Bmi.bmi, Bmi.pow2, Bmi.truediv.
    destruct (PrimFloat.ltb 0 weight_kg); cbn [negb]; [|by split; [left|]].
    destruct (PrimFloat.ltb 0 height_m); cbn [negb];
      [|split; [by right|done]].
    split; [|by intros [|]].
    destruct (is_infinity (Bmi.square height_m) && negb (is_infinity height_m));
      simpl; [done|].
    by destruct (PrimFloat.eqb (Bmi.square height_m) 0).
  - unfold Bmi.bmi.
    intros [Hw|Hh].
    + rewrite ltb_spec. rewrite (nan_spec _ Hw).
      by destruct (Prim2SF 0).
    + destruct (PrimFloat.ltb 0 weight_kg); cbn [negb]; [|done].
      rewrite ltb_spec. rewrite (nan_spec _ Hh).
      by destruct (Prim2SF 0).
  - exact Hsquare.
  - intros Hw Hh Hrange squared. subst squared.
    destruct (square_range _ Hh Hrange) as [Hz Hi].
    specialize (Hsquare Hw Hh). cbn zeta in Hsquare.
    by rewrite Hz, Hi in Hsquare.
Qed.

Lemma bmi_fails_beyond_validation_witness :
  PrimFloat.ltb 0%float 1e-200%float = true
  ∧ Bmi.bmi (H := Bmi.correctly_rounded) 70%float 1e-200%float
    = Raise ZeroDivisionError
  ∧ Bmi.bmi (H := Bmi.correctly_rounded) 70%float 1e200%float
    = Raise OverflowError.
Proof.
  split; [by vm_compute|].
  destruct (bmi_fails_beyond_validation (H := Bmi.correctly_rounded)
              70%float 1e-200%float) as (_ & _ & _ & Hsmall).
  destruct (bmi_fails_beyond_validation (H := Bmi.correctly_rounded)
              70%float 1e200%float) as (_ & _ & Hlarge & _).
  split.
  - apply Hsmall; by vm_compute.
  - apply Hlarge; by vm_compute.
Defined.

(** X21.  The chain of comparisons of the BMI endpoint ends in "Obesity":
    a value that is not a number, for which every comparison is false, is
    assessed "Obesity".  The handler does return such a value, for an
    infinite weight and an infinite height, which the bounds accept. *)
Theorem bmi_not_a_number_is_obesity `{Bmi.Libm}
    (weight_kg height_m : float) (r : Bmi.BMIResponse.t) :
  Bmi.bmi weight_kg height_m = Ok r →
  is_nan (Bmi.BMIResponse.bmi r) = true →
  Bmi.BMIResponse.assessment r = lit "Obesity".
Proof.
  intros Hr Hnan.
  destruct (bmi_result _ _ _ Hr) as (_ & _ & _ & ->).
  by rewrite (nan_ltb _ _ Hnan), !(nan_leb _ _ Hnan).
Qed.

Lemma bmi_not_a_number_is_obesity_witness :
  ∃ r, Bmi.bmi (H := Bmi.rounded_up) infinity infinity = Ok r
       ∧ is_nan (Bmi.BMIResponse.bmi r) = true
       ∧ Bmi.BMIResponse.assessment r = lit "Obesity".
Proof.
  exists {| Bmi.BMIResponse.bmi := nan;
            Bmi.BMIResponse.assessment := lit "Obesity" |}.
  assert (Hr : Bmi.bmi (H := Bmi.rounded_up) infinity infinity
               = Ok {| Bmi.BMIResponse.bmi := nan;
                       Bmi.BMIResponse.assessment := lit "Obesity" |})
    by (by vm_compute).
  split; [exact Hr|]. split; [by vm_compute|].
  apply (bmi_not_a_number_is_obesity (H := Bmi.rounded_up)
           infinity infinity _ Hr).
  by vm_compute.
Defined.
